(** * quin-calendar: the ICS renderer of [scrape.js] and the text filter of
    [filter.js]

    A shallow embedding of the rendering core of the repository and the
    properties of it that the specification states.

    Conventions of the embedding.
    - A JavaScript string is a Rocq [string] holding its UTF-8 encoding, one
      [ascii] per octet.  Every pattern the sources search for or replace is
      ASCII, so searching and replacing act on the octets as they act on the
      UTF-16 code units; [Buffer.from (s, 'utf8')] is then the identity and
      [fs.writeFileSync (_, s, 'utf8')] writes the octets of [s].  Lone
      surrogates have no image in this encoding and are outside the model.
    - A JavaScript number is a binary64 [float]; the arithmetic of the
      sources is the primitive IEEE arithmetic of [PrimFloat].
    - [undefined], [null] and a missing property are [None]. *)

From Stdlib Require Import String Ascii List ZArith Lia Bool Floats.
Import ListNotations.
Open Scope list_scope.
Open Scope string_scope.

(** ** JavaScript built-ins used by the sources *)

Module Js.

Definition CR : ascii := ascii_of_nat 13.
Definition LF : ascii := ascii_of_nat 10.
Definition TAB : ascii := ascii_of_nat 9.
Definition CRLF : string := String CR (String LF "").
Definition NL : string := String LF "".

Definition chr (n : nat) : string := String (ascii_of_nat n) "".

(** [o || d] on an optional string. *)
Definition orElse (o : option string) (d : string) : string :=
  match o with
  | Some (String c r) => String c r
  | _ => d
  end.

(** [s.split (sep)] for a one-character separator; never empty. *)
Fixpoint split (sep : ascii) (s : string) : list string :=
  match s with
  | "" => [""]
  | String c r =>
      if Ascii.eqb c sep then "" :: split sep r
      else match split sep r with
           | p :: ps => String c p :: ps
           | [] => [String c ""]
           end
  end.

(** [parts.join (sep)]. *)
Definition join (sep : string) (parts : list string) : string :=
  String.concat sep parts.

(** [s.includes (pat)]. *)
Fixpoint includes (pat s : string) : bool :=
  String.prefix pat s ||
  match s with
  | "" => false
  | String _ r => includes pat r
  end.

(** [s.replace (/c/g, rep)] for a single character [c]. *)
Fixpoint replaceChar (c : ascii) (rep : string) (s : string) : string :=
  match s with
  | "" => ""
  | String d r =>
      if Ascii.eqb d c then rep ++ replaceChar c rep r
      else String d (replaceChar c rep r)
  end.

(** [s.replace ('T', 'T')]: the first occurrence of the pattern is replaced
    by the same text. *)
Definition replaceFirstSame (s : string) : string := s.

(** ASCII lower-casing.  [toLowerCase] also maps letters outside ASCII,
    but the only text the sources look for afterwards is [unavailable], and
    no letter outside ASCII lower-cases to a run of its letters: U+0130
    becomes [i] followed by U+0307, which no occurrence can span. *)
Definition lowerAscii (c : ascii) : ascii :=
  let n := nat_of_ascii c in
  if (65 <=? n)%nat && (n <=? 90)%nat then ascii_of_nat (n + 32) else c.

Fixpoint toLowerCase (s : string) : string :=
  match s with
  | "" => ""
  | String c r => String (lowerAscii c) (toLowerCase r)
  end.

Fixpoint rev (s acc : string) : string :=
  match s with
  | "" => acc
  | String c r => rev r (String c acc)
  end.

(** The characters of [WhiteSpace] and [LineTerminator] (what [\s] matches
    and [trim] removes), each by its UTF-8 octets. *)
Definition whitespace : list string :=
  [ chr 9; chr 10; chr 11; chr 12; chr 13; chr 32;
    chr 194 ++ chr 160;                       (* U+00A0 *)
    chr 225 ++ chr 154 ++ chr 128;            (* U+1680 *)
    chr 226 ++ chr 128 ++ chr 128; chr 226 ++ chr 128 ++ chr 129;
    chr 226 ++ chr 128 ++ chr 130; chr 226 ++ chr 128 ++ chr 131;
    chr 226 ++ chr 128 ++ chr 132; chr 226 ++ chr 128 ++ chr 133;
    chr 226 ++ chr 128 ++ chr 134; chr 226 ++ chr 128 ++ chr 135;
    chr 226 ++ chr 128 ++ chr 136; chr 226 ++ chr 128 ++ chr 137;
    chr 226 ++ chr 128 ++ chr 138;            (* U+2000 .. U+200A *)
    chr 226 ++ chr 128 ++ chr 168; chr 226 ++ chr 128 ++ chr 169;
    chr 226 ++ chr 128 ++ chr 175;            (* U+2028, U+2029, U+202F *)
    chr 226 ++ chr 129 ++ chr 159;            (* U+205F *)
    chr 227 ++ chr 128 ++ chr 128;            (* U+3000 *)
    chr 239 ++ chr 187 ++ chr 191 ].          (* U+FEFF *)

(** [dropPrefix p s] is the rest of [s] after its prefix [p]. *)
Fixpoint dropPrefix (p s : string) : option string :=
  match p, s with
  | "", _ => Some s
  | String a p', String b s' =>
      if Ascii.eqb a b then dropPrefix p' s' else None
  | String _ _, "" => None
  end.

(** The rest of [s] after one leading character among [toks]. *)
Fixpoint dropOne (toks : list string) (s : string) : option string :=
  match toks with
  | [] => None
  | t :: ts =>
      match dropPrefix t s with
      | Some r => Some r
      | None => dropOne ts s
      end
  end.

(** Removes leading characters among [toks]; [fuel] bounds their number. *)
Fixpoint dropLeading (fuel : nat) (toks : list string) (s : string) : string :=
  match fuel with
  | O => s
  | S k =>
      match dropOne toks s with
      | Some (String c r) => dropLeading k toks (String c r)
      | Some "" => ""
      | None => s
      end
  end.

Definition trimStart (s : string) : string :=
  dropLeading (String.length s) whitespace s.

Definition trimEnd (s : string) : string :=
  rev (dropLeading (String.length s)
         (map (fun t => rev t "") whitespace) (rev s "")) "".

(** [s.trim ()]. *)
Definition trim (s : string) : string := trimEnd (trimStart s).

(** Decimal digits of a natural number, as [String (n)] prints an
    integer. *)
Definition digitChar (d : Z) : ascii :=
  ascii_of_nat (48 + Z.to_nat d).

Fixpoint digitsAux (fuel : nat) (n : Z) (acc : string) : string :=
  match fuel with
  | O => acc
  | S k =>
      let acc' := String (digitChar (n mod 10)) acc in
      if (n <? 10)%Z then acc' else digitsAux k (n / 10) acc'
  end.

Definition natToString (n : Z) : string :=
  digitsAux (S (Z.to_nat (Z.log2 n))) n "".

Fixpoint repeatStr (n : nat) (c : ascii) : string :=
  match n with
  | O => ""
  | S k => String c (repeatStr k c)
  end.

(** [s.padStart (w, '0')]. *)
Definition padStart0 (w : nat) (s : string) : string :=
  repeatStr (w - String.length s) "0"%char ++ s.

(** *** Numbers *)

Definition NaN : float := PrimFloat.nan.

Definition ofZ (z : Z) : float :=
  SF2Prim (SpecFloat.binary_normalize FloatOps.prec FloatOps.emax z 0 false).

Definition digitVal (c : ascii) : option Z :=
  let n := nat_of_ascii c in
  if (48 <=? n)%nat && (n <=? 57)%nat then Some (Z.of_nat (n - 48)) else None.

Fixpoint digitsVal (acc : Z) (s : string) : option Z :=
  match s with
  | "" => Some acc
  | String c r =>
      match digitVal c with
      | Some d => digitsVal (10 * acc + d) r
      | None => None
      end
  end.

(** [Number (s)] on the texts between the colons of a clock time: the
    empty string is 0 and a run of decimal digits is the nearest binary64
    number.  Signs, exponents, radix prefixes, [Infinity] and surrounding
    white space, which [Number] also reads, are outside the model and
    read as [NaN] here; a fraction cannot occur, the callers cut the text
    at its first full stop. *)
Definition Number (s : string) : float :=
  match digitsVal 0 s with
  | Some z => ofZ z
  | None => NaN
  end.

(** Truthiness of a number: [0], [-0] and [NaN] are falsy. *)
Definition truthyNum (x : float) : bool :=
  negb (PrimFloat.eqb x 0 || PrimFloat.is_nan x).

(** The integer value of a number that has one. *)
Definition toZ (x : float) : option Z :=
  match Prim2SF x with
  | SpecFloat.S754_zero _ => Some 0%Z
  | SpecFloat.S754_finite s m e =>
      let v := if (0 <=? e)%Z then (Zpos m * 2 ^ e)%Z
               else (Zpos m / 2 ^ (- e))%Z in
      if (0 <=? e)%Z || (Zpos m mod 2 ^ (- e) =? 0)%Z
      then Some (if s then (- v)%Z else v) else None
  | _ => None
  end.

(** [String (x)] for [NaN] and for a non-negative integer up to 2^53, the
    values a clock time gives.  Above 2^53 JavaScript prints the shortest
    digits that read back as [x], not all the digits of [x], and it prints
    an infinity by its name; the model does neither. *)
Definition numToString (x : float) : string :=
  match toZ x with
  | Some z => natToString z
  | None => "NaN"
  end.

(** [x.toFixed (2)] for [0 < x < 1e21]: the integer [n] nearest to
    [100 x], the larger one on a tie, printed with a point before its
    last two digits.  From 1e21 on JavaScript switches to exponent
    notation, which is not modelled. *)
Definition toFixed2 (x : float) : string :=
  match Prim2SF x with
  | SpecFloat.S754_finite false m e =>
      let n := if (0 <=? e)%Z then (Zpos m * 2 ^ e * 100)%Z
               else ((2 * Zpos m * 100 + 2 ^ (- e)) / 2 ^ (1 - e))%Z in
      natToString (n / 100) ++ "." ++ padStart0 2 (natToString (n mod 100))
  | _ => "0.00"
  end.

End Js.

(** ** UTF-8 *)

Module Utf8.

(** U+FFFD REPLACEMENT CHARACTER, in UTF-8. *)
Definition replacement : string := Js.chr 239 ++ Js.chr 191 ++ Js.chr 189.

(** State of the decoder between two octets: the octets of the character
    under way, how many are still needed, and the range the next one must
    lie in. *)
Record pending := {
  seen : string;
  needed : nat;
  lower : nat;
  upper : nat
}.

(** An octet read with no character under way: what is emitted and the
    character that starts, if one does. *)
Definition lead (c : ascii) : string * option pending :=
  let b := nat_of_ascii c in
  let start n lo hi :=
    ("", Some {| seen := String c ""; needed := n; lower := lo; upper := hi |}) in
  if (b <=? 127)%nat then (String c "", None)
  else if (194 <=? b)%nat && (b <=? 223)%nat then start 1%nat 128%nat 191%nat
  else if (224 <=? b)%nat && (b <=? 239)%nat then
    start 2%nat (if (b =? 224)%nat then 160 else 128)%nat
                (if (b =? 237)%nat then 159 else 191)%nat
  else if (240 <=? b)%nat && (b <=? 244)%nat then
    start 3%nat (if (b =? 240)%nat then 144 else 128)%nat
                (if (b =? 244)%nat then 143 else 191)%nat
  else (replacement, None).

(** The decoder of the Encoding Standard, which [buf.toString ('utf8')]
    runs, composed with the encoder: well-formed characters pass, every
    maximal ill-formed run of octets becomes one U+FFFD. *)
Fixpoint decode (st : option pending) (bytes : string) : string :=
  match bytes with
  | "" => match st with
          | Some _ => replacement
          | None => ""
          end
  | String c r =>
      match st with
      | None => let (out, st') := lead c in out ++ decode st' r
      | Some p =>
          let b := nat_of_ascii c in
          if (lower p <=? b)%nat && (b <=? upper p)%nat then
            match needed p with
            | 0%nat | 1%nat => seen p ++ String c "" ++ decode None r
            | S n =>
                decode (Some {| seen := seen p ++ String c ""; needed := n;
                                lower := 128; upper := 191 |}) r
            end
          else
            let (out, st') := lead c in
            replacement ++ out ++ decode st' r
      end
  end.

(** [Buffer.from (bytes).toString ('utf8')], as the UTF-8 of the result. *)
Definition toString (bytes : string) : string := decode None bytes.

End Utf8.

(** ** The entity decoder *)

Module He.

(** The replacements that the earlier [stripHtml] of the repository made
    by hand, kept as a sample of the named references. *)
Definition sampleNamed : list (string * string) :=
  [ ("amp", "&"); ("lt", "<"); ("gt", ">"); ("quot", Js.chr 34);
    ("nbsp", Js.chr 194 ++ Js.chr 160) ].

(** UTF-8 of a code point. *)
Definition encode (cp : Z) : string :=
  let byte (z : Z) := Js.chr (Z.to_nat z) in
  if (cp <? 128)%Z then byte cp
  else if (cp <? 2048)%Z then
    byte (192 + cp / 64)%Z ++ byte (128 + cp mod 64)%Z
  else if (cp <? 65536)%Z then
    byte (224 + cp / 4096)%Z ++ byte (128 + (cp / 64) mod 64)%Z
    ++ byte (128 + cp mod 64)%Z
  else
    byte (240 + cp / 262144)%Z ++ byte (128 + (cp / 4096) mod 64)%Z
    ++ byte (128 + (cp / 64) mod 64)%Z ++ byte (128 + cp mod 64)%Z.

(** The character of a numeric reference: surrogates and values above
    U+10FFFF become U+FFFD, 0 and 128..159 go through the table of the
    HTML standard. *)
Definition overrides : list (Z * Z) :=
  [ (0, 65533); (128, 8364); (130, 8218); (131, 402); (132, 8222);
    (133, 8230); (134, 8224); (135, 8225); (136, 710); (137, 8240);
    (138, 352); (139, 8249); (140, 338); (142, 381); (145, 8216);
    (146, 8217); (147, 8220); (148, 8221); (149, 8226); (150, 8211);
    (151, 8212); (152, 732); (153, 8482); (154, 353); (155, 8250);
    (156, 339); (158, 382); (159, 376) ]%Z.

Fixpoint assocZ (k : Z) (l : list (Z * Z)) : option Z :=
  match l with
  | [] => None
  | (a, b) :: r => if (a =? k)%Z then Some b else assocZ k r
  end.

Definition codePointToSymbol (cp : Z) : string :=
  if ((55296 <=? cp) && (cp <=? 57343) || (1114111 <? cp))%Z
  then Utf8.replacement
  else match assocZ cp overrides with
       | Some z => encode z
       | None => encode cp
       end.

Definition hexVal (c : ascii) : option Z :=
  let n := nat_of_ascii c in
  if (48 <=? n)%nat && (n <=? 57)%nat then Some (Z.of_nat (n - 48))
  else if (65 <=? n)%nat && (n <=? 70)%nat then Some (Z.of_nat (n - 55))
  else if (97 <=? n)%nat && (n <=? 102)%nat then Some (Z.of_nat (n - 87))
  else None.

(** The longest run of digits in base [base] that [s] starts with: its
    value, whether it is non-empty, and the rest of [s]. *)
Fixpoint digitsRun (base : Z) (val : ascii -> option Z)
                   (acc : Z) (any : bool) (s : string) : Z * bool * string :=
  match s with
  | "" => (acc, any, "")
  | String c r =>
      match val c with
      | Some d => digitsRun base val (base * acc + d)%Z true r
      | None => (acc, any, s)
      end
  end.

Definition skipSemicolon (s : string) : string :=
  match s with
  | String ";" r => r
  | _ => s
  end.

(** A named reference that ends in a semicolon, looked up in [named]. *)
Fixpoint namedRef (named : list (string * string)) (s : string)
  : option (string * string) :=
  match named with
  | [] => None
  | (n, v) :: more =>
      match Js.dropPrefix (n ++ ";") s with
      | Some r => Some (v, r)
      | None => namedRef more s
      end
  end.

(** The text after an ampersand: the decoded reference and the rest, or
    [None] when no reference starts there. *)
Definition reference (named : list (string * string)) (s : string)
  : option (string * string) :=
  match s with
  | String "#" (String x r) =>
      if Ascii.eqb x "x" || Ascii.eqb x "X" then
        match digitsRun 16%Z hexVal 0%Z false r with
        | (v, true, rest) => Some (codePointToSymbol v, skipSemicolon rest)
        | _ => None
        end
      else
        match digitsRun 10%Z Js.digitVal 0%Z false (String x r) with
        | (v, true, rest) => Some (codePointToSymbol v, skipSemicolon rest)
        | _ => None
        end
  | _ => namedRef named s
  end.

(** Modelled from the spec: the entity decoder is [he.decode] of the npm
    package [he], which [scrape.js] loads and which is not part of the
    sources; the specification says of it that it "decodes all HTML5 named
    and numeric character entities to their literal characters".  The
    model decodes every decimal and hexadecimal reference, with or without
    its semicolon, and the named references of the table [named] it is
    given, written with their semicolon; the table of the 2231 names of
    HTML5 itself is not reproduced.  [fuel] bounds the number of steps. *)
Fixpoint decodeFrom (named : list (string * string)) (fuel : nat) (s : string)
  : string :=
  match fuel with
  | O => s
  | S k =>
      match s with
      | "" => ""
      | String "&" r =>
          match reference named r with
          | Some (v, rest) => v ++ decodeFrom named k rest
          | None => String "&" (decodeFrom named k r)
          end
      | String c r => String c (decodeFrom named k r)
      end
  end.

Definition decode (s : string) : string :=
  decodeFrom sampleNamed (String.length s) s.

End He.

(** ** Global replacement by a regular expression *)

Module Regex.

(** [s.replace (re, rep)] for a global [re] whose matches are never
    empty: [m s] is the text after the match of [re] that starts at the
    head of [s], if there is one.  The scan goes left to right and resumes
    after each match; [fuel] bounds its steps. *)
Fixpoint replaceAll (m : string -> option string) (rep : string)
                    (fuel : nat) (s : string) : string :=
  match fuel with
  | O => s
  | S k =>
      match m s with
      | Some rest => rep ++ replaceAll m rep k rest
      | None =>
          match s with
          | "" => ""
          | String c r => String c (replaceAll m rep k r)
          end
      end
  end.

Definition replace (m : string -> option string) (rep s : string) : string :=
  replaceAll m rep (S (String.length s)) s.

(** A letter, in either case. *)
Definition letter (l : ascii) (s : string) : option string :=
  match s with
  | String c r => if Ascii.eqb (Js.lowerAscii c) l then Some r else None
  | "" => None
  end.

(** [\s*]: white space is disjoint from what follows it in the patterns
    of the sources, so the longest run is the only candidate. *)
Definition spaces (s : string) : string :=
  Js.dropLeading (String.length s) Js.whitespace s.

Definition optional (c : ascii) (s : string) : string :=
  match s with
  | String d r => if Ascii.eqb d c then r else s
  | "" => s
  end.

Definition bind {A B} (o : option A) (f : A -> option B) : option B :=
  match o with
  | Some a => f a
  | None => None
  end.

(** [/<br\s*\/?>/gi] *)
Definition br (s : string) : option string :=
  bind (Js.dropPrefix "<" s) (fun s1 =>
  bind (letter "b" s1) (fun s2 =>
  bind (letter "r" s2) (fun s3 =>
  Js.dropPrefix ">" (optional "/" (spaces s3))))).

(** [/<\/p>/gi] *)
Definition closeP (s : string) : option string :=
  bind (Js.dropPrefix "</" s) (fun s1 =>
  bind (letter "p" s1) (fun s2 => Js.dropPrefix ">" s2)).

(** [/<\/div>/gi] *)
Definition closeDiv (s : string) : option string :=
  bind (Js.dropPrefix "</" s) (fun s1 =>
  bind (letter "d" s1) (fun s2 =>
  bind (letter "i" s2) (fun s3 =>
  bind (letter "v" s3) (fun s4 => Js.dropPrefix ">" s4)))).

(** The text after the first [>]. *)
Fixpoint afterGt (s : string) : option string :=
  match s with
  | "" => None
  | String c r => if Ascii.eqb c ">" then Some r else afterGt r
  end.

(** [/<[^>]+>/g] *)
Definition tag (s : string) : option string :=
  match s with
  | String "<" (String c r) => if Ascii.eqb c ">" then None else afterGt r
  | _ => None
  end.

Fixpoint skipNewlines (s : string) : string :=
  match s with
  | String c r => if Ascii.eqb c Js.LF then skipNewlines r else s
  | "" => ""
  end.

(** [/\n{3,}/g] *)
Definition newlines3 (s : string) : option string :=
  bind (Js.dropPrefix (Js.NL ++ Js.NL ++ Js.NL) s) (fun r =>
  Some (skipNewlines r)).

(** [/\r\n[ \t]/g] *)
Definition continuation (s : string) : option string :=
  match s with
  | String c1 (String c2 (String c3 r)) =>
      if Ascii.eqb c1 Js.CR && Ascii.eqb c2 Js.LF
         && (Ascii.eqb c3 " " || Ascii.eqb c3 Js.TAB)
      then Some r else None
  | _ => None
  end.

End Regex.

(** ** Dates *)

Module JsDate.
Local Open Scope Z_scope.

Definition msPerDay : Z := 86400000.

Definition Day (t : Z) : Z := t / msPerDay.
Definition TimeWithinDay (t : Z) : Z := t mod msPerDay.

Definition DaysInYear (y : Z) : Z :=
  if negb (y mod 4 =? 0) then 365
  else if negb (y mod 100 =? 0) then 366
  else if negb (y mod 400 =? 0) then 365
  else 366.

Definition DayFromYear (y : Z) : Z :=
  365 * (y - 1970) + (y - 1969) / 4 - (y - 1901) / 100 + (y - 1601) / 400.

Definition TimeFromYear (y : Z) : Z := msPerDay * DayFromYear y.

(** The largest [y] with [TimeFromYear y <= t]: an estimate from the mean
    length of a year is off by one at most. *)
Definition YearFromTime (t : Z) : Z :=
  let y0 := 1970 + (Day t * 400) / 146097 in
  if TimeFromYear (y0 + 1) <=? t then y0 + 1
  else if TimeFromYear y0 <=? t then y0
  else y0 - 1.

Definition InLeapYear (t : Z) : Z :=
  if DaysInYear (YearFromTime t) =? 366 then 1 else 0.

Definition DayWithinYear (t : Z) : Z := Day t - DayFromYear (YearFromTime t).

(** Day within the year on which month [m] (0 .. 11) starts. *)
Definition monthStart (m leap : Z) : Z :=
  match m with
  | 0 => 0
  | 1 => 31
  | 2 => 59 + leap
  | 3 => 90 + leap
  | 4 => 120 + leap
  | 5 => 151 + leap
  | 6 => 181 + leap
  | 7 => 212 + leap
  | 8 => 243 + leap
  | 9 => 273 + leap
  | 10 => 304 + leap
  | _ => 334 + leap
  end.

Fixpoint monthOf (fuel : nat) (m dayInYear leap : Z) : Z :=
  match fuel with
  | O => m
  | S k => if dayInYear <? monthStart (m + 1) leap then m
           else monthOf k (m + 1) dayInYear leap
  end.

Definition MonthFromTime (t : Z) : Z :=
  monthOf 11 0 (DayWithinYear t) (InLeapYear t).

Definition DateFromTime (t : Z) : Z :=
  DayWithinYear t - monthStart (MonthFromTime t) (InLeapYear t) + 1.

Definition MakeDay (year month date : Z) : Z :=
  let ym := year + month / 12 in
  let mn := month mod 12 in
  DayFromYear ym + monthStart mn (if DaysInYear ym =? 366 then 1 else 0)
  + date - 1.

Definition MakeDate (day time : Z) : Z := day * msPerDay + time.

Fixpoint digits (n : nat) (acc : Z) (s : string) : option (Z * string) :=
  match n with
  | O => Some (acc, s)
  | S k =>
      match s with
      | String c r =>
          match Js.digitVal c with
          | Some d => digits k (10 * acc + d) r
          | None => None
          end
      | "" => None
      end
  end.

(** [YYYY-MM-DD] at the head of [s]: year, month, day and the rest. *)
Definition readDate (s : string) : option (Z * Z * Z * string) :=
  match digits 4 0 s with
  | Some (y, String "-" s1) =>
      match digits 2 0 s1 with
      | Some (m, String "-" s2) =>
          match digits 2 0 s2 with
          | Some (d, rest) => Some (y, m, d, rest)
          | None => None
          end
      | _ => None
      end
  | _ => None
  end.

(** [new Date (s)] for [s] of the form [YYYY-MM-DDT12:00:00Z], the one form
    [nextDayIcs] builds: the time value, or [None] for an invalid date.
    As V8 does, the month must be 1 .. 12 and the day 1 .. 31, and a day
    past the end of its month runs over into the next.  Any other text
    goes to the fallback parser of the engine, which is not modelled: it
    is an invalid date here. *)
Definition parse (s : string) : option Z :=
  match readDate s with
  | Some (y, m, d, rest) =>
      if String.eqb rest "T12:00:00Z"
         && (1 <=? m) && (m <=? 12) && (1 <=? d) && (d <=? 31)
      then Some (MakeDate (MakeDay y (m - 1) d) (12 * 3600000))
      else None
  | None => None
  end.

Definition getUTCFullYear (t : Z) : Z := YearFromTime t.
Definition getUTCMonth (t : Z) : Z := MonthFromTime t.
Definition getUTCDate (t : Z) : Z := DateFromTime t.

(** [d.setUTCDate (dt)] *)
Definition setUTCDate (t dt : Z) : Z :=
  MakeDate (MakeDay (YearFromTime t) (MonthFromTime t) dt) (TimeWithinDay t).

End JsDate.

(** ** [scrape.js] *)

Module Scrape.
Import Js.

Definition BASE_URL : string := "https://members.thequinhouse.com".

(** *** Event records, as the JSON API delivers them *)

Record Category := { name : string }.

Record Pricing := { base_price : option float }.

(** [available_quantity] is a count: an integer. *)
Record Ticket := {
  pricing : option Pricing;
  available_quantity : option Z
}.

(** The waitlist form attached to an event; [waitlist_id] is its [id]. *)
Record Waitlist := { waitlist_id : option Z }.

Record LocalDate := { date : option string }.

(** [id] is kept as the text that a template literal prints for it.
    [waitlistSubmitted] is the viewer's own waitlist submission, which the
    detail fetch is meant to store with the record; no function of
    [scrape.js] reads it. *)
Record Event := {
  id : string;
  title : option string;
  description : option string;
  venue : option string;
  start_date_local : option LocalDate;
  end_date_local : option LocalDate;
  categories : list Category;
  tickets : list Ticket;
  availability : option string;
  registered : option bool;
  waitlist : option Waitlist;
  waitlistSubmitted : bool
}.

(** *** Helpers *)

Section Sanitizer.

(** [he.decode] *)
Variable decode : string -> string.

(** The argument of [he.decode] in [stripHtml]. *)
Definition stripMarkup (html : string) : string :=
  Regex.replace Regex.newlines3 (NL ++ NL)
    (Regex.replace Regex.tag ""
      (Regex.replace Regex.closeDiv NL
        (Regex.replace Regex.closeP NL
          (Regex.replace Regex.br NL html)))).

Definition stripHtml (html : option string) : string :=
  match html with
  | Some (String c r) => trim (decode (stripMarkup (String c r)))
  | _ => ""
  end.

End Sanitizer.

Fixpoint removeChars (p : ascii -> bool) (s : string) : string :=
  match s with
  | "" => ""
  | String c r => if p c then removeChars p r else String c (removeChars p r)
  end.

Definition isOneOf (cs : string) (c : ascii) : bool :=
  includes (String c "") cs.

Definition first (parts : list string) : string := hd "" parts.

Definition toIcsDate (localDateStr : string) : string :=
  first (split "." (replaceFirstSame (removeChars (isOneOf "-:") localDateStr))).

Definition toIcsDateOnly (datePart : string) : string :=
  removeChars (isOneOf "-") datePart.

Definition nextDayIcs (datePart : string) : string :=
  match JsDate.parse (datePart ++ "T12:00:00Z") with
  | None => "NaN" ++ padStart0 2 "NaN" ++ padStart0 2 "NaN"
  | Some t =>
      let d := JsDate.setUTCDate t (JsDate.getUTCDate t + 1) in
      let y := JsDate.getUTCFullYear d in
      let m := padStart0 2 (natToString (JsDate.getUTCMonth d + 1)) in
      let day := padStart0 2 (natToString (JsDate.getUTCDate d)) in
      natToString y ++ m ++ day
  end.

(** The [i]-th of [parts.map (Number)]; a missing element is [undefined],
    which the callers only use where it behaves as [NaN]: in arithmetic
    and in [> 0]. *)
Definition numberAt (i : nat) (parts : list string) : float :=
  match nth_error parts i with
  | Some s => Number s
  | None => NaN
  end.

(** [x % 12] for the values [Number] yields here: a non-negative integer,
    an infinity or [NaN]. *)
Definition mod12 (x : float) : float :=
  match toZ x with
  | Some z => ofZ (z mod 12)
  | None => NaN
  end.

Definition formatTime (timeStr : string) : string :=
  let parts := split ":" timeStr in
  let h := numberAt 0 parts in
  let min := numberAt 1 parts in
  let ampm := if PrimFloat.leb 12 h then "PM" else "AM" in
  let r := mod12 h in
  let hour12 := if truthyNum r then r else ofZ 12 in
  let minStr := if PrimFloat.ltb 0 min
                then ":" ++ padStart0 2 (numToString min) else "" in
  numToString hour12 ++ minStr ++ " " ++ ampm.

Definition getDurationHours (startTimeStr endTimeStr : string) : float :=
  let s := split ":" startTimeStr in
  let e := split ":" endTimeStr in
  let sh := numberAt 0 s in
  let sm := numberAt 1 s in
  let eh := numberAt 0 e in
  let em := numberAt 1 e in
  ((eh + em / 60) - (sh + sm / 60))%float.

Definition escapeIcs (str : string) : string :=
  match str with
  | "" => ""
  | _ =>
      replaceChar CR ""
        (replaceChar LF "\n"
          (replaceChar "," "\,"
            (replaceChar ";" "\;"
              (replaceChar "\" "\\" str))))
  end.

(** The [while] loop of [foldLine]; [fuel] bounds its turns. *)
Fixpoint foldChunks (fuel : nat) (bytes : string) (start : nat) : list string :=
  match fuel with
  | O => []
  | S k =>
      if (start <? String.length bytes)%nat then
        let limit := if (start =? 0)%nat then 75%nat else 74%nat in
        Utf8.toString (substring start limit bytes)
        :: foldChunks k bytes (start + limit)
      else []
  end.

Definition foldLine (line : string) : string :=
  let bytes := line in
  if (String.length bytes <=? 75)%nat then line ++ CRLF
  else join (CRLF ++ " ") (foldChunks (String.length bytes) bytes 0) ++ CRLF.

(** *** The description *)

Definition isConfirmed (event : Event) : bool :=
  match registered event with
  | Some true => true
  | _ => false
  end.

(** [event.waitlist && event.waitlist.id], as a condition. *)
Definition isOnWaitlist (event : Event) : bool :=
  match waitlist event with
  | Some w =>
      match waitlist_id w with
      | Some z => negb (z =? 0)%Z
      | None => false
      end
  | None => false
  end.

Definition categoryPart (event : Event) : list string :=
  match categories event with
  | [] => []
  | cs => ["Category: " ++ join ", " (map name cs)]
  end.

Definition plural (n : Z) : string := if (n =? 1)%Z then "" else "s".

Definition priceParts (event : Event) : list string :=
  match tickets event with
  | [] => ["Price: Free / Included"]
  | ticket :: _ =>
      let price :=
        match pricing ticket with
        | Some {| base_price := Some p |} =>
            if PrimFloat.ltb 0 p then "Price: $" ++ toFixed2 p ++ " per person"
            else if PrimFloat.eqb p 0 then "Price: Free"
            else "Price: RSVP (see event page)"
        | _ => "Price: RSVP (see event page)"
        end in
      let spots :=
        match available_quantity ticket with
        | Some n =>
            if (0 <? n)%Z
            then ["Availability: " ++ natToString n ++ " spot" ++ plural n ++ " left"]
            else []
        | None => []
        end in
      (price :: spots)%list
  end.

(** The event-level fallback. *)
Definition availabilityPart (event : Event) : list string :=
  match availability event with
  | Some (String c r) =>
      let avail := String c r in
      if String.eqb avail "sold_out" then ["Status: Sold Out"]
      else if String.eqb avail "waitlist" then ["Status: Waitlist Only"]
      else if String.eqb avail "available" then ["Status: Available"]
      else if includes "unavailable" (toLowerCase avail) then ["Status: Unavailable"]
      else ["Status: " ++ avail]
  | _ => []
  end.

(** Personal registration status takes precedence over event-level
    status. *)
Definition statusPart (event : Event) : list string :=
  if isConfirmed event then ["Status: You are Confirmed"]
  else if isOnWaitlist event then ["Status: You are on Waitlist"]
  else availabilityPart event.

Definition timePart (timeNote : option string) : list string :=
  match timeNote with
  | Some (String c r) => ["Time: " ++ String c r]
  | _ => []
  end.

Definition eventUrl (event : Event) : string :=
  BASE_URL ++ "/events/" ++ id event.

Section Rendering.

Variable decode : string -> string.

Definition descriptionPart (event : Event) : list string :=
  match stripHtml decode (description event) with
  | "" => []
  | desc => [desc]
  end.

Definition descriptionLines (event : Event) (timeNote : option string)
  : list string :=
  (categoryPart event ++ priceParts event ++ statusPart event
   ++ timePart timeNote ++ [("Event URL: " ++ eventUrl event)%string] ++ [""]
   ++ descriptionPart event)%list.

Definition buildDescription (event : Event) (timeNote : option string)
  : string :=
  join NL (descriptionLines event timeNote).

(** *** The calendar *)

Definition envelope (calendarName : string) : list string :=
  [ "BEGIN:VCALENDAR";
    "VERSION:2.0";
    "PRODID:-//Quin House Calendar//EN";
    "CALSCALE:GREGORIAN";
    "METHOD:PUBLISH";
    "X-WR-CALNAME:" ++ calendarName;
    "X-WR-TIMEZONE:America/New_York";
    "X-WR-CALDESC:Upcoming programming at The 'Quin House member club" ].

(** [event.start_date_local.date] when the event is kept. *)
Definition startDate (event : Event) : option string :=
  match start_date_local event with
  | Some {| date := Some (String c r) |} => Some (String c r)
  | _ => None
  end.

(** [endLocal && endLocal.date] *)
Definition endDate (event : Event) : option string :=
  match end_date_local event with
  | Some {| date := Some (String c r) |} => Some (String c r)
  | _ => None
  end.

Definition second (parts : list string) : option string := nth_error parts 1.

Definition startDatePart (start : string) : string := first (split "T" start).

Definition startTimePart (start : string) : string :=
  first (split "." (orElse (second (split "T" start)) "00:00:00")).

Definition endDatePart (event : Event) (start : string) : string :=
  match endDate event with
  | Some e => first (split "T" e)
  | None => startDatePart start
  end.

Definition endTimePart (event : Event) (start : string) : string :=
  match endDate event with
  | Some e => first (split "." (orElse (second (split "T" e)) (startTimePart start)))
  | None => startTimePart start
  end.

Definition isMultiDay (event : Event) (start : string) : bool :=
  negb (String.eqb (startDatePart start) (endDatePart event start)).

Definition durationHours (event : Event) (start : string) : float :=
  getDurationHours (startTimePart start) (endTimePart event start).

Definition isAllDay (event : Event) (start : string) : bool :=
  isMultiDay event start || PrimFloat.leb 4 (durationHours event start).

(** U+2013 EN DASH *)
Definition enDash : string := chr 226 ++ chr 128 ++ chr 147.

Definition timeNote (event : Event) (start : string) : option string :=
  if isAllDay event start
  then Some (formatTime (startTimePart start) ++ " " ++ enDash ++ " "
             ++ formatTime (endTimePart event start))
  else None.

(** [new Date ().toISOString ().replace (/[-:.]/g, '').slice (0, 15) + 'Z']
    from the text [iso] that [toISOString] returned. *)
Definition stamp (iso : string) : string :=
  substring 0 15 (removeChars (isOneOf "-:.") iso) ++ "Z".

Definition uid (event : Event) : string :=
  "quin-event-" ++ id event ++ "@thequinhouse.com".

Definition dateLines (event : Event) (start : string) : list string :=
  if isAllDay event start then
    [ "DTSTART;VALUE=DATE:" ++ toIcsDateOnly (startDatePart start);
      "DTEND;VALUE=DATE:" ++ nextDayIcs (endDatePart event start) ]
  else
    [ "DTSTART;TZID=America/New_York:" ++ toIcsDate start;
      "DTEND;TZID=America/New_York:"
      ++ match endDate event with
         | Some e => toIcsDate e
         | None => toIcsDate start
         end ].

Definition locationLine (event : Event) : list string :=
  match venue event with
  | Some (String c r) =>
      match trim (String c r) with
      | "" => []
      | v => ["LOCATION:" ++ escapeIcs v]
      end
  | _ => []
  end.

Definition categoriesLine (event : Event) : list string :=
  match categories event with
  | [] => []
  | cs => ["CATEGORIES:" ++ join "," (map (fun c => escapeIcs (name c)) cs)]
  end.

(** The lines that one turn of the loop of [buildIcs] pushes for an
    event that has the start date [start]; [iso] is the reading of the
    clock in that turn. *)
Definition eventLines (iso : string) (event : Event) (start : string)
  : list string :=
  ([ "BEGIN:VEVENT";
     ("UID:" ++ uid event)%string;
     ("DTSTAMP:" ++ stamp iso)%string ]
   ++ dateLines event start
   ++ [ ("SUMMARY:"
         ++ escapeIcs (orElse (title event) "Quin House Event"))%string ]
   ++ locationLine event
   ++ [ ("DESCRIPTION:"
         ++ escapeIcs (buildDescription event (timeNote event start)))%string;
        ("URL:" ++ eventUrl event)%string ]
   ++ categoriesLine event
   ++ [ "END:VEVENT" ])%list.

(** The loop of [buildIcs].  The clock is read once in every turn that
    is not cut short: [clock k] is the [k]-th reading. *)
Fixpoint loop (clock : nat -> string) (k : nat) (events : list Event)
  : list string :=
  match events with
  | [] => []
  | event :: rest =>
      match startDate event with
      | None => loop clock k rest
      | Some start =>
          (eventLines (clock k) event start ++ loop clock (S k) rest)%list
      end
  end.

(** The lines of the calendar before folding. *)
Definition icsLines (clock : nat -> string) (events : list Event)
                    (calendarName : string) : list string :=
  (envelope calendarName ++ loop clock 0 events ++ ["END:VCALENDAR"])%list.

Definition buildIcs (clock : nat -> string) (events : list Event)
                    (calendarName : string) : string :=
  join "" (map foldLine (icsLines clock events calendarName)).

Definition defaultName : string := "The 'Quin House Events".

(** *** The two documents [main] writes *)

Definition isPersonal (e : Event) : bool := isConfirmed e || isOnWaitlist e.

Definition calendarIcs (clock : nat -> string) (events : list Event) : string :=
  buildIcs clock events defaultName.

Definition quinIcs (clock : nat -> string) (events : list Event) : string :=
  buildIcs clock (filter isPersonal events) "Quin".

End Rendering.

End Scrape.

(** ** [filter.js] *)

Module Filter.
Import Js.

(** Unfold ICS line continuations. *)
Definition unfold (raw : string) : string :=
  Regex.replace Regex.continuation "" raw.

(** The shortest head of [s] that ends with [pat], and the rest of [s]. *)
Fixpoint through (pat s : string) : option (string * string) :=
  match dropPrefix pat s with
  | Some rest => Some (pat, rest)
  | None =>
      match s with
      | "" => None
      | String c r =>
          match through pat r with
          | Some (b, rest) => Some (String c b, rest)
          | None => None
          end
      end
  end.

(** The match of [/BEGIN:VEVENT[\s\S]*?END:VEVENT/] at the head of [s]:
    the matched text and the text after it. *)
Definition block (s : string) : option (string * string) :=
  match dropPrefix "BEGIN:VEVENT" s with
  | Some s1 =>
      match through "END:VEVENT" s1 with
      | Some (body, rest) => Some ("BEGIN:VEVENT" ++ body, rest)
      | None => None
      end
  | None => None
  end.

(** [[...s.matchAll (re)].map (m => m[0])]; [fuel] bounds the scan. *)
Fixpoint matchAll (fuel : nat) (s : string) : list string :=
  match fuel with
  | O => []
  | S k =>
      match block s with
      | Some (b, rest) => b :: matchAll k rest
      | None =>
          match s with
          | "" => []
          | String _ r => matchAll k r
          end
      end
  end.

Definition eventBlocks (unfolded : string) : list string :=
  matchAll (S (String.length unfolded)) unfolded.

Definition confirmedPhrase : string := "Status: You are Confirmed".
Definition waitlistPhrase : string := "Status: You are on Waitlist".

Definition isPersonalBlock (b : string) : bool :=
  includes confirmedPhrase b || includes waitlistPhrase b.

Definition personal (raw : string) : list string :=
  filter isPersonalBlock (eventBlocks (unfold raw)).

(** How the handler of the response ends: [quin.ics] is written, or the
    process exits with status 0 before anything is written. *)
Inductive Outcome :=
| Written (file : string)
| NothingFound.

Definition envelope : list string :=
  [ "BEGIN:VCALENDAR";
    "VERSION:2.0";
    "PRODID:-//Quin House Calendar//EN";
    "CALSCALE:GREGORIAN";
    "METHOD:PUBLISH";
    "X-WR-CALNAME:Quin";
    "X-WR-TIMEZONE:America/New_York" ].

(** The handler of [res.on ('end')] on the text [raw] of the response. *)
Definition onEnd (raw : string) : Outcome :=
  match personal raw with
  | [] => NothingFound
  | blocks =>
      let lines := (envelope ++ blocks ++ ["END:VCALENDAR"])%list in
      Written (join CRLF lines ++ CRLF)
  end.

End Filter.

(** ** Notions the statements use *)

Module Doc.
Import Js.

(** The physical lines of a document: the texts between CRLF pairs. *)
Fixpoint physicalLines (doc : string) : list string :=
  match doc with
  | "" => [""]
  | String c1 r =>
      let crlf := match r with
                  | String c2 _ => Ascii.eqb c1 CR && Ascii.eqb c2 LF
                  | "" => false
                  end in
      if crlf then
        match r with
        | String _ r2 => "" :: physicalLines r2
        | "" => [""]
        end
      else
        match physicalLines r with
        | l :: ls => String c1 l :: ls
        | [] => [String c1 ""]
        end
  end.

(** Every physical line has at most 75 octets. *)
Definition folded (doc : string) : bool :=
  forallb (fun l => (String.length l <=? 75)%nat) (physicalLines doc).

Definition endsWith (suffix s : string) : bool :=
  String.prefix (rev suffix "") (rev s "").

Fixpoint takeWhile {A} (p : A -> bool) (l : list A) : list A :=
  match l with
  | [] => []
  | x :: r => if p x then x :: takeWhile p r else []
  end.

(** The envelope fields of a document: its physical lines up to the first
    entry, or up to the closing line when it has no entry. *)
Definition envelopeFields (doc : string) : list string :=
  takeWhile (fun l => negb (String.eqb l "BEGIN:VEVENT")
                      && negb (String.eqb l "END:VCALENDAR"))
            (physicalLines doc).

(** The inverse of folding: every CRLF that a single space follows is
    removed together with the space. *)
Definition crlfSpace (s : string) : option string :=
  dropPrefix (CRLF ++ " ") s.

Definition unfoldLine (s : string) : string := Regex.replace crlfSpace "" s.

(** A run of three newline characters. *)
Definition newlineRun3 (s : string) : bool := includes (NL ++ NL ++ NL) s.

(** [s] starts, or ends, with a white-space character. *)
Definition leadingSpace (s : string) : bool :=
  match dropOne whitespace s with
  | Some _ => true
  | None => false
  end.

Definition trailingSpace (s : string) : bool :=
  match dropOne (map (fun t => rev t "") whitespace) (rev s "") with
  | Some _ => true
  | None => false
  end.

End Doc.

Module Calendar.
Local Open Scope Z_scope.

Definition leapYear (y : Z) : bool :=
  ((y mod 4 =? 0) && negb (y mod 100 =? 0)) || (y mod 400 =? 0).

Definition daysInMonth (y m : Z) : Z :=
  match m with
  | 2 => if leapYear y then 29 else 28
  | 4 | 6 | 9 | 11 => 30
  | _ => 31
  end.

(** A date of the Gregorian calendar. *)
Definition validDate (y m d : Z) : Prop :=
  1 <= m <= 12 /\ 1 <= d <= daysInMonth y m.

(** The calendar day after [(y, m, d)]. *)
Definition nextDay (y m d : Z) : Z * Z * Z :=
  if d <? daysInMonth y m then (y, m, d + 1)
  else if m <? 12 then (y, m + 1, 1)
  else (y + 1, 1, 1).

(** The integers from [lo] up to [hi] - 1. *)
Definition range (lo hi : Z) : list Z :=
  map (fun i => lo + Z.of_nat i) (seq 0 (Z.to_nat (hi - lo))).

Definition digit (n : Z) : string := String (Js.digitChar (n mod 10)) "".

Definition two (n : Z) : string := (digit (n / 10) ++ digit n)%string.

Definition four (n : Z) : string :=
  (digit (n / 1000) ++ digit (n / 100) ++ digit (n / 10) ++ digit n)%string.

(** [YYYY-MM-DD] *)
Definition isoDate (y m d : Z) : string :=
  (four y ++ "-" ++ two m ++ "-" ++ two d)%string.

(** [YYYYMMDD] *)
Definition icsDate (ymd : Z * Z * Z) : string :=
  let '(y, m, d) := ymd in (four y ++ two m ++ two d)%string.

End Calendar.

Module Samples.
Import Js Scrape.

Definition bare (i : string) : Event :=
  {| id := i; title := None; description := None; venue := None;
     start_date_local := None; end_date_local := None;
     categories := []; tickets := []; availability := None;
     registered := None; waitlist := None; waitlistSubmitted := false |}.

Definition at_ (e : Event) (from to : string) : Event :=
  {| id := id e; title := title e; description := description e;
     venue := venue e;
     start_date_local := Some {| date := Some from |};
     end_date_local := Some {| date := Some to |};
     categories := categories e; tickets := tickets e;
     availability := availability e; registered := registered e;
     waitlist := waitlist e; waitlistSubmitted := waitlistSubmitted e |}.

Definition withTitle (e : Event) (t : string) : Event :=
  {| id := id e; title := Some t; description := description e;
     venue := venue e; start_date_local := start_date_local e;
     end_date_local := end_date_local e; categories := categories e;
     tickets := tickets e; availability := availability e;
     registered := registered e; waitlist := waitlist e;
     waitlistSubmitted := waitlistSubmitted e |}.

Definition withAvailability (e : Event) (a : option string) : Event :=
  {| id := id e; title := title e; description := description e;
     venue := venue e; start_date_local := start_date_local e;
     end_date_local := end_date_local e; categories := categories e;
     tickets := tickets e; availability := a;
     registered := registered e; waitlist := waitlist e;
     waitlistSubmitted := waitlistSubmitted e |}.

Definition withRegistered (e : Event) (r : bool) : Event :=
  {| id := id e; title := title e; description := description e;
     venue := venue e; start_date_local := start_date_local e;
     end_date_local := end_date_local e; categories := categories e;
     tickets := tickets e; availability := availability e;
     registered := Some r; waitlist := waitlist e;
     waitlistSubmitted := waitlistSubmitted e |}.

Definition withSubmitted (e : Event) (submitted : bool) : Event :=
  {| id := id e; title := title e; description := description e;
     venue := venue e; start_date_local := start_date_local e;
     end_date_local := end_date_local e; categories := categories e;
     tickets := tickets e; availability := availability e;
     registered := registered e; waitlist := waitlist e;
     waitlistSubmitted := submitted |}.

Definition withWaitlist (e : Event) (w : option Z) (submitted : bool) : Event :=
  {| id := id e; title := title e; description := description e;
     venue := venue e; start_date_local := start_date_local e;
     end_date_local := end_date_local e; categories := categories e;
     tickets := tickets e; availability := availability e;
     registered := registered e;
     waitlist := match w with
                 | Some z => Some {| waitlist_id := Some z |}
                 | None => None
                 end;
     waitlistSubmitted := submitted |}.

(** A reading of the clock. *)
Definition noon (_ : nat) : string := "2026-02-25T12:00:00.000Z".

(** An event with a waitlist form (the form of every event has the
    identifier 15310) that the viewer has not joined. *)
Definition formOnly : Event :=
  withWaitlist (withAvailability (withRegistered (bare "173774") false)
                                 (Some "waitlist"))
               (Some 15310%Z) false.

(** An event whose record says that the viewer joined the waitlist, and
    carries no waitlist form. *)
Definition joined : Event :=
  withWaitlist (withAvailability (withRegistered (bare "167495") false)
                                 (Some "waitlist"))
               None true.

(** Four hours from 06:10, and four hours from 10:10. *)
Definition morning : Event :=
  at_ (bare "1") "2026-03-02T06:10:00" "2026-03-02T10:10:00".

Definition midday : Event :=
  at_ (bare "2") "2026-03-02T10:10:00" "2026-03-02T14:10:00".

(** The weekend of the specification. *)
Definition weekend : Event :=
  at_ (bare "3") "2026-02-27T17:00:00" "2026-03-01T21:00:00".

(** 76 octets: 74 letters and U+00E9. *)
Definition cafe : string := repeatStr 74 "a" ++ chr 195 ++ chr 169.

(** A viewer confirmed for the first event; the second event only carries
    the phrase in its title. *)
Definition confirmed : Event :=
  withRegistered (at_ (bare "10") "2026-03-05T18:00:00" "2026-03-05T20:00:00")
                 true.

Definition lookalike : Event :=
  withTitle (withRegistered
               (at_ (bare "11") "2026-03-06T18:00:00" "2026-03-06T20:00:00")
               false)
            "Status: You are Confirmed".

Definition undated : Event := bare "12".

End Samples.

Module Entries.
Import Js Scrape.

(** The record is kept by the loop of [buildIcs]. *)
Definition hasStart (e : Event) : bool :=
  match startDate e with
  | Some _ => true
  | None => false
  end.

Definition uidLine (e : Event) : string := "UID:" ++ uid e.

Definition isUidLine (l : string) : bool := String.prefix "UID:" l.

Definition opensEntry (l : string) : bool := String.eqb l "BEGIN:VEVENT".

Definition closesEntry (l : string) : bool := String.eqb l "END:VEVENT".

End Entries.

Module Format.
Import Js Scrape.

(** The format of the two personal documents, as the specification states
    it: both end with CRLF, both have every physical line within 75
    octets, and both carry the same envelope fields. *)
Definition identical (built filtered : string) : Prop :=
  Doc.endsWith CRLF built = true /\ Doc.endsWith CRLF filtered = true
  /\ Doc.folded built = true /\ Doc.folded filtered = true
  /\ Doc.envelopeFields built = Doc.envelopeFields filtered.

(** The envelope lines that both documents start with, as they are
    written. *)
Definition commonHead : string :=
  "BEGIN:VCALENDAR" ++ CRLF ++ "VERSION:2.0" ++ CRLF
  ++ "PRODID:-//Quin House Calendar//EN" ++ CRLF
  ++ "CALSCALE:GREGORIAN" ++ CRLF ++ "METHOD:PUBLISH" ++ CRLF
  ++ "X-WR-CALNAME:Quin" ++ CRLF
  ++ "X-WR-TIMEZONE:America/New_York" ++ CRLF.

Definition caldesc : string :=
  "X-WR-CALDESC:Upcoming programming at The 'Quin House member club" ++ CRLF.

Definition closing : string := "END:VCALENDAR" ++ CRLF.

(** The description of the entry of [e] holds a personal-status phrase. *)
Definition describedAsPersonal (decode : string -> string) (e : Event) : bool :=
  match startDate e with
  | Some start =>
      Filter.isPersonalBlock (buildDescription decode e (timeNote e start))
  | None => false
  end.

End Format.

Module Lines.

(** Every line of [l], each followed by [sep]. *)
Fixpoint terminated (sep : string) (l : list string) : string :=
  match l with
  | [] => ""
  | x :: r => x ++ sep ++ terminated sep r
  end.

End Lines.

Module Inputs.
Import Js Scrape Samples.

Definition pair : list Event := [confirmed; lookalike].

(** The calendar of [lookalike] alone, and its one entry once unfolded. *)
Definition lookalikeCalendar : string := calendarIcs He.decode noon [lookalike].

Definition lookalikeBlock : string :=
  "BEGIN:VEVENT" ++ CRLF
  ++ "UID:quin-event-11@thequinhouse.com" ++ CRLF
  ++ "DTSTAMP:20260225T120000Z" ++ CRLF
  ++ "DTSTART;TZID=America/New_York:20260306T180000" ++ CRLF
  ++ "DTEND;TZID=America/New_York:20260306T200000" ++ CRLF
  ++ "SUMMARY:Status: You are Confirmed" ++ CRLF
  ++ "DESCRIPTION:Price: Free / Included\nEvent URL: "
  ++ "https://members.thequinhouse.com/events/11\n" ++ CRLF
  ++ "URL:https://members.thequinhouse.com/events/11" ++ CRLF
  ++ "END:VEVENT".

End Inputs.

Module Outputs.
Import Scrape Samples.

(** What the filter writes for the calendar of [Inputs.pair]. *)
Definition filteredPair : string :=
  match Filter.onEnd (calendarIcs He.decode noon Inputs.pair) with
  | Filter.Written file => file
  | Filter.NothingFound => ""
  end.

(** The personal document that [main] builds from [Inputs.pair]. *)
Definition builtPair : string := quinIcs He.decode noon Inputs.pair.

End Outputs.

Module Runs.
Import Js.

(** The number of newline characters that [s] starts with. *)
Fixpoint leadingNewlines (s : string) : nat :=
  match s with
  | String c r => if Ascii.eqb c LF then S (leadingNewlines r) else 0
  | "" => 0
  end.

(** A text that the entity decoder leaves as it is. *)
Definition plain : string := "Doors at 7<br><br><br><br>Dinner at 8".

(** Three newline characters, each written as a character reference. *)
Definition referenced : string := "a&#10;&#10;&#10;b".

End Runs.

Module Civil.
Local Open Scope Z_scope.

(** Noon, in milliseconds. *)
Definition noon : Z := 12 * 3600000.

(** The time value of noon UTC on [(y, m, d)]. *)
Definition toTime (y m d : Z) : Z :=
  JsDate.MakeDate (JsDate.MakeDay y (m - 1) d) noon.

End Civil.

Module Clock.
Local Open Scope Z_scope.

(** [HH:MM:SS] *)
Definition text (h m s : Z) : string :=
  (Calendar.two h ++ ":" ++ Calendar.two m ++ ":" ++ Calendar.two s)%string.

(** The duration that [getDurationHours] computes from the hours and
    minutes of two clock times, given as minutes since midnight. *)
Definition hoursAt (minute : Z) : float :=
  (Js.ofZ (minute / 60) + Js.ofZ (minute mod 60) / 60)%float.

Definition hoursBetween (from to : Z) : float :=
  (hoursAt to - hoursAt from)%float.

(** The minutes of a day, each with its time in hours. *)
Definition table : list (Z * float) :=
  map (fun k => (k, hoursAt k)) (Calendar.range 0 1440).

(** Off the boundary of 240 minutes, the comparison with 4 agrees with the
    exact one. *)
Definition agrees (from to : Z * float) : bool :=
  let '(a, fa) := from in
  let '(b, fb) := to in
  (b - a =? 240) || Bool.eqb (PrimFloat.leb 4 (fb - fa)) (240 <=? b - a).

End Clock.

(** ** Notions of the further properties *)

Module Escape.
Import Js.

(** What a reader of the calendar format makes of an escaped text: a
    backslash and [n] or [N] is a newline, a backslash and any other
    character is that character. *)
Fixpoint unescape (s : string) : string :=
  match s with
  | "" => ""
  | String c r =>
      if Ascii.eqb c "\" then
        match r with
        | String d r' =>
            (if Ascii.eqb d "n" || Ascii.eqb d "N" then NL else String d "")
            ++ unescape r'
        | "" => String c ""
        end
      else String c (unescape r)
  end.

Definition isBreak (c : ascii) : bool := Ascii.eqb c CR || Ascii.eqb c LF.

(** No carriage return and no newline. *)
Fixpoint noBreak (s : string) : bool :=
  match s with
  | "" => true
  | String c r => negb (isBreak c) && noBreak r
  end.

(** The text without its carriage returns. *)
Definition withoutCR (s : string) : string :=
  Scrape.removeChars (fun c => Ascii.eqb c CR) s.

(** One character, escaped. *)
Definition escapeChar (c : ascii) : string :=
  if Ascii.eqb c "\" then "\\"
  else if Ascii.eqb c ";" then "\;"
  else if Ascii.eqb c "," then "\,"
  else if Ascii.eqb c LF then "\n"
  else if Ascii.eqb c CR then ""
  else String c "".

End Escape.

Module Clean.
Import Js Scrape Escape.

Definition noBreakOpt (o : option string) : bool :=
  match o with
  | Some s => noBreak s
  | None => true
  end.

(** The texts of a record that reach the calendar unescaped have no line
    break: its identifier and its two dates. *)
Definition record (e : Event) : bool :=
  noBreak (id e) && noBreakOpt (startDate e) && noBreakOpt (endDate e).

End Clean.

Module Moment.
Import Js.
Local Open Scope Z_scope.

(** [YYYY-MM-DDTHH:MM:SS], the local date-time of a record. *)
Definition text (y m d h mi s : Z) : string :=
  (Calendar.isoDate y m d ++ "T" ++ Clock.text h mi s)%string.

(** [YYYYMMDDTHHMMSS] *)
Definition ics (y m d h mi s : Z) : string :=
  (Calendar.icsDate (y, m, d) ++ "T" ++ Calendar.two h ++ Calendar.two mi
   ++ Calendar.two s)%string.

(** The hour of the twelve-hour clock. *)
Definition hour12 (h : Z) : Z := if h mod 12 =? 0 then 12 else h mod 12.

(** A clock time on the twelve-hour clock: no leading zero, the minutes
    left out when they are zero, and AM or PM. *)
Definition twelve (h mi : Z) : string :=
  (natToString (hour12 h)
   ++ (if (0 <? mi)%Z then ":" ++ Calendar.two mi else "")
   ++ " " ++ (if (12 <=? h)%Z then "PM" else "AM"))%string.


(** The three parts of [formatTime], on the numbers it reads. *)
Definition hourText (h : float) : string :=
  let r := Scrape.mod12 h in
  numToString (if truthyNum r then r else ofZ 12).

Definition minuteText (mi : float) : string :=
  (if PrimFloat.ltb 0 mi then ":" ++ padStart0 2 (numToString mi) else "")%string.

Definition half (h : float) : string := if PrimFloat.leb 12 h then "PM" else "AM".

Definition hourAgrees (h : Z) : bool :=
  String.eqb (hourText (ofZ h)) (natToString (hour12 h))
  && String.eqb (half (ofZ h)) (if 12 <=? h then "PM" else "AM").

Definition minuteAgrees (mi : Z) : bool :=
  String.eqb (minuteText (ofZ mi))
             (if (0 <? mi)%Z then ":" ++ Calendar.two mi else "")%string.

End Moment.

Module Timing.
Import Scrape.

(** A record that starts and ends at the given local date-times. *)
Definition fromTo (e : Event) (from to : string) : Prop :=
  start_date_local e = Some {| date := Some from |}
  /\ end_date_local e = Some {| date := Some to |}.

(** A record that has a start and no end. *)
Definition fromOnly (e : Event) (from : string) : Prop :=
  start_date_local e = Some {| date := Some from |}
  /\ end_date_local e = None.

Definition timedLines (from to : string) : list string :=
  [ ("DTSTART;TZID=America/New_York:" ++ from)%string;
    ("DTEND;TZID=America/New_York:" ++ to)%string ].


End Timing.

Module Shows.
Import Scrape.

(** Six hours of one evening. *)
Definition evening : Event :=
  Samples.at_ (Samples.bare "20") "2026-03-05T17:00:00" "2026-03-05T23:00:00".


(** A record with a start and no end. *)
Definition openEnded : Event :=
  {| id := "22"; title := None; description := None; venue := None;
     start_date_local := Some {| date := Some "2026-03-05T17:00:00" |};
     end_date_local := None;
     categories := []; tickets := []; availability := None;
     registered := None; waitlist := None; waitlistSubmitted := false |}.

End Shows.

Module Plain.
Import Js.

Definition octet7 (c : ascii) : bool := (nat_of_ascii c <? 128)%nat.

(** Every octet of [s] is an ASCII character. *)
Fixpoint ascii7 (s : string) : bool :=
  match s with
  | "" => true
  | String c r => octet7 c && ascii7 r
  end.

(** [s] starts with a space or a tab. *)
Definition startsBlank (s : string) : bool :=
  match s with
  | String c _ => Ascii.eqb c " " || Ascii.eqb c TAB
  | "" => false
  end.

(** A line that folding does not cut inside a character: it is short
    enough to stay whole, or all of it is ASCII. *)
Definition foldable (l : string) : bool :=
  (String.length l <=? 75)%nat || ascii7 l.

Definition line (l : string) : bool := foldable l && Escape.noBreak l.

Fixpoint take (n : nat) (s : string) : string :=
  match n, s with
  | S k, String c r => String c (take k r)
  | _, _ => ""
  end.

Fixpoint drop (n : nat) (s : string) : string :=
  match n, s with
  | S k, String _ r => drop k r
  | _, _ => s
  end.

(** [t] cut into pieces of [limit] octets, then of 74. *)
Fixpoint chunksOf (fuel limit : nat) (t : string) : list string :=
  match fuel with
  | O => []
  | S k =>
      match t with
      | "" => []
      | String _ _ => take limit t :: chunksOf k 74 (drop limit t)
      end
  end.

Definition short (l : string) : bool := (String.length l <=? 75)%nat.

(** The scan of [unfold], with its bound. *)
Definition scan (fuel : nat) (s : string) : string :=
  Regex.replaceAll Regex.continuation "" fuel s.

End Plain.

Module Blocks.
Import Js Scrape.

Definition opening : string := "BEGIN:VEVENT".
Definition closing : string := "END:VEVENT".

(** Neither marker of an entry occurs in the line. *)
Definition quiet (l : string) : bool :=
  negb (includes opening l) && negb (includes closing l).

(** A line that is a marker of an entry, or holds none. *)
Definition unambiguous (l : string) : bool :=
  String.eqb l opening || String.eqb l closing || quiet l.

(** The line does not start like a marker. *)
Definition plainStart (l : string) : bool :=
  match l with
  | String c _ => negb (Ascii.eqb c "B" || Ascii.eqb c "E")
  | "" => true
  end.

Section Rendered.

Variable decode : string -> string.

(** The lines of an entry between its two markers. *)
Definition middle (iso : string) (event : Event) (start : string)
  : list string :=
  ([ ("UID:" ++ uid event)%string;
     ("DTSTAMP:" ++ stamp iso)%string ]
   ++ dateLines event start
   ++ [ ("SUMMARY:"
         ++ escapeIcs (orElse (title event) "Quin House Event"))%string ]
   ++ locationLine event
   ++ [ ("DESCRIPTION:"
         ++ escapeIcs (buildDescription decode event (timeNote event start)))%string;
        ("URL:" ++ eventUrl event)%string ]
   ++ categoriesLine event)%list.

(** The entry of an event as one text: its lines, joined by CRLF. *)
Definition entry (iso : string) (event : Event) (start : string) : string :=
  join CRLF (eventLines decode iso event start).

(** The entries of the events in the order of the loop of [buildIcs]. *)
Fixpoint rendered (clock : nat -> string) (k : nat) (events : list Event)
  : list string :=
  match events with
  | [] => []
  | event :: rest =>
      match startDate event with
      | None => rendered clock k rest
      | Some start =>
          entry (clock k) event start :: rendered clock (S k) rest
      end
  end.

End Rendered.

End Blocks.

Module Published.
Import Scrape.

(** A calendar in which the viewer has no status on any event. *)
Definition impersonal : string :=
  calendarIcs He.decode Samples.noon [Samples.weekend; Shows.evening].

End Published.

Module Markup.
Import Js.

(** The pattern [m] matches somewhere in [s]. *)
Fixpoint anyMatch (m : string -> option string) (s : string) : bool :=
  match m s with
  | Some _ => true
  | None =>
      match s with
      | "" => false
      | String _ r => anyMatch m r
      end
  end.

(** A tag, in the sense of [/<[^>]+>/], is left in [s]. *)
Definition hasTag (s : string) : bool := anyMatch Regex.tag s.

Fixpoint has (c : ascii) (s : string) : bool :=
  match s with
  | "" => false
  | String d r => Ascii.eqb d c || has c r
  end.

(** Text without markup: no [<], and no run of three newlines. *)
Definition plain (s : string) : bool :=
  negb (has "<" s) && negb (Doc.newlineRun3 s).

(** A nested tag, as used against sanitizers that strip in one pass. *)
Definition nested : string := "a<scr<script>ipt>b<>c<d".

End Markup.

Module Dated.
Import Scrape.

(** A record whose start and end are the same bare date. *)
Definition bareDay : Event :=
  Samples.at_ (Samples.bare "23") "2026-03-05" "2026-03-05".

End Dated.

(** * Properties *)

(** ** Searching in texts *)

Section Includes.
Import Js.

Lemma append_empty (s : string) : s ++ "" = s.
Proof. induction s as [|c s IH]; simpl; [reflexivity | now rewrite IH]. Qed.

Lemma append_swap (a b c : string) : (a ++ b) ++ c = a ++ (b ++ c).
Proof. induction a as [|x a IH]; simpl; [reflexivity | now rewrite IH]. Qed.

Lemma length_append (a b : string) :
  String.length (a ++ b) = (String.length a + String.length b)%nat.
Proof. induction a as [|x a IH]; simpl; [reflexivity | now rewrite IH]. Qed.

Lemma prefix_app (p s : string) : String.prefix p (p ++ s) = true.
Proof.
  induction p as [|c p IH]; simpl.
  - now destruct s.
  - destruct (ascii_dec c c) as [_|ne]; [exact IH | now elim ne].
Qed.

Lemma includes_unfold (p s : string) :
  includes p s = String.prefix p s
                 || match s with
                    | "" => false
                    | String _ r => includes p r
                    end.
Proof. destruct s; reflexivity. Qed.

Lemma includes_here (p s : string) : includes p (p ++ s) = true.
Proof. rewrite includes_unfold, prefix_app. reflexivity. Qed.

Lemma includes_after (p a s : string) :
  includes p s = true -> includes p (a ++ s) = true.
Proof.
  intros H. induction a as [|c a IH]; [exact H|].
  rewrite includes_unfold. simpl. rewrite IH. apply orb_true_r.
Qed.

Lemma includes_join (sep x : string) (l : list string) :
  In x l -> includes x (join sep l) = true.
Proof.
  unfold join. induction l as [|y l IH]; simpl; [tauto|].
  intros [->|H].
  - destruct l.
    + rewrite <- (append_empty x) at 2. apply includes_here.
    + apply includes_here.
  - destruct l as [|z l]; [destruct H|].
    apply includes_after, includes_after, IH, H.
Qed.

End Includes.

(** ** The status line *)

Section Status.
Import Js Scrape Samples.

Variable decode : string -> string.

Lemma statusPart_in_description (e : Event) (tn : option string) (l : string) :
  In l (statusPart e) -> In l (descriptionLines decode e tn).
Proof.
  intros H. unfold descriptionLines.
  apply in_or_app; right. apply in_or_app; right.
  apply in_or_app; left. exact H.
Qed.

(** The submission of the viewer has no part in the description. *)
Lemma description_ignores_submission
      (e : Event) (submitted : bool) (tn : option string) :
  buildDescription decode (withSubmitted e submitted) tn
  = buildDescription decode e tn.
Proof. reflexivity. Qed.

(** Without a confirmed place, the waitlist form alone gives the line. *)
Lemma waitlist_line_from_form (e : Event) :
  isConfirmed e = false -> isOnWaitlist e = true ->
  statusPart e = ["Status: You are on Waitlist"].
Proof. intros C W. unfold statusPart. now rewrite C, W. Qed.

(** C2 (status precedence).  For a record with [registered === true] the
    status is "You are Confirmed" whatever the other fields hold: the
    status part is that one line, it is a line of the description and
    occurs in its text, and the description does not depend on the
    availability of the event, so that no event-level line, the sold-out
    line in particular, is rendered. *)
Theorem confirmed_overrides_availability (e : Event) (tn : option string) :
  registered e = Some true ->
  statusPart e = ["Status: You are Confirmed"]
  /\ In "Status: You are Confirmed" (descriptionLines decode e tn)
  /\ includes "Status: You are Confirmed" (buildDescription decode e tn) = true
  /\ (forall a : option string,
        buildDescription decode (withAvailability e a) tn
        = buildDescription decode e tn)
  /\ statusPart (withAvailability e (Some "sold_out"))
     = ["Status: You are Confirmed"].
Proof.
  intros R.
  assert (S : statusPart e = ["Status: You are Confirmed"])
    by (unfold statusPart, isConfirmed; now rewrite R).
  assert (I : In "Status: You are Confirmed" (descriptionLines decode e tn))
    by (apply statusPart_in_description; rewrite S; now left).
  repeat split; trivial.
  - apply includes_join, I.
  - intros a. unfold buildDescription, descriptionLines, statusPart, isConfirmed.
    simpl. rewrite R. reflexivity.
  - unfold statusPart, isConfirmed. simpl. now rewrite R.
Qed.

End Status.

Lemma confirmed_overrides_availability_witness :
  Scrape.registered Samples.confirmed = Some true
  /\ Scrape.statusPart (Samples.withAvailability Samples.confirmed (Some "sold_out"))
     = ["Status: You are Confirmed"].
Proof.
  split; [reflexivity|].
  apply (confirmed_overrides_availability He.decode Samples.confirmed None).
  reflexivity.
Defined.

(** C1 (waitlist line).  [buildDescription] decides the line "You are on
    Waitlist" on the waitlist form of the event, not on the submission of
    the viewer: an unregistered event that merely carries the form gets the
    line, and one whose record holds the submission of the viewer does not
    and falls back to the availability of the event. *)
Theorem waitlist_line_follows_form_not_submission :
  Scrape.registered Samples.formOnly = Some false
  /\ Scrape.waitlistSubmitted Samples.formOnly = false
  /\ Scrape.statusPart Samples.formOnly = ["Status: You are on Waitlist"]
  /\ In "Status: You are on Waitlist"
        (Scrape.descriptionLines He.decode Samples.formOnly None)
  /\ Scrape.registered Samples.joined = Some false
  /\ Scrape.waitlistSubmitted Samples.joined = true
  /\ Scrape.statusPart Samples.joined = ["Status: Waitlist Only"]
  /\ ~ In "Status: You are on Waitlist"
          (Scrape.descriptionLines He.decode Samples.joined None).
Proof.
  repeat split; try reflexivity.
  - vm_compute. tauto.
  - vm_compute. intros [H|[H|[H|[H|[]]]]]; discriminate H.
Qed.

(** ** Records without a start date *)

Section Dropped.
Import Js Scrape Entries.

Variable decode : string -> string.

Ltac line_groups :=
  unfold eventLines, dateLines, locationLine, categoriesLine;
  repeat rewrite filter_app;
  repeat match goal with
    | |- context [if ?b then _ else _] => destruct b
    | |- context [match ?x with _ => _ end] => destruct x
    end;
  reflexivity.

Lemma eventLines_uid (iso : string) (e : Event) (start : string) :
  filter isUidLine (eventLines decode iso e start) = [uidLine e].
Proof. line_groups. Qed.

Lemma eventLines_open (iso : string) (e : Event) (start : string) :
  filter opensEntry (eventLines decode iso e start) = ["BEGIN:VEVENT"].
Proof. line_groups. Qed.

Lemma eventLines_close (iso : string) (e : Event) (start : string) :
  filter closesEntry (eventLines decode iso e start) = ["END:VEVENT"].
Proof. line_groups. Qed.

Lemma loop_uids (clock : nat -> string) (events : list Event) :
  forall k, filter isUidLine (loop decode clock k events)
            = map uidLine (filter hasStart events).
Proof.
  induction events as [|e events IH]; intros k; [reflexivity|].
  cbn [loop filter]. unfold hasStart at 1.
  destruct (startDate e) as [start|]; [|apply IH].
  rewrite filter_app, eventLines_uid, IH. reflexivity.
Qed.

Lemma loop_count (p : string -> bool) (l : string)
      (clock : nat -> string) (events : list Event) :
  (forall iso e start, filter p (eventLines decode iso e start) = [l]) ->
  forall k, length (filter p (loop decode clock k events))
            = length (filter hasStart events).
Proof.
  intros one.
  induction events as [|e events IH]; intros k; [reflexivity|].
  cbn [loop filter]. unfold hasStart at 1.
  destruct (startDate e) as [start|]; [|apply IH].
  rewrite filter_app, one, length_app, IH. reflexivity.
Qed.

Lemma loop_skips (clock : nat -> string) (before after : list Event) (d : Event) :
  startDate d = None ->
  forall k, loop decode clock k (before ++ d :: after)
            = loop decode clock k (before ++ after).
Proof.
  intros none.
  induction before as [|e before IH]; intros k; cbn [loop app].
  - now rewrite none.
  - destruct (startDate e); rewrite IH; reflexivity.
Qed.

Lemma icsLines_uids (clock : nat -> string) (events : list Event)
      (calendarName : string) :
  filter isUidLine (icsLines decode clock events calendarName)
  = map uidLine (filter hasStart events).
Proof.
  unfold icsLines. rewrite 2 filter_app, loop_uids.
  cbn [envelope filter isUidLine String.prefix].
  cbv [ascii_dec ascii_rec ascii_rect bool_dec bool_rec bool_rect sumbool_rec sumbool_rect].
  apply app_nil_r.
Qed.

Lemma icsLines_count (p : string -> bool) (l : string)
      (clock : nat -> string) (events : list Event) (calendarName : string) :
  (forall iso e start, filter p (eventLines decode iso e start) = [l]) ->
  (forall n, filter p (envelope n) = []) ->
  p "END:VCALENDAR" = false ->
  length (filter p (icsLines decode clock events calendarName))
  = length (filter hasStart events).
Proof.
  intros one env last. unfold icsLines.
  rewrite 2 filter_app, 2 length_app, (loop_count _ _ _ _ one), env.
  cbn [filter]. rewrite last. simpl. lia.
Qed.

(** C9 (dropped records).  [buildIcs] is total, and a record without a
    usable start date leaves no trace in its result: the document built
    from a sequence that holds such a record is the document built from
    the sequence without it.  The document has one entry for each record
    that has a start date, and the UID lines of the entries are the UIDs
    of these records in the order of the input. *)
Theorem undated_record_is_dropped
        (clock : nat -> string) (calendarName : string)
        (before after : list Event) (d : Event) :
  startDate d = None ->
  let events := (before ++ d :: after)%list in
  let kept := (before ++ after)%list in
  buildIcs decode clock events calendarName
  = buildIcs decode clock kept calendarName
  /\ filter hasStart events = filter hasStart kept
  /\ filter isUidLine (icsLines decode clock events calendarName)
     = map uidLine (filter hasStart events)
  /\ length (filter opensEntry (icsLines decode clock events calendarName))
     = length (filter hasStart events)
  /\ length (filter closesEntry (icsLines decode clock events calendarName))
     = length (filter hasStart events).
Proof.
  intros none events kept. subst events kept.
  split.
  { unfold buildIcs, icsLines. now rewrite (loop_skips _ _ _ _ none). }
  assert (F : filter hasStart (before ++ d :: after)
              = filter hasStart (before ++ after)).
  { rewrite !filter_app. simpl. unfold hasStart at 2. now rewrite none. }
  split; [exact F|].
  repeat split.
  - apply icsLines_uids.
  - apply (icsLines_count _ _ _ _ _ eventLines_open); reflexivity.
  - apply (icsLines_count _ _ _ _ _ eventLines_close); reflexivity.
Qed.

End Dropped.

Lemma undated_record_is_dropped_witness :
  Scrape.startDate Samples.undated = None
  /\ filter Entries.isUidLine
       (Scrape.icsLines He.decode Samples.noon
          [Samples.confirmed; Samples.undated; Samples.lookalike] "Quin")
     = map Entries.uidLine (filter Entries.hasStart
          [Samples.confirmed; Samples.undated; Samples.lookalike]).
Proof.
  split; [reflexivity|].
  apply (undated_record_is_dropped He.decode Samples.noon "Quin"
           [Samples.confirmed] [Samples.lookalike] Samples.undated).
  reflexivity.
Defined.

(** ** Classification by duration *)

(** C3 (classification boundary).  The duration is computed in binary64
    arithmetic, where the sixth of an hour has no exact value: the four
    hours from 06:10 to 10:10 of one day come out below 4, and the event is
    rendered as a timed one, while the four hours from 10:10 to 14:10 make
    an all-day event. *)
Theorem four_hours_classified_by_start_time :
  let start := "2026-03-02T06:10:00" in
  Scrape.startDate Samples.morning = Some start
  /\ Scrape.isMultiDay Samples.morning start = false
  /\ Scrape.startTimePart start = "06:10:00"
  /\ Scrape.endTimePart Samples.morning start = "10:10:00"
  /\ PrimFloat.ltb (Scrape.getDurationHours "06:10:00" "10:10:00") 4 = true
  /\ Scrape.isAllDay Samples.morning start = false
  /\ Scrape.dateLines Samples.morning start
     = [ "DTSTART;TZID=America/New_York:20260302T061000";
         "DTEND;TZID=America/New_York:20260302T101000" ]
  /\ Scrape.isMultiDay Samples.midday "2026-03-02T10:10:00" = false
  /\ Scrape.isAllDay Samples.midday "2026-03-02T10:10:00" = true
  /\ Scrape.dateLines Samples.midday "2026-03-02T10:10:00"
     = [ "DTSTART;VALUE=DATE:20260302"; "DTEND;VALUE=DATE:20260303" ].
Proof. repeat split; vm_compute; reflexivity. Qed.

(** ** Folding *)

(** C5 (folding).  [foldLine] cuts the octets of the line at 75 and decodes
    each piece on its own.  On a line of 74 letters and one two-octet
    character the cut falls inside the character: both halves are decoded
    to U+FFFD, the first physical line has 77 octets, and unfolding does not
    give the line back. *)
Theorem foldLine_cuts_inside_character :
  String.length Samples.cafe = 76%nat
  /\ Scrape.foldLine Samples.cafe
     = Js.repeatStr 74 "a" ++ Utf8.replacement ++ Js.CRLF ++ " "
       ++ Utf8.replacement ++ Js.CRLF
  /\ map String.length (Doc.physicalLines (Scrape.foldLine Samples.cafe))
     = [77; 4; 0]%nat
  /\ Doc.folded (Scrape.foldLine Samples.cafe) = false
  /\ Doc.unfoldLine (Scrape.foldLine Samples.cafe)
     = Js.repeatStr 74 "a" ++ Utf8.replacement ++ Utf8.replacement ++ Js.CRLF
  /\ Doc.unfoldLine (Scrape.foldLine Samples.cafe) <> Samples.cafe ++ Js.CRLF.
Proof.
  repeat split; try (vm_compute; reflexivity).
  vm_compute. intros H. discriminate H.
Qed.

(** ** The text filter *)

Section TextFilter.
Import Js Filter.

Lemma prefix_before (p s t : string) :
  String.prefix p s = true -> String.prefix p (s ++ t) = true.
Proof.
  revert s. induction p as [|c p IH]; intros s H; [now destruct (s ++ t)|].
  destruct s as [|d s]; [discriminate H|].
  simpl in *. destruct (ascii_dec c d); [now apply IH | discriminate H].
Qed.

Lemma includes_before (p s t : string) :
  includes p s = true -> includes p (s ++ t) = true.
Proof.
  induction s as [|c s IH]; intros H.
  - rewrite includes_unfold in H. rewrite orb_false_r in H.
    destruct p; [|discriminate H]. now destruct t.
  - rewrite includes_unfold in H. apply orb_true_iff in H as [H|H].
    + rewrite includes_unfold, (prefix_before _ _ _ H). reflexivity.
    + rewrite includes_unfold. simpl. rewrite (IH H). apply orb_true_r.
Qed.

Lemma personal_retained (raw b : string) :
  In b (personal raw)
  <-> In b (eventBlocks (unfold raw)) /\ isPersonalBlock b = true.
Proof. unfold personal. apply filter_In. Qed.

Lemma onEnd_written (raw b : string) :
  In b (personal raw) ->
  exists file, onEnd raw = Written file /\ includes b file = true.
Proof.
  intros H. unfold onEnd. destruct (personal raw) as [|b1 bs] eqn:E.
  - destruct H.
  - eexists. split; [reflexivity|].
    apply includes_before, includes_join.
    apply in_or_app; right. apply in_or_app; left. exact H.
Qed.

(** C10 (what the filter tests).  The phrase is looked for in the whole
    text of the unfolded block: a block in which either phrase occurs
    anywhere is retained and written to the output. *)
Theorem block_retained_on_phrase_anywhere (raw b : string) :
  In b (eventBlocks (unfold raw)) ->
  includes confirmedPhrase b = true \/ includes waitlistPhrase b = true ->
  In b (personal raw)
  /\ exists file, onEnd raw = Written file /\ includes b file = true.
Proof.
  intros B P.
  assert (R : In b (personal raw)).
  { apply personal_retained. split; [exact B|].
    unfold isPersonalBlock. now apply orb_true_iff. }
  split; [exact R | apply onEnd_written, R].
Qed.

End TextFilter.

(** The entry of an event that the viewer has no status on, and whose title
    is the phrase, is retained: the phrase is in its SUMMARY line and not in
    its description. *)
Lemma block_retained_on_phrase_anywhere_witness :
  Scrape.isPersonal Samples.lookalike = false
  /\ Format.describedAsPersonal He.decode Samples.lookalike = false
  /\ In Inputs.lookalikeBlock
        (Filter.eventBlocks (Filter.unfold Inputs.lookalikeCalendar))
  /\ In Inputs.lookalikeBlock (Filter.personal Inputs.lookalikeCalendar).
Proof.
  assert (B : In Inputs.lookalikeBlock
                 (Filter.eventBlocks (Filter.unfold Inputs.lookalikeCalendar)))
    by (vm_compute; left; reflexivity).
  split; [reflexivity|]. split; [reflexivity|]. split; [exact B|].
  apply (block_retained_on_phrase_anywhere _ _ B).
  left. vm_compute. reflexivity.
Defined.

(** C7 (selectivity of the filter).  Of the two entries of the document
    built from [confirmed] and [lookalike], one has a description that holds
    a personal-status phrase; the filter retains both. *)
Theorem filter_retains_entry_without_status :
  let events := [Samples.confirmed; Samples.lookalike] in
  let raw := Scrape.calendarIcs He.decode Samples.noon events in
  length (Filter.eventBlocks (Filter.unfold raw)) = 2%nat
  /\ filter (Format.describedAsPersonal He.decode) events = [Samples.confirmed]
  /\ length (Filter.personal raw) = 2%nat
  /\ map (Js.includes "SUMMARY:Status: You are Confirmed") (Filter.personal raw)
     = [false; true]
  /\ map (Js.includes "UID:quin-event-11@thequinhouse.com") (Filter.personal raw)
     = [false; true].
Proof. repeat split; vm_compute; reflexivity. Qed.

(** ** The two personal documents *)

Section Joining.
Import Js.

Lemma concat_empty_cons (x : string) (l : list string) :
  String.concat "" (x :: l) = x ++ String.concat "" l.
Proof. destruct l; simpl; [now rewrite append_empty | reflexivity]. Qed.

Lemma concat_empty_app (l1 l2 : list string) :
  String.concat "" (l1 ++ l2)%list
  = String.concat "" l1 ++ String.concat "" l2.
Proof.
  induction l1 as [|x l1 IH]; [reflexivity|].
  change ((x :: l1) ++ l2)%list with (x :: (l1 ++ l2))%list.
  now rewrite !concat_empty_cons, IH, append_swap.
Qed.

Lemma join_snoc (sep : string) (l : list string) (x : string) :
  join sep (l ++ [x]) = Lines.terminated sep l ++ x.
Proof.
  unfold join. induction l as [|y l IH]; [reflexivity|].
  change ((y :: l) ++ [x])%list with (y :: (l ++ [x]))%list.
  replace (String.concat sep (y :: l ++ [x]))
    with (y ++ sep ++ String.concat sep (l ++ [x]))
    by (destruct l; reflexivity).
  cbn [Lines.terminated]. now rewrite IH, !append_swap.
Qed.

Lemma block_begins (s b rest : string) :
  Filter.block s = Some (b, rest) -> exists body, b = "BEGIN:VEVENT" ++ body.
Proof.
  unfold Filter.block.
  destruct (dropPrefix "BEGIN:VEVENT" s) as [s1|]; [|discriminate].
  destruct (Filter.through "END:VEVENT" s1) as [[body r]|]; [|discriminate].
  intros [= <- _]. now exists body.
Qed.

Lemma matchAll_begins (fuel : nat) :
  forall s b, In b (Filter.matchAll fuel s) ->
              exists body, b = "BEGIN:VEVENT" ++ body.
Proof.
  induction fuel as [|k IH]; intros s b; simpl; [tauto|].
  destruct (Filter.block s) as [[b1 rest]|] eqn:E.
  - intros [<-|H]; [eapply block_begins, E | eapply IH, H].
  - destruct s; [intros [] | apply IH].
Qed.

Lemma onEnd_shape (raw file : string) :
  Filter.onEnd raw = Filter.Written file ->
  exists entries,
    file = Format.commonHead ++ "BEGIN:VEVENT" ++ entries ++ Format.closing.
Proof.
  unfold Filter.onEnd.
  destruct (Filter.personal raw) as [|b bs] eqn:E; [discriminate|].
  intros W.
  assert (F : file = join CRLF (Filter.envelope ++ (b :: bs)
                                ++ ["END:VCALENDAR"])%list ++ CRLF)
    by congruence.
  clear W. subst file.
  assert (I : In b (Filter.personal raw)) by (rewrite E; now left).
  apply filter_In in I. destruct I as [I _].
  apply matchAll_begins in I. destruct I as [body ->].
  clear E.
  exists (body ++ CRLF ++ Lines.terminated CRLF bs).
  rewrite app_assoc, join_snoc.
  unfold Filter.envelope, Format.commonHead, Format.closing.
  cbn [app Lines.terminated]. now rewrite !append_swap.
Qed.

End Joining.

Section BuiltShape.
Import Js Scrape.

Variable decode : string -> string.

Lemma buildIcs_shape (clock : nat -> string) (events : list Event) :
  exists entries,
    buildIcs decode clock events "Quin"
    = Format.commonHead ++ Format.caldesc ++ entries ++ Format.closing.
Proof.
  exists (join "" (map foldLine (loop decode clock 0 events))).
  unfold buildIcs, icsLines, join.
  rewrite !map_app, !concat_empty_app. reflexivity.
Qed.

End BuiltShape.

Section Endings.
Import Js.

Lemma rev_acc (s acc : string) : rev s acc = rev s "" ++ acc.
Proof.
  revert acc. induction s as [|c s IH]; intros acc; simpl; [reflexivity|].
  rewrite IH, (IH (String c "")), append_swap. reflexivity.
Qed.

Lemma rev_append (a b : string) : rev (a ++ b) "" = rev b "" ++ rev a "".
Proof.
  induction a as [|c a IH]; simpl.
  - now rewrite append_empty.
  - rewrite (rev_acc (a ++ b) (String c "")), IH.
    rewrite (rev_acc a (String c "")), append_swap. reflexivity.
Qed.

Lemma rev_involutive (s : string) : rev (rev s "") "" = s.
Proof.
  induction s as [|c s IH]; simpl; [reflexivity|].
  rewrite (rev_acc s (String c "")), rev_append, IH. reflexivity.
Qed.

Lemma endsWith_append (s suffix : string) :
  Doc.endsWith suffix (s ++ suffix) = true.
Proof. unfold Doc.endsWith. rewrite rev_append. apply prefix_app. Qed.

Lemma endsWith_closing (s : string) :
  Doc.endsWith CRLF (s ++ Format.closing) = true.
Proof.
  unfold Format.closing. rewrite <- append_swap. apply endsWith_append.
Qed.

End Endings.

Section SharedEnvelope.
Import Js Scrape.

Variable decode : string -> string.

(** C6, as amended.  When the filter writes a document, it and the
    document built from the personal records both start with the same
    seven envelope lines and both end with the closing line, each line
    ended by CRLF.  The built document then carries the line X-WR-CALDESC;
    the filtered one goes on with its first entry. *)
Theorem personal_documents_share_envelope
        (clock : nat -> string) (events : list Event) (file : string) :
  Filter.onEnd (calendarIcs decode clock events) = Filter.Written file ->
  (exists entries,
      quinIcs decode clock events
      = Format.commonHead ++ Format.caldesc ++ entries ++ Format.closing)
  /\ (exists entries,
         file = Format.commonHead ++ "BEGIN:VEVENT" ++ entries
                ++ Format.closing)
  /\ Doc.endsWith CRLF (quinIcs decode clock events) = true
  /\ Doc.endsWith CRLF file = true.
Proof.
  intros W.
  destruct (buildIcs_shape decode clock (filter isPersonal events)) as [b B].
  destruct (onEnd_shape _ _ W) as [f F].
  split; [now exists b|]. split; [now exists f|].
  unfold quinIcs. rewrite B, F.
  split; rewrite <- !append_swap; apply endsWith_closing.
Qed.

End SharedEnvelope.

Lemma personal_documents_share_envelope_witness :
  Filter.onEnd (Scrape.calendarIcs He.decode Samples.noon Inputs.pair)
  = Filter.Written Outputs.filteredPair
  /\ Doc.endsWith Js.CRLF Outputs.filteredPair = true.
Proof.
  split; [vm_compute; reflexivity|].
  apply (personal_documents_share_envelope He.decode Samples.noon Inputs.pair
           Outputs.filteredPair).
  vm_compute. reflexivity.
Defined.

(** C6, as stated, fails on the documents of [Inputs.pair]: the filtered
    document has physical lines longer than 75 octets, and its envelope
    lacks the field X-WR-CALDESC of the built one. *)
Lemma personal_documents_differ_in_format :
  Filter.onEnd (Scrape.calendarIcs He.decode Samples.noon Inputs.pair)
  = Filter.Written Outputs.filteredPair
  /\ Outputs.builtPair = Scrape.quinIcs He.decode Samples.noon Inputs.pair
  /\ Doc.folded Outputs.filteredPair = false
  /\ In Format.caldesc
        (map (fun l => l ++ Js.CRLF) (Doc.envelopeFields Outputs.builtPair))
  /\ ~ In Format.caldesc
          (map (fun l => l ++ Js.CRLF) (Doc.envelopeFields Outputs.filteredPair))
  /\ ~ Format.identical Outputs.builtPair Outputs.filteredPair.
Proof.
  split; [vm_compute; reflexivity|].
  split; [reflexivity|].
  assert (F : Doc.folded Outputs.filteredPair = false) by (vm_compute; reflexivity).
  split; [exact F|].
  split; [vm_compute; tauto|].
  split.
  - vm_compute. intuition discriminate.
  - intros (_ & _ & _ & F' & _). rewrite F in F'. discriminate F'.
Qed.

(** ** The sanitizer *)

Section Collapse.
Import Js Runs.

Lemma nl3_chars : NL ++ NL ++ NL = String LF (String LF (String LF "")).
Proof. reflexivity. Qed.

Lemma nl2_chars : NL ++ NL = String LF (String LF "").
Proof. reflexivity. Qed.

Lemma eqb_LF (c : ascii) : Ascii.eqb LF c = Ascii.eqb c LF.
Proof. apply Ascii.eqb_sym. Qed.

Lemma prefix3_leading (s : string) :
  String.prefix (NL ++ NL ++ NL) s = (3 <=? leadingNewlines s)%nat.
Proof.
  rewrite nl3_chars.
  destruct s as [|c1 [|c2 [|c3 r]]]; cbn [String.prefix leadingNewlines];
    repeat match goal with
      | |- context [ascii_dec LF ?c] =>
          destruct (ascii_dec LF c) as [<-|ne];
          [rewrite ?Ascii.eqb_refl
          |destruct (Ascii.eqb_spec c LF) as [->|_]; [now elim ne|]]
      end; try reflexivity; destruct r; reflexivity.
Qed.

Lemma run3_cons (c : ascii) (s : string) :
  Doc.newlineRun3 (String c s)
  = (3 <=? leadingNewlines (String c s))%nat || Doc.newlineRun3 s.
Proof.
  unfold Doc.newlineRun3. rewrite includes_unfold, prefix3_leading.
  reflexivity.
Qed.

Lemma skipNewlines_spec (s : string) :
  leadingNewlines (Regex.skipNewlines s) = 0%nat
  /\ (String.length (Regex.skipNewlines s) <= String.length s)%nat.
Proof.
  induction s as [|c s [IH1 IH2]]; simpl; [split; reflexivity|].
  destruct (Ascii.eqb c LF) eqn:E; simpl.
  - split; [exact IH1 | lia].
  - rewrite E. split; [reflexivity | lia].
Qed.

Lemma newlines3_some (s rest : string) :
  Regex.newlines3 s = Some rest ->
  leadingNewlines rest = 0%nat /\ (String.length rest < String.length s)%nat
  /\ (3 <= leadingNewlines s)%nat.
Proof.
  unfold Regex.newlines3, Regex.bind. rewrite nl3_chars.
  destruct s as [|c1 [|c2 [|c3 r]]]; cbn [dropPrefix leadingNewlines];
    rewrite <- ?eqb_LF;
    repeat match goal with
      | |- context [Ascii.eqb LF ?c] => destruct (Ascii.eqb LF c)
      end; try discriminate.
  intros [= <-]. destruct (skipNewlines_spec r) as [Z L].
  split; [exact Z | split; simpl; lia].
Qed.

Lemma newlines3_none (s : string) :
  Regex.newlines3 s = None -> (leadingNewlines s <= 2)%nat.
Proof.
  unfold Regex.newlines3, Regex.bind. rewrite nl3_chars.
  destruct s as [|c1 [|c2 [|c3 r]]]; cbn [dropPrefix leadingNewlines];
    rewrite <- ?eqb_LF;
    repeat match goal with
      | |- context [Ascii.eqb LF ?c] => destruct (Ascii.eqb LF c)
      end; try discriminate; intros _; lia.
Qed.

Lemma collapse_spec (fuel : nat) :
  forall s, (String.length s < fuel)%nat ->
    let out := Regex.replaceAll Regex.newlines3 (NL ++ NL) fuel s in
    Doc.newlineRun3 out = false
    /\ (leadingNewlines out <= leadingNewlines s)%nat
    /\ (leadingNewlines out <= 2)%nat.
Proof.
  induction fuel as [|k IH]; intros s L; [lia|].
  cbn [Regex.replaceAll].
  destruct (Regex.newlines3 s) as [rest|] eqn:E.
  - destruct (newlines3_some _ _ E) as (Z & Lr & L3).
    destruct (IH rest ltac:(lia)) as (R & Le & _).
    set (tail := Regex.replaceAll Regex.newlines3 (NL ++ NL) k rest) in *.
    rewrite nl2_chars. cbn [append]. rewrite !run3_cons. cbn [leadingNewlines].
    rewrite Ascii.eqb_refl, R.
    assert (T : leadingNewlines tail = 0%nat) by lia. rewrite T.
    repeat split; simpl; lia.
  - pose proof (newlines3_none _ E) as N.
    destruct s as [|c r]; [repeat split; simpl; lia|].
    destruct (IH r ltac:(simpl in L; lia)) as (R & Le & L2).
    set (tail := Regex.replaceAll Regex.newlines3 (NL ++ NL) k r) in *.
    rewrite run3_cons, R. cbn [leadingNewlines] in *.
    destruct (Ascii.eqb c LF).
    + assert (B : (3 <=? S (leadingNewlines tail))%nat = false)
        by (apply Nat.leb_gt; lia).
      rewrite B. repeat split; simpl; lia.
    + repeat split; simpl; lia.
Qed.

Lemma collapse_no_run (s : string) :
  Doc.newlineRun3 (Regex.replace Regex.newlines3 (NL ++ NL) s) = false.
Proof. unfold Regex.replace. apply collapse_spec. lia. Qed.

End Collapse.

Section Trimming.
Import Js.

Variable toks : list string.
Hypothesis nonempty : Forall (fun t => t <> "") toks.

Lemma dropPrefix_split (t s r : string) :
  dropPrefix t s = Some r -> s = t ++ r.
Proof.
  revert s. induction t as [|a t IH]; intros s; simpl.
  - now intros [= ->].
  - destruct s as [|b s]; [discriminate|].
    destruct (Ascii.eqb_spec a b) as [->|_]; [|discriminate].
    intros H. now rewrite (IH _ H).
Qed.

Lemma dropPrefix_extend (t s r b : string) :
  dropPrefix t s = Some r -> dropPrefix t (s ++ b) = Some (r ++ b).
Proof.
  revert s. induction t as [|a t IH]; intros s; simpl.
  - now intros [= ->].
  - destruct s as [|c s]; [discriminate|]. simpl.
    destruct (Ascii.eqb a c); [apply IH | discriminate].
Qed.

Lemma dropOne_split (l : list string) (s r : string) :
  dropOne l s = Some r -> exists t, In t l /\ s = t ++ r.
Proof.
  induction l as [|t l IH]; simpl; [discriminate|].
  destruct (dropPrefix t s) as [r'|] eqn:E.
  - intros [= <-]. exists t. split; [now left | now apply dropPrefix_split].
  - intros H. destruct (IH H) as (t' & I & S). exists t'. split; [now right | exact S].
Qed.

Lemma dropOne_extend (l : list string) (s b : string) :
  dropOne l (s ++ b) = None -> dropOne l s = None.
Proof.
  induction l as [|t l IH]; simpl; [reflexivity|].
  destruct (dropPrefix t s) as [r|] eqn:E.
  - now rewrite (dropPrefix_extend _ _ _ b E).
  - destruct (dropPrefix t (s ++ b)); [discriminate | exact IH].
Qed.

Lemma dropOne_shorter (s r : string) :
  dropOne toks s = Some r -> (String.length r < String.length s)%nat.
Proof.
  intros H. destruct (dropOne_split _ _ _ H) as (t & I & ->).
  rewrite length_append.
  pose proof (proj1 (Forall_forall _ _) nonempty t I) as N.
  destruct t; [now elim N | simpl; lia].
Qed.

Lemma dropOne_empty : dropOne toks "" = None.
Proof.
  destruct (dropOne toks "") as [r|] eqn:E; [|reflexivity].
  apply dropOne_shorter in E. simpl in E. lia.
Qed.

Lemma dropLeading_clean (fuel : nat) :
  forall s, (String.length s <= fuel)%nat ->
            dropOne toks (dropLeading fuel toks s) = None.
Proof.
  induction fuel as [|k IH]; intros s L.
  - destruct s; [apply dropOne_empty | simpl in L; lia].
  - cbn [dropLeading]. destruct (dropOne toks s) as [[|c r]|] eqn:E.
    + apply dropOne_empty.
    + apply IH. apply dropOne_shorter in E. lia.
    + exact E.
Qed.

Lemma dropLeading_suffix (fuel : nat) :
  forall s, exists a, s = a ++ dropLeading fuel toks s.
Proof.
  induction fuel as [|k IH]; intros s; [now exists ""|].
  cbn [dropLeading]. destruct (dropOne toks s) as [[|c r]|] eqn:E.
  - exists s. now rewrite append_empty.
  - destruct (dropOne_split _ _ _ E) as (t & _ & ->).
    destruct (IH (String c r)) as [a A]. exists (t ++ a).
    now rewrite append_swap, <- A.
  - now exists "".
Qed.

End Trimming.

Section Trim.
Import Js.

Lemma length_rev (s acc : string) :
  String.length (rev s acc) = (String.length s + String.length acc)%nat.
Proof.
  revert acc. induction s as [|c s IH]; intros acc; simpl; [reflexivity|].
  rewrite IH. simpl. lia.
Qed.

Lemma whitespace_nonempty : Forall (fun t => t <> "") whitespace.
Proof. repeat constructor; discriminate. Qed.

Lemma reversed_nonempty :
  Forall (fun t => t <> "") (map (fun t => rev t "") whitespace).
Proof. repeat constructor; discriminate. Qed.

Lemma trimStart_suffix (s : string) : exists a, s = a ++ trimStart s.
Proof. apply dropLeading_suffix. Qed.

Lemma trimEnd_prefix (s : string) : exists b, s = trimEnd s ++ b.
Proof.
  unfold trimEnd.
  destruct (dropLeading_suffix (map (fun t => rev t "") whitespace)
              (String.length s) (rev s "")) as [a A].
  exists (rev a ""). rewrite <- rev_append, <- A. symmetry. apply rev_involutive.
Qed.

Lemma trim_clean (s : string) :
  Doc.leadingSpace (trim s) = false /\ Doc.trailingSpace (trim s) = false.
Proof.
  unfold Doc.leadingSpace, Doc.trailingSpace, trim. split.
  - destruct (trimEnd_prefix (trimStart s)) as [b B].
    rewrite (dropOne_extend whitespace (trimEnd (trimStart s)) b);
      [reflexivity|].
    rewrite <- B. apply (dropLeading_clean _ whitespace_nonempty). lia.
  - unfold trimEnd at 1. rewrite rev_involutive.
    rewrite (dropLeading_clean _ reversed_nonempty); [reflexivity|].
    rewrite length_rev. simpl. lia.
Qed.

Lemma trim_inside (s : string) : exists a b, s = a ++ trim s ++ b.
Proof.
  destruct (trimStart_suffix s) as [a A].
  destruct (trimEnd_prefix (trimStart s)) as [b B].
  exists a, b. unfold trim. now rewrite <- B.
Qed.

Lemma trim_no_run (s : string) :
  Doc.newlineRun3 s = false -> Doc.newlineRun3 (trim s) = false.
Proof.
  intros H. destruct (Doc.newlineRun3 (trim s)) eqn:E; [|reflexivity].
  destruct (trim_inside s) as (a & b & S).
  rewrite S in H. unfold Doc.newlineRun3 in *.
  rewrite (includes_after _ a _ (includes_before _ _ b E)) in H.
  discriminate H.
Qed.

End Trim.

Section Sanitized.
Import Js Scrape.

Variable decode : string -> string.

Lemma stripMarkup_no_run (html : string) :
  Doc.newlineRun3 (stripMarkup html) = false.
Proof. apply collapse_no_run. Qed.

(** C8, as amended.  Absent input yields the empty string; the output has
    no leading and no trailing white space; it is the trimmed result of
    decoding the entities of a text that has no run of three newline
    characters.  The runs are collapsed before the entities are decoded:
    where decoding leaves the text as it is, the output has no such run
    either. *)
Theorem stripHtml_collapses_before_decoding :
  stripHtml decode None = ""
  /\ (forall html,
        Doc.leadingSpace (stripHtml decode html) = false
        /\ Doc.trailingSpace (stripHtml decode html) = false)
  /\ (forall c r,
        stripHtml decode (Some (String c r))
        = trim (decode (stripMarkup (String c r)))
        /\ Doc.newlineRun3 (stripMarkup (String c r)) = false)
  /\ (forall html,
        decode (stripMarkup html) = stripMarkup html ->
        Doc.newlineRun3 (stripHtml decode (Some html)) = false).
Proof.
  split; [reflexivity|]. split; [|split].
  - intros [[|c r]|]; try (split; reflexivity). apply trim_clean.
  - intros c r. split; [reflexivity | apply stripMarkup_no_run].
  - intros [|c r] H; [reflexivity|]. cbn [stripHtml]. rewrite H.
    apply trim_no_run, stripMarkup_no_run.
Qed.

End Sanitized.

Lemma stripHtml_collapses_before_decoding_witness :
  He.decode (Scrape.stripMarkup Runs.plain) = Scrape.stripMarkup Runs.plain
  /\ Doc.newlineRun3 (Scrape.stripHtml He.decode (Some Runs.plain)) = false.
Proof.
  split; [vm_compute; reflexivity|].
  apply (stripHtml_collapses_before_decoding He.decode).
  vm_compute. reflexivity.
Defined.

(** C8, as stated, fails on [Runs.referenced]: the three character
    references are decoded to newline characters after the runs have been
    collapsed, and the output holds a run of three. *)
Lemma stripHtml_keeps_decoded_newlines :
  Scrape.stripHtml He.decode (Some Runs.referenced)
  = "a" ++ Js.NL ++ Js.NL ++ Js.NL ++ "b"
  /\ Doc.newlineRun3 (Scrape.stripHtml He.decode (Some Runs.referenced)) = true.
Proof. split; vm_compute; reflexivity. Qed.

(** ** Calendar arithmetic *)

Ltac divmod := Z.to_euclidean_division_equations; lia.

Ltac months m :=
  let H := fresh in
  assert (H : (m = 1 \/ m = 2 \/ m = 3 \/ m = 4 \/ m = 5 \/ m = 6 \/ m = 7
               \/ m = 8 \/ m = 9 \/ m = 10 \/ m = 11 \/ m = 12)%Z) by lia;
  repeat (destruct H as [H|H]; [subst m|]); [..|subst m].

Ltac month_start :=
  repeat match goal with
    | |- context [JsDate.monthStart (?a - 1)%Z _] =>
        let v := eval compute in (a - 1)%Z in change (a - 1)%Z with v
    end;
  cbv [JsDate.monthStart Calendar.daysInMonth].

Section CivilDates.
Import JsDate Calendar.
Local Open Scope Z_scope.

Lemma DaysInYear_leap (y : Z) :
  DaysInYear y = if leapYear y then 366 else 365.
Proof.
  unfold DaysInYear, leapYear.
  destruct (y mod 4 =? 0) eqn:A, (y mod 100 =? 0) eqn:B,
           (y mod 400 =? 0) eqn:C; try reflexivity; exfalso;
    rewrite ?Z.eqb_eq, ?Z.eqb_neq in *; divmod.
Qed.

Lemma DayFromYear_succ (y : Z) :
  DayFromYear (y + 1) = DayFromYear y + DaysInYear y.
Proof.
  unfold DayFromYear, DaysInYear.
  destruct (y mod 4 =? 0) eqn:A, (y mod 100 =? 0) eqn:B,
           (y mod 400 =? 0) eqn:C; cbn [negb];
    rewrite ?Z.eqb_eq, ?Z.eqb_neq in *; divmod.
Qed.

Lemma TimeFromYear_succ (y : Z) :
  TimeFromYear (y + 1) = TimeFromYear y + msPerDay * DaysInYear y.
Proof. unfold TimeFromYear. rewrite DayFromYear_succ. lia. Qed.

Lemma YearFromTime_within (y t : Z) :
  TimeFromYear y <= t < TimeFromYear (y + 1) -> YearFromTime t = y.
Proof.
  unfold YearFromTime, TimeFromYear, Day, msPerDay, DayFromYear. intros H.
  repeat match goal with
    | |- context [?a <=? ?b] => destruct (Z.leb_spec a b)
    end; divmod.
Qed.


Lemma MakeDay_month (y m d : Z) :
  1 <= m <= 12 ->
  MakeDay y (m - 1) d
  = DayFromYear y
    + (monthStart (m - 1) (if leapYear y then 1 else 0) + d - 1).
Proof.
  intros M. unfold MakeDay.
  replace ((m - 1) / 12) with 0 by divmod.
  replace ((m - 1) mod 12) with (m - 1) by divmod.
  rewrite Z.add_0_r, DaysInYear_leap. destruct (leapYear y); simpl; lia.
Qed.

Lemma dayInYear_bounds (y m d : Z) :
  validDate y m d ->
  0 <= monthStart (m - 1) (if leapYear y then 1 else 0) + d - 1 < DaysInYear y.
Proof.
  intros [M D]. rewrite DaysInYear_leap. revert D.
  months m; cbv [daysInMonth]; destruct (leapYear y); month_start; lia.
Qed.

Lemma monthOf_start (y m d : Z) :
  validDate y m d ->
  let leap := if leapYear y then 1 else 0 in
  monthOf 11 0 (monthStart (m - 1) leap + d - 1) leap = m - 1.
Proof.
  intros [M D]. revert D.
  months m; cbv [daysInMonth]; destruct (leapYear y); month_start; intros D;
    match goal with
    | |- monthOf _ _ ?e _ = _ =>
        let k := fresh "k" in
        let K := fresh "K" in
        remember e as k eqn:K; assert (K' : k = e) by exact K; clear K
    end;
    cbn -[Z.ltb];
    repeat match goal with
      | |- context [?a <? ?b] => destruct (Z.ltb_spec a b); try lia
      end; reflexivity.
Qed.

(** The getters of [Date] give back the date of a time value made from a
    date of the calendar. *)
Lemma getters_toTime (y m d : Z) :
  validDate y m d ->
  YearFromTime (Civil.toTime y m d) = y
  /\ MonthFromTime (Civil.toTime y m d) = m - 1
  /\ DateFromTime (Civil.toTime y m d) = d.
Proof.
  intros V. pose proof V as [M _].
  pose proof (dayInYear_bounds _ _ _ V) as B.
  pose proof (monthOf_start _ _ _ V) as MO. cbv zeta in MO.
  unfold Civil.toTime.
  rewrite (MakeDay_month _ _ _ M).
  set (leap := if leapYear y then 1 else 0) in *.
  set (k := monthStart (m - 1) leap + d - 1) in *.
  set (t := MakeDate (DayFromYear y + k) Civil.noon).
  assert (Dy : Day t = DayFromYear y + k).
  { subst t. unfold Day, MakeDate, msPerDay, Civil.noon. divmod. }
  assert (Y : YearFromTime t = y).
  { apply YearFromTime_within. rewrite TimeFromYear_succ.
    subst t. unfold TimeFromYear, MakeDate, msPerDay, Civil.noon. lia. }
  assert (W : DayWithinYear t = k).
  { unfold DayWithinYear. rewrite Dy, Y. lia. }
  assert (L : InLeapYear t = leap).
  { unfold InLeapYear. rewrite Y, DaysInYear_leap. subst leap.
    now destruct (leapYear y). }
  clearbody t.
  split; [exact Y|]. unfold DateFromTime, MonthFromTime. rewrite W, L.
  subst k. rewrite MO. split; lia.
Qed.

Lemma nextDay_valid (y m d : Z) :
  validDate y m d ->
  let '(y', m', d') := nextDay y m d in validDate y' m' d'.
Proof.
  intros [M D]. unfold nextDay, validDate.
  destruct (Z.ltb_spec d (daysInMonth y m)); [lia|].
  destruct (Z.ltb_spec m 12).
  - split; [lia|]. clear D H. unfold daysInMonth.
    months m; try lia; cbn; destruct (leapYear y); lia.
  - cbn. lia.
Qed.

Lemma MakeDay_next (y m d : Z) :
  validDate y m d ->
  let '(y', m', d') := nextDay y m d in
  MakeDay y (m - 1) (d + 1) = MakeDay y' (m' - 1) d'.
Proof.
  intros [M D]. unfold nextDay.
  destruct (Z.ltb_spec d (daysInMonth y m)); [reflexivity|].
  assert (E : d = daysInMonth y m) by lia. clear D H.
  destruct (Z.ltb_spec m 12).
  - rewrite !MakeDay_month by lia. subst d.
    months m; try lia; cbv [daysInMonth]; destruct (leapYear y);
      month_start; lia.
  - assert (m = 12) by lia. subst m d.
    rewrite !MakeDay_month by lia. rewrite DayFromYear_succ, DaysInYear_leap.
    cbv [daysInMonth]. destruct (leapYear y), (leapYear (y + 1));
      month_start; lia.
Qed.

Lemma TimeWithinDay_toTime (y m d : Z) :
  TimeWithinDay (Civil.toTime y m d) = Civil.noon.
Proof.
  unfold Civil.toTime. generalize (MakeDay y (m - 1) d). intros D.
  unfold TimeWithinDay, MakeDate, msPerDay, Civil.noon. divmod.
Qed.

(** Setting the day of the month to the day after moves the time value
    to the next day of the calendar. *)
Lemma setUTCDate_next (y m d : Z) :
  validDate y m d ->
  let '(y', m', d') := nextDay y m d in
  setUTCDate (Civil.toTime y m d) (getUTCDate (Civil.toTime y m d) + 1)
  = Civil.toTime y' m' d'.
Proof.
  intros V. destruct (getters_toTime _ _ _ V) as (Y & Mo & Da).
  pose proof (MakeDay_next _ _ _ V) as N.
  destruct (nextDay y m d) as [[y' m'] d'].
  unfold setUTCDate, getUTCDate.
  rewrite Y, Mo, Da, TimeWithinDay_toTime, N. reflexivity.
Qed.

End CivilDates.

(** ** Dates as texts *)

Ltac digit_cases n :=
  let k := fresh "k" in
  let B := fresh in
  pose proof (Z.mod_pos_bound n 10%Z eq_refl) as B;
  generalize dependent (n mod 10)%Z; intros k B;
  assert ((k = 0 \/ k = 1 \/ k = 2 \/ k = 3 \/ k = 4 \/ k = 5 \/ k = 6
           \/ k = 7 \/ k = 8 \/ k = 9)%Z) as
    [->|[->|[->|[->|[->|[->|[->|[->|[->| ->]]]]]]]]] by lia;
  reflexivity.

Section IsoDates.
Import Js Scrape Calendar.
Local Open Scope Z_scope.

Lemma digitVal_digit (n : Z) : digitVal (digitChar (n mod 10)) = Some (n mod 10).
Proof. digit_cases n. Qed.

Lemma digit_not_T (n : Z) : Ascii.eqb (digitChar (n mod 10)) "T" = false.
Proof. digit_cases n. Qed.

Lemma digit_not_dash (n : Z) : isOneOf "-" (digitChar (n mod 10)) = false.
Proof. digit_cases n. Qed.

Lemma isoDate_chars (y m d : Z) :
  isoDate y m d
  = String (digitChar ((y / 1000) mod 10))
      (String (digitChar ((y / 100) mod 10))
        (String (digitChar ((y / 10) mod 10))
          (String (digitChar (y mod 10))
            (String "-"
              (String (digitChar ((m / 10) mod 10))
                (String (digitChar (m mod 10))
                  (String "-"
                    (String (digitChar ((d / 10) mod 10))
                      (String (digitChar (d mod 10)) ""))))))))).
Proof. reflexivity. Qed.

Lemma readDate_isoDate (y m d : Z) (rest : string) :
  0 <= y <= 9999 -> 0 <= m <= 99 -> 0 <= d <= 99 ->
  JsDate.readDate (isoDate y m d ++ rest) = Some (y, m, d, rest).
Proof.
  intros Y M D. rewrite isoDate_chars. unfold JsDate.readDate.
  do 3 (cbn [append JsDate.digits]; rewrite ?digitVal_digit).
  repeat f_equal; Z.to_euclidean_division_equations; lia.
Qed.

Lemma isoDate_injective (y m d y' m' d' : Z) :
  0 <= y <= 9999 -> 0 <= m <= 99 -> 0 <= d <= 99 ->
  0 <= y' <= 9999 -> 0 <= m' <= 99 -> 0 <= d' <= 99 ->
  isoDate y m d = isoDate y' m' d' -> (y, m, d) = (y', m', d').
Proof.
  intros Y M D Y' M' D' E.
  pose proof (readDate_isoDate y m d "" Y M D) as R.
  rewrite E, (readDate_isoDate y' m' d' "" Y' M' D') in R. congruence.
Qed.

Lemma datePart_isoDate (y m d : Z) (time : string) :
  first (split "T" (isoDate y m d ++ "T" ++ time)) = isoDate y m d.
Proof.
  rewrite isoDate_chars. cbn [append split].
  rewrite !digit_not_T. cbn [Ascii.eqb Bool.eqb].
  repeat match goal with
    | |- context [match split ?c ?s with _ => _ end] =>
        destruct (split c s)
    end; reflexivity.
Qed.

Lemma toIcsDateOnly_isoDate (y m d : Z) :
  toIcsDateOnly (isoDate y m d) = icsDate (y, m, d).
Proof.
  rewrite isoDate_chars. unfold toIcsDateOnly. cbn [removeChars].
  rewrite !digit_not_dash. reflexivity.
Qed.

Lemma in_range (lo hi z : Z) : lo <= z < hi -> In z (range lo hi).
Proof.
  intros H. apply in_map_iff. exists (Z.to_nat (z - lo)).
  split; [lia | apply in_seq; lia].
Qed.

Lemma year_text (y : Z) : 1000 <= y <= 9999 -> natToString y = four y.
Proof.
  intros H. unfold natToString.
  assert (L : 9 <= Z.log2 y)
    by (change 9 with (Z.log2 512); apply Z.log2_le_mono; lia).
  destruct (Z.to_nat (Z.log2 y)) as [|[|[|k]]] eqn:F; try lia.
  cbn [digitsAux].
  destruct (Z.ltb_spec y 10); [lia|].
  destruct (Z.ltb_spec (y / 10) 10); [divmod|].
  destruct (Z.ltb_spec (y / 10 / 10) 10); [divmod|].
  destruct (Z.ltb_spec (y / 10 / 10 / 10) 10); [|divmod].
  unfold four, digit. cbn [append].
  replace (y / 10 / 10 / 10) with (y / 1000) by divmod.
  replace (y / 10 / 10) with (y / 100) by divmod.
  reflexivity.
Qed.

Lemma two_text (n : Z) : 0 <= n <= 99 -> padStart0 2 (natToString n) = two n.
Proof.
  intros H.
  assert (C : forallb (fun n => String.eqb (padStart0 2 (natToString n)) (two n))
                (range 0 100) = true)
    by (vm_compute; reflexivity).
  apply String.eqb_eq.
  apply (proj1 (forallb_forall _ _) C), in_range. lia.
Qed.

End IsoDates.

(** ** Entries of several days *)

Section MultiDay.
Import Js Scrape Calendar.
Local Open Scope Z_scope.

Variable decode : string -> string.

Lemma daysInMonth_bound (y m : Z) : 1 <= m <= 12 -> daysInMonth y m <= 31.
Proof.
  intros M. months m; cbv [daysInMonth]; destruct (leapYear y); lia.
Qed.

Lemma parse_isoDate (y m d : Z) :
  validDate y m d -> 0 <= y <= 9999 ->
  JsDate.parse (isoDate y m d ++ "T12:00:00Z") = Some (Civil.toTime y m d).
Proof.
  intros [M D] Y. pose proof (daysInMonth_bound y m M) as B.
  unfold JsDate.parse. rewrite readDate_isoDate by lia.
  replace (String.eqb "T12:00:00Z" "T12:00:00Z") with true by reflexivity.
  replace (1 <=? m) with true by (symmetry; apply Z.leb_le; lia).
  replace (m <=? 12) with true by (symmetry; apply Z.leb_le; lia).
  replace (1 <=? d) with true by (symmetry; apply Z.leb_le; lia).
  replace (d <=? 31) with true by (symmetry; apply Z.leb_le; lia).
  reflexivity.
Qed.

(** [nextDayIcs] gives the day after, also across the end of a month and
    of a year. *)
Lemma nextDayIcs_isoDate (y m d : Z) :
  validDate y m d -> 1000 <= y < 9999 ->
  nextDayIcs (isoDate y m d) = icsDate (nextDay y m d).
Proof.
  intros V Y. unfold nextDayIcs. rewrite (parse_isoDate _ _ _ V) by lia.
  pose proof (setUTCDate_next _ _ _ V) as S.
  pose proof (nextDay_valid _ _ _ V) as N.
  assert (Y' : 1000 <= fst (fst (nextDay y m d)) <= 9999).
  { unfold nextDay. repeat match goal with
      | |- context [?a <? ?b] => destruct (a <? b)
      end; simpl; lia. }
  destruct (nextDay y m d) as [[y' m'] d']. simpl in Y'.
  cbv zeta. rewrite S.
  destruct (getters_toTime _ _ _ N) as (Gy & Gm & Gd).
  unfold JsDate.getUTCFullYear, JsDate.getUTCMonth, JsDate.getUTCDate.
  rewrite Gy, Gm, Gd. replace (m' - 1 + 1) with m' by lia.
  destruct N as [M' D']. pose proof (daysInMonth_bound y' m' M').
  rewrite year_text, !two_text by lia. reflexivity.
Qed.

(** C4 (multi-day exclusive end).  A record whose start date and end
    date differ is rendered with date-only fields: the start field holds
    the start date, and the end field the calendar day after the end
    date, across the ends of months and years.  The dates are dates of the
    Gregorian calendar written [YYYY-MM-DD]; the end date lies in the years
    1000 to 9998, where the year of the day after has four digits. *)
Theorem multi_day_entry_ends_on_next_day
        (iso : string) (e : Event)
        (ys ms ds ye me de : Z) (startTime endTime : string) :
  validDate ys ms ds -> 0 <= ys <= 9999 ->
  validDate ye me de -> 1000 <= ye < 9999 ->
  (ys, ms, ds) <> (ye, me, de) ->
  let start := isoDate ys ms ds ++ "T" ++ startTime in
  start_date_local e = Some {| date := Some start |} ->
  end_date_local e
  = Some {| date := Some (isoDate ye me de ++ "T" ++ endTime) |} ->
  startDate e = Some start
  /\ isMultiDay e start = true
  /\ dateLines e start
     = [ "DTSTART;VALUE=DATE:" ++ icsDate (ys, ms, ds);
         "DTEND;VALUE=DATE:" ++ icsDate (nextDay ye me de) ]
  /\ nth_error (eventLines decode iso e start) 3
     = Some ("DTSTART;VALUE=DATE:" ++ icsDate (ys, ms, ds))
  /\ nth_error (eventLines decode iso e start) 4
     = Some ("DTEND;VALUE=DATE:" ++ icsDate (nextDay ye me de)).
Proof.
  intros Vs Ys Ve Ye Ne start Hs He.
  assert (S : startDate e = Some start)
    by (unfold startDate; rewrite Hs; subst start;
        rewrite isoDate_chars; reflexivity).
  assert (E : endDate e = Some (isoDate ye me de ++ "T" ++ endTime))
    by (unfold endDate; rewrite He; rewrite isoDate_chars; reflexivity).
  assert (Ps : startDatePart start = isoDate ys ms ds)
    by apply datePart_isoDate.
  assert (Pe : endDatePart e start = isoDate ye me de)
    by (unfold endDatePart; rewrite E; apply datePart_isoDate).
  assert (M : isMultiDay e start = true).
  { unfold isMultiDay. rewrite Ps, Pe. apply negb_true_iff, String.eqb_neq.
    intros I. apply Ne.
    destruct Vs as [Ms Ds], Ve as [Me De].
    pose proof (daysInMonth_bound ys ms Ms).
    pose proof (daysInMonth_bound ye me Me).
    apply isoDate_injective; trivial; lia. }
  assert (L : dateLines e start
              = [ "DTSTART;VALUE=DATE:" ++ icsDate (ys, ms, ds);
                  "DTEND;VALUE=DATE:" ++ icsDate (nextDay ye me de) ]).
  { unfold dateLines, isAllDay. rewrite M. cbn [orb].
    rewrite Ps, Pe, toIcsDateOnly_isoDate, nextDayIcs_isoDate by trivial.
    reflexivity. }
  repeat split; trivial; unfold eventLines; rewrite L; reflexivity.
Qed.

End MultiDay.

Lemma multi_day_entry_ends_on_next_day_witness :
  Scrape.start_date_local Samples.weekend
  = Some {| Scrape.date := Some "2026-02-27T17:00:00" |}
  /\ Scrape.end_date_local Samples.weekend
     = Some {| Scrape.date := Some "2026-03-01T21:00:00" |}
  /\ Scrape.dateLines Samples.weekend "2026-02-27T17:00:00"
     = [ "DTSTART;VALUE=DATE:20260227"; "DTEND;VALUE=DATE:20260302" ].
Proof.
  split; [reflexivity|]. split; [reflexivity|].
  apply (multi_day_entry_ends_on_next_day He.decode "" Samples.weekend
           2026 2 27 2026 3 1 "17:00:00" "21:00:00");
    try reflexivity; try (unfold Calendar.validDate; simpl; lia); try lia.
  intros H. discriminate H.
Defined.

(** ** The threshold of four hours *)

Section Threshold.
Import Js Scrape Calendar.
Local Open Scope Z_scope.

Lemma digit_not_colon (n : Z) : Ascii.eqb (digitChar (n mod 10)) ":" = false.
Proof. digit_cases n. Qed.

Lemma Number_two (n : Z) : 0 <= n <= 99 -> Number (two n) = ofZ n.
Proof.
  intros H. unfold Number, two, digit. cbn [append digitsVal].
  rewrite !digitVal_digit. cbn [digitsVal]. f_equal. divmod.
Qed.

Lemma split_clock (h m s : Z) :
  split ":" (Clock.text h m s) = [two h; two m; two s].
Proof.
  unfold Clock.text, two, digit. cbn [append split].
  rewrite !digit_not_colon. reflexivity.
Qed.

Lemma getDurationHours_clock (sh sm ss eh em es : Z) :
  0 <= sh < 24 -> 0 <= sm < 60 -> 0 <= eh < 24 -> 0 <= em < 60 ->
  getDurationHours (Clock.text sh sm ss) (Clock.text eh em es)
  = Clock.hoursBetween (sh * 60 + sm) (eh * 60 + em).
Proof.
  intros Hsh Hsm Heh Hem. unfold getDurationHours, numberAt.
  rewrite !split_clock. cbn [nth_error]. rewrite !Number_two by lia.
  unfold Clock.hoursBetween, Clock.hoursAt.
  replace ((sh * 60 + sm) / 60) with sh by divmod.
  replace ((sh * 60 + sm) mod 60) with sm by divmod.
  replace ((eh * 60 + em) / 60) with eh by divmod.
  replace ((eh * 60 + em) mod 60) with em by divmod.
  reflexivity.
Qed.

Lemma agrees_on_table :
  forallb (fun from => forallb (Clock.agrees from) Clock.table) Clock.table
  = true.
Proof. vm_compute. reflexivity. Qed.

Lemma in_table (a : Z) : 0 <= a < 1440 -> In (a, Clock.hoursAt a) Clock.table.
Proof.
  intros A. unfold Clock.table. apply in_map_iff.
  exists a. split; [reflexivity | apply in_range; exact A].
Qed.

Lemma hoursBetween_threshold (a b : Z) :
  0 <= a < 1440 -> 0 <= b < 1440 -> b - a <> 240 ->
  PrimFloat.leb 4 (Clock.hoursBetween a b) = (240 <=? b - a).
Proof.
  intros A B N. pose proof agrees_on_table as C.
  pose proof (proj1 (forallb_forall _ _) C _ (in_table a A)) as Ca.
  pose proof (proj1 (forallb_forall _ _) Ca _ (in_table b B)) as Cb.
  unfold Clock.agrees in Cb. apply orb_true_iff in Cb as [E|E].
  - apply Z.eqb_eq in E. contradiction.
  - apply Bool.eqb_prop in E. exact E.
Qed.

(** What the comparison of the duration with 4 decides, for clock times
    of one day: all-day from 240 minutes on and timed below, except at
    exactly 240 minutes, where the rounding of the start time decides. *)
Lemma duration_threshold_off_boundary (sh sm ss eh em es : Z) :
  0 <= sh < 24 -> 0 <= sm < 60 -> 0 <= eh < 24 -> 0 <= em < 60 ->
  (eh * 60 + em) - (sh * 60 + sm) <> 240 ->
  PrimFloat.leb 4 (getDurationHours (Clock.text sh sm ss) (Clock.text eh em es))
  = (240 <=? (eh * 60 + em) - (sh * 60 + sm)).
Proof.
  intros Hsh Hsm Heh Hem N.
  rewrite getDurationHours_clock by trivial.
  apply hoursBetween_threshold; lia.
Qed.

(** At exactly 240 minutes the comparison fails for 169 of the 1200 start
    times of a day. *)
Lemma boundary_spans_below_four :
  length (filter (fun a => negb (PrimFloat.leb 4 (Clock.hoursBetween a (a + 240))))
                 (range 0 1200)) = 169%nat.
Proof. vm_compute. reflexivity. Qed.

End Threshold.

(** Below the year 1000 [nextDayIcs] prints the year without its leading
    zeros. *)
Lemma nextDayIcs_short_year : Scrape.nextDayIcs "0999-12-30" = "9991231".
Proof. vm_compute. reflexivity. Qed.

(** * Further properties *)

(** ** Escaping *)

Section Escaping.
Import Js Scrape Escape.

Lemma replaceChar_append (c : ascii) (rep a b : string) :
  replaceChar c rep (a ++ b) = replaceChar c rep a ++ replaceChar c rep b.
Proof.
  induction a as [|d a IH]; [reflexivity|]. cbn [append replaceChar].
  rewrite IH. destruct (Ascii.eqb d c); [now rewrite append_swap | reflexivity].
Qed.

Lemma escapeIcs_passes (s : string) :
  escapeIcs s
  = replaceChar CR ""
      (replaceChar LF "\n"
        (replaceChar "," "\,"
          (replaceChar ";" "\;"
            (replaceChar "\" "\\" s)))).
Proof. now destruct s. Qed.

Lemma escapeIcs_append (a b : string) :
  escapeIcs (a ++ b) = escapeIcs a ++ escapeIcs b.
Proof. rewrite !escapeIcs_passes, !replaceChar_append. reflexivity. Qed.

Lemma escapeIcs_one (c : ascii) : escapeIcs (String c "") = escapeChar c.
Proof.
  unfold escapeChar. rewrite escapeIcs_passes.
  destruct (Ascii.eqb_spec c "\") as [->|N1]; [reflexivity|].
  destruct (Ascii.eqb_spec c ";") as [->|N2]; [reflexivity|].
  destruct (Ascii.eqb_spec c ",") as [->|N3]; [reflexivity|].
  destruct (Ascii.eqb_spec c LF) as [->|N4]; [reflexivity|].
  destruct (Ascii.eqb_spec c CR) as [->|N5]; [reflexivity|].
  cbn [replaceChar].
  repeat match goal with
    | |- context [Ascii.eqb c ?d] =>
        destruct (Ascii.eqb_spec c d); [contradiction|]; cbn [replaceChar]
    end.
  reflexivity.
Qed.

(** [escapeIcs] works character by character. *)
Lemma escapeIcs_cons (c : ascii) (s : string) :
  escapeIcs (String c s) = escapeChar c ++ escapeIcs s.
Proof.
  change (String c s) with (String c "" ++ s).
  now rewrite escapeIcs_append, escapeIcs_one.
Qed.

(** X1 (escaping can be undone).
    Unescaping an escaped text gives the text back, without its carriage
    returns: backslash, semicolon, comma and newline all survive. *)
Theorem unescape_escapeIcs (s : string) :
  unescape (escapeIcs s) = withoutCR s.
Proof.
  induction s as [|c s IH]; [reflexivity|].
  rewrite escapeIcs_cons. unfold withoutCR in *. cbn [removeChars].
  unfold escapeChar.
  destruct (Ascii.eqb_spec c "\") as [->|N1]; [cbn; now rewrite IH|].
  destruct (Ascii.eqb_spec c ";") as [->|N2]; [cbn; now rewrite IH|].
  destruct (Ascii.eqb_spec c ",") as [->|N3]; [cbn; now rewrite IH|].
  destruct (Ascii.eqb_spec c LF) as [->|N4]; [cbn; now rewrite IH|].
  destruct (Ascii.eqb_spec c CR) as [->|N5]; [cbn; now rewrite IH|].
  cbn [append unescape].
  destruct (Ascii.eqb_spec c "\"); [contradiction|]. now rewrite IH.
Qed.

Lemma noBreak_append (a b : string) :
  noBreak (a ++ b) = noBreak a && noBreak b.
Proof.
  induction a as [|c a IH]; [reflexivity|]. cbn [append noBreak].
  now rewrite IH, andb_assoc.
Qed.

Lemma noBreak_escapeIcs (s : string) : noBreak (escapeIcs s) = true.
Proof.
  induction s as [|c s IH]; [reflexivity|].
  rewrite escapeIcs_cons, noBreak_append, IH, andb_true_r.
  unfold escapeChar.
  repeat match goal with
    | |- context [if Ascii.eqb c ?d then _ else _] =>
        destruct (Ascii.eqb_spec c d); [reflexivity|]
    end.
  cbn [noBreak]. unfold isBreak.
  destruct (Ascii.eqb_spec c CR); [contradiction|].
  destruct (Ascii.eqb_spec c LF); [contradiction|]. reflexivity.
Qed.

(** X2 (escaped text has no line break).
    An escaped text has no line break in it, whatever the text was. *)
Theorem escapeIcs_noBreak (s : string) : noBreak (escapeIcs s) = true.
Proof. apply noBreak_escapeIcs. Qed.

End Escaping.

(** ** Line breaks *)

Section NoBreaks.
Import Js Scrape Escape.

Variable decode : string -> string.

Lemma noBreak_removeChars (p : ascii -> bool) (s : string) :
  noBreak s = true -> noBreak (removeChars p s) = true.
Proof.
  induction s as [|c s IH]; [reflexivity|]. cbn [noBreak removeChars].
  intros H. apply andb_true_iff in H as [C S].
  destruct (p c); [now apply IH|]. cbn [noBreak]. now rewrite C, IH.
Qed.

Lemma noBreak_substring (s : string) :
  forall n m, noBreak s = true -> noBreak (substring n m s) = true.
Proof.
  induction s as [|c s IH]; intros [|n] [|m] H; try reflexivity;
    cbn [substring noBreak] in *; apply andb_true_iff in H as [C S].
  - now rewrite C, IH.
  - now apply IH.
  - now apply IH.
Qed.

Lemma noBreak_split (sep : ascii) (s : string) :
  noBreak s = true -> forallb noBreak (split sep s) = true.
Proof.
  induction s as [|c s IH]; [reflexivity|]. cbn [noBreak split].
  intros H. apply andb_true_iff in H as [C S]. specialize (IH S).
  destruct (Ascii.eqb c sep); [exact IH|].
  destruct (split sep s) as [|p ps]; cbn [forallb noBreak] in *.
  - now rewrite C.
  - apply andb_true_iff in IH as [P PS]. now rewrite C, P, PS.
Qed.

Lemma noBreak_first (sep : ascii) (s : string) :
  noBreak s = true -> noBreak (first (split sep s)) = true.
Proof.
  intros H. apply noBreak_split with (sep := sep) in H.
  unfold first. destruct (split sep s); [reflexivity|].
  cbn [forallb hd] in *. now apply andb_true_iff in H as [P _].
Qed.

Lemma noBreak_second (sep : ascii) (s d : string) :
  noBreak s = true -> noBreak d = true ->
  noBreak (orElse (second (split sep s)) d) = true.
Proof.
  intros H D. apply noBreak_split with (sep := sep) in H.
  unfold second. destruct (split sep s) as [|p [|q qs]]; try exact D.
  cbn [nth_error orElse forallb] in *.
  apply andb_true_iff in H as [_ H]. apply andb_true_iff in H as [Q _].
  destruct q; [exact D | exact Q].
Qed.

Lemma digit_noBreak (n : Z) : isBreak (digitChar (n mod 10)) = false.
Proof. digit_cases n. Qed.

Lemma noBreak_digitsAux (fuel : nat) :
  forall n acc, noBreak acc = true -> noBreak (digitsAux fuel n acc) = true.
Proof.
  induction fuel as [|k IH]; intros n acc A; [exact A|]. cbn [digitsAux].
  assert (A' : noBreak (String (digitChar (n mod 10)) acc) = true)
    by (cbn [noBreak]; now rewrite digit_noBreak, A).
  destruct (n <? 10)%Z; [exact A' | now apply IH].
Qed.

Lemma noBreak_natToString (n : Z) : noBreak (natToString n) = true.
Proof. now apply noBreak_digitsAux. Qed.

Lemma noBreak_padStart0 (w : nat) (s : string) :
  noBreak s = true -> noBreak (padStart0 w s) = true.
Proof.
  intros H. unfold padStart0. rewrite noBreak_append, H, andb_true_r.
  induction (w - String.length s)%nat as [|k IH]; [reflexivity | exact IH].
Qed.

Lemma noBreak_nextDayIcs (datePart : string) :
  noBreak (nextDayIcs datePart) = true.
Proof.
  unfold nextDayIcs. destruct (JsDate.parse _); [|reflexivity].
  cbv zeta. rewrite !noBreak_append, noBreak_natToString.
  now rewrite !noBreak_padStart0 by apply noBreak_natToString.
Qed.

Lemma noBreak_join (sep : string) (l : list string) :
  noBreak sep = true -> forallb noBreak l = true ->
  noBreak (join sep l) = true.
Proof.
  intros S. unfold join. induction l as [|x l IH]; [reflexivity|].
  cbn [forallb]. intros H. apply andb_true_iff in H as [X L].
  destruct l as [|y l]; [exact X|].
  change (String.concat sep (x :: y :: l))
    with (x ++ sep ++ String.concat sep (y :: l)).
  now rewrite !noBreak_append, X, S, IH.
Qed.

Lemma noBreak_toIcsDate (s : string) :
  noBreak s = true -> noBreak (toIcsDate s) = true.
Proof.
  intros H. unfold toIcsDate, replaceFirstSame.
  now apply noBreak_first, noBreak_removeChars.
Qed.

Lemma noBreak_dateLines (e : Event) (start : string) :
  noBreak start = true -> Clean.noBreakOpt (endDate e) = true ->
  forallb noBreak (dateLines e start) = true.
Proof.
  intros S E. unfold dateLines.
  destruct (isAllDay e start); cbn [forallb]; rewrite !noBreak_append.
  - rewrite noBreak_nextDayIcs. unfold toIcsDateOnly, startDatePart.
    now rewrite noBreak_removeChars by now apply noBreak_first.
  - rewrite (noBreak_toIcsDate _ S).
    destruct (endDate e) as [en|]; cbn [Clean.noBreakOpt] in E;
      now rewrite noBreak_toIcsDate.
Qed.

Lemma noBreak_eventLines (iso : string) (e : Event) (start : string) :
  noBreak iso = true -> noBreak (id e) = true -> noBreak start = true ->
  Clean.noBreakOpt (endDate e) = true ->
  forallb noBreak (eventLines decode iso e start) = true.
Proof.
  intros I D S E. unfold eventLines.
  rewrite !forallb_app, (noBreak_dateLines _ _ S E).
  unfold locationLine, categoriesLine, uid, eventUrl, stamp.
  assert (C : forall cs : list Category,
             forallb noBreak (map (fun c => escapeIcs (name c)) cs) = true).
  { induction cs as [|c cs IH]; [reflexivity|].
    cbn [map forallb]. now rewrite noBreak_escapeIcs. }
  repeat match goal with
    | |- context [match ?x with _ => _ end] => destruct x
    end;
    cbn [forallb]; rewrite ?noBreak_append, ?noBreak_escapeIcs, ?D;
    (rewrite ?noBreak_substring by now apply noBreak_removeChars);
    (rewrite ?noBreak_join by first [apply C | reflexivity]);
    vm_compute; reflexivity.
Qed.

Lemma noBreak_loop (clock : nat -> string) (events : list Event) :
  (forall k, noBreak (clock k) = true) ->
  forallb Clean.record events = true ->
  forall k, forallb noBreak (loop decode clock k events) = true.
Proof.
  intros K. induction events as [|e events IH]; [reflexivity|].
  cbn [forallb loop]. intros H k. apply andb_true_iff in H as [R H].
  unfold Clean.record in R. apply andb_true_iff in R as [R En].
  apply andb_true_iff in R as [Id St].
  destruct (startDate e) as [start|]; [|now apply IH].
  rewrite forallb_app, IH by exact H.
  now rewrite noBreak_eventLines.
Qed.

Lemma noBreak_icsLines
      (clock : nat -> string) (events : list Event) (calendarName : string) :
  (forall k, noBreak (clock k) = true) ->
  noBreak calendarName = true ->
  forallb Clean.record events = true ->
  forallb noBreak (icsLines decode clock events calendarName) = true.
Proof.
  intros K N R. unfold icsLines.
  rewrite !forallb_app, (noBreak_loop _ _ K R).
  cbn [envelope forallb]. rewrite noBreak_append, N. reflexivity.
Qed.

(** X3 (no field breaks a line).
    No field of a record can break a line of the calendar: as long as the
    identifiers and the dates of the records, the readings of the clock and
    the name of the calendar hold no line break, no logical line does,
    whatever the titles, venues, descriptions and categories are. *)
Theorem icsLines_noBreak
        (clock : nat -> string) (events : list Event) (calendarName : string) :
  (forall k, noBreak (clock k) = true) ->
  noBreak calendarName = true ->
  forallb Clean.record events = true ->
  forallb noBreak (icsLines decode clock events calendarName) = true.
Proof. apply noBreak_icsLines. Qed.

End NoBreaks.

Lemma icsLines_noBreak_witness :
  forallb Clean.record Inputs.pair = true
  /\ forallb Escape.noBreak
       (Scrape.icsLines He.decode Samples.noon Inputs.pair "Quin") = true.
Proof.
  split; [reflexivity|].
  apply (icsLines_noBreak He.decode Samples.noon Inputs.pair "Quin");
    reflexivity.
Defined.

(** ** Date-times as texts *)

Section Moments.
Import Js Scrape Calendar.
Local Open Scope Z_scope.

Lemma digit_not_stop (n : Z) : Ascii.eqb (digitChar (n mod 10)) "." = false.
Proof. digit_cases n. Qed.

Lemma digit_kept (n : Z) : isOneOf "-:" (digitChar (n mod 10)) = false.
Proof. digit_cases n. Qed.

Lemma digit_kept_stamp (n : Z) : isOneOf "-:." (digitChar (n mod 10)) = false.
Proof. digit_cases n. Qed.

Lemma removeChars_keep (p : ascii -> bool) (c : ascii) (r : string) :
  p c = false -> removeChars p (String c r) = String c (removeChars p r).
Proof. intros H. cbn [removeChars]. now rewrite H. Qed.

Lemma removeChars_drop (p : ascii -> bool) (c : ascii) (r : string) :
  p c = true -> removeChars p (String c r) = removeChars p r.
Proof. intros H. cbn [removeChars]. now rewrite H. Qed.

Lemma split_keep (sep c : ascii) (r : string) :
  Ascii.eqb c sep = false -> split sep r = [r] ->
  split sep (String c r) = [String c r].
Proof. intros H E. cbn [split]. now rewrite H, E. Qed.

Lemma substring_none (s : string) : substring 0 0 s = "".
Proof. now destruct s. Qed.

Lemma clock_chars (h mi s : Z) :
  Clock.text h mi s
  = String (digitChar ((h / 10) mod 10))
      (String (digitChar (h mod 10))
        (String ":"
          (String (digitChar ((mi / 10) mod 10))
            (String (digitChar (mi mod 10))
              (String ":"
                (String (digitChar ((s / 10) mod 10))
                  (String (digitChar (s mod 10)) ""))))))).
Proof. reflexivity. Qed.

Lemma split_some (sep : ascii) (s : string) : split sep s <> [].
Proof.
  destruct s as [|c s]; cbn [split]; [discriminate|].
  destruct (Ascii.eqb c sep); [discriminate|].
  destruct (split sep s); discriminate.
Qed.

Lemma split_whole (sep : ascii) (a : string) :
  split sep a = [a] -> forall b, split sep (a ++ String sep b) = a :: split sep b.
Proof.
  induction a as [|c a IH]; cbn [split append].
  - intros _ b. now rewrite Ascii.eqb_refl.
  - destruct (Ascii.eqb c sep); [discriminate|].
    destruct (split sep a) as [|p ps] eqn:E; [now destruct (split_some sep a)|].
    intros H b. assert (p = a /\ ps = []) as [-> ->] by (split; congruence).
    now rewrite (IH eq_refl b).
Qed.

Lemma isoDate_whole_T (y m d : Z) : split "T" (isoDate y m d) = [isoDate y m d].
Proof.
  rewrite isoDate_chars.
  repeat (apply split_keep; [first [apply digit_not_T | reflexivity]|]).
  reflexivity.
Qed.

Lemma clock_whole_T (h mi s : Z) : split "T" (Clock.text h mi s) = [Clock.text h mi s].
Proof.
  rewrite clock_chars.
  repeat (apply split_keep; [first [apply digit_not_T | reflexivity]|]).
  reflexivity.
Qed.

Lemma clock_whole_stop (h mi s : Z) :
  split "." (Clock.text h mi s) = [Clock.text h mi s].
Proof.
  rewrite clock_chars.
  repeat (apply split_keep; [first [apply digit_not_stop | reflexivity]|]).
  reflexivity.
Qed.

Lemma split_moment (y m d h mi s : Z) :
  split "T" (Moment.text y m d h mi s) = [isoDate y m d; Clock.text h mi s].
Proof.
  unfold Moment.text. change ("T" ++ Clock.text h mi s)%string
    with (String "T" (Clock.text h mi s)).
  now rewrite (split_whole _ _ (isoDate_whole_T y m d)), clock_whole_T.
Qed.

Lemma startTimePart_moment (y m d h mi s : Z) :
  startTimePart (Moment.text y m d h mi s) = Clock.text h mi s.
Proof.
  unfold startTimePart. rewrite split_moment. cbn [second nth_error].
  rewrite clock_chars at 1. cbn [orElse]. rewrite <- clock_chars.
  now rewrite clock_whole_stop.
Qed.


Lemma removed_moment (y m d h mi s : Z) (tail : string) :
  removeChars (isOneOf "-:") (Moment.text y m d h mi s ++ tail)
  = Moment.ics y m d h mi s ++ removeChars (isOneOf "-:") tail.
Proof.
  unfold Moment.text, Moment.ics, icsDate, four, two, digit.
  rewrite isoDate_chars, clock_chars. cbn [append].
  repeat first [ rewrite removeChars_keep
                   by first [apply digit_kept | reflexivity]
               | rewrite removeChars_drop by reflexivity ].
  reflexivity.
Qed.

Lemma ics_whole_stop (y m d h mi s : Z) :
  split "." (Moment.ics y m d h mi s) = [Moment.ics y m d h mi s].
Proof.
  unfold Moment.ics, icsDate, four, two, digit. cbn [append].
  repeat (apply split_keep; [first [apply digit_not_stop | reflexivity]|]).
  reflexivity.
Qed.

Lemma toIcsDate_text (y m d h mi s : Z) (fraction : string) :
  toIcsDate (Moment.text y m d h mi s) = Moment.ics y m d h mi s
  /\ toIcsDate (Moment.text y m d h mi s ++ "." ++ fraction)
     = Moment.ics y m d h mi s.
Proof.
  unfold toIcsDate, replaceFirstSame. split.
  - rewrite <- (append_empty (Moment.text y m d h mi s)), removed_moment.
    cbn [removeChars]. now rewrite append_empty, ics_whole_stop.
  - rewrite removed_moment. cbn [append removeChars].
    change (isOneOf "-:" ".") with false. cbv iota.
    now rewrite (split_whole _ _ (ics_whole_stop y m d h mi s)).
Qed.

(** X4 (date-times of timed entries).
    [toIcsDate] turns [YYYY-MM-DDTHH:MM:SS] into [YYYYMMDDTHHMMSS], and
    cuts a fraction of the second off. *)
Theorem toIcsDate_moment (y m d h mi s : Z) (fraction : string) :
  toIcsDate (Moment.text y m d h mi s) = Moment.ics y m d h mi s
  /\ toIcsDate (Moment.text y m d h mi s ++ "." ++ fraction)
     = Moment.ics y m d h mi s.
Proof. apply toIcsDate_text. Qed.

(** X5 (the stamp).
    The stamp of an entry is the reading of the clock in the form
    [YYYYMMDDTHHMMSSZ]: the milliseconds are cut off. *)
Theorem stamp_of_reading (y m d h mi s : Z) (milliseconds : string) :
  stamp (Moment.text y m d h mi s ++ "." ++ milliseconds ++ "Z")
  = Moment.ics y m d h mi s ++ "Z".
Proof.
  unfold stamp, Moment.text, Moment.ics, icsDate, four, two, digit.
  rewrite isoDate_chars, clock_chars. cbn [append].
  repeat first [ rewrite removeChars_keep
                   by first [apply digit_kept_stamp | reflexivity]
               | rewrite removeChars_drop by reflexivity ].
  cbn [substring append]. now rewrite substring_none.
Qed.

End Moments.

(** ** Clock times and the kind of an entry *)

Section Timing.
Import Js Scrape Calendar.
Local Open Scope Z_scope.

Lemma formatTime_parts (h mi s : Z) :
  0 <= h <= 99 -> 0 <= mi <= 99 ->
  formatTime (Clock.text h mi s)
  = (Moment.hourText (ofZ h) ++ Moment.minuteText (ofZ mi) ++ " "
     ++ Moment.half (ofZ h))%string.
Proof.
  intros H M. unfold formatTime, numberAt. rewrite split_clock.
  cbn [nth_error]. rewrite !Number_two by lia. reflexivity.
Qed.

Lemma hours_agree : forallb Moment.hourAgrees (range 0 24) = true.
Proof. vm_compute. reflexivity. Qed.

Lemma minutes_agree : forallb Moment.minuteAgrees (range 0 60) = true.
Proof. vm_compute. reflexivity. Qed.

Lemma formatTime_clock (h mi s : Z) :
  0 <= h < 24 -> 0 <= mi < 60 ->
  formatTime (Clock.text h mi s) = Moment.twelve h mi.
Proof.
  intros H M. rewrite formatTime_parts by lia.
  pose proof (proj1 (forallb_forall _ _) hours_agree h (in_range 0 24 h H)) as A.
  pose proof (proj1 (forallb_forall _ _) minutes_agree mi (in_range 0 60 mi M)) as B.
  unfold Moment.hourAgrees in A. apply andb_true_iff in A as [A1 A2].
  apply String.eqb_eq in A1, A2. apply String.eqb_eq in B.
  unfold Moment.twelve. now rewrite A1, A2, B.
Qed.

(** X6 (the twelve-hour clock).
    [formatTime] prints a clock time of the day on the twelve-hour clock:
    the hour without a leading zero, 12 for midnight and noon, the
    minutes only when they are not zero, and AM before noon, PM from noon. *)
Theorem formatTime_twelve (h mi s : Z) :
  0 <= h < 24 -> 0 <= mi < 60 ->
  formatTime (Clock.text h mi s) = Moment.twelve h mi.
Proof. apply formatTime_clock. Qed.

Lemma formatTime_twelve_witness :
  formatTime "18:30:00" = "6:30 PM" /\ formatTime "00:00:00" = "12 AM".
Proof.
  split.
  - apply (formatTime_twelve 18 30 0); lia.
  - apply (formatTime_twelve 0 0 0); lia.
Defined.

Lemma moment_some (y m d h mi s : Z) :
  exists c r, Moment.text y m d h mi s = String c r.
Proof. unfold Moment.text. rewrite isoDate_chars. cbn [append]. eauto. Qed.

Lemma startDate_moment (e : Event) (y m d h mi s : Z) :
  start_date_local e = Some {| date := Some (Moment.text y m d h mi s) |} ->
  startDate e = Some (Moment.text y m d h mi s).
Proof.
  intros H. unfold startDate. rewrite H.
  destruct (moment_some y m d h mi s) as (c & r & ->). reflexivity.
Qed.


Lemma endDate_none (e : Event) : end_date_local e = None -> endDate e = None.
Proof. intros H. unfold endDate. now rewrite H. Qed.








(** X9 (events without an end).
    A record without an end is a timed entry that ends when it starts. *)
Theorem open_ended_is_timed (e : Event) (y m d h mi s : Z) :
  Timing.fromOnly e (Moment.text y m d h mi s) ->
  0 <= h < 24 -> 0 <= mi < 60 ->
  timeNote e (Moment.text y m d h mi s) = None
  /\ dateLines e (Moment.text y m d h mi s)
     = Timing.timedLines (Moment.ics y m d h mi s) (Moment.ics y m d h mi s).
Proof.
  intros [S E] H M. apply endDate_none in E.
  assert (A : isAllDay e (Moment.text y m d h mi s) = false).
  { unfold isAllDay, isMultiDay, durationHours, endDatePart, endTimePart.
    rewrite E, String.eqb_refl, startTimePart_moment. cbn [negb orb].
    rewrite duration_threshold_off_boundary by (trivial; lia).
    apply Z.leb_gt. lia. }
  unfold timeNote, dateLines. rewrite A, E. split; [reflexivity|].
  unfold Timing.timedLines.
  now rewrite (proj1 (toIcsDate_text y m d h mi s "")).
Qed.

Lemma open_ended_is_timed_witness :
  dateLines Shows.openEnded "2026-03-05T17:00:00"
  = [ "DTSTART;TZID=America/New_York:20260305T170000";
      "DTEND;TZID=America/New_York:20260305T170000" ]%string.
Proof.
  refine (proj2 (open_ended_is_timed Shows.openEnded 2026 3 5 17 0 0 _ _ _)).
  - split; reflexivity.
  - lia.
  - lia.
Defined.

End Timing.

(** ** Folding and unfolding *)

Section Cutting.
Import Js Scrape Escape Plain.

Lemma toString_ascii7 (s : string) : ascii7 s = true -> Utf8.toString s = s.
Proof.
  unfold Utf8.toString. induction s as [|c s IH]; [reflexivity|].
  cbn [ascii7 Utf8.decode]. intros H. apply andb_true_iff in H as [C A].
  unfold Utf8.lead. unfold octet7 in C. apply Nat.ltb_lt in C.
  replace (nat_of_ascii c <=? 127)%nat with true
    by (symmetry; apply Nat.leb_le; lia).
  cbn [append]. now rewrite IH.
Qed.

Lemma take_drop (n : nat) : forall s, take n s ++ drop n s = s.
Proof.
  induction n as [|n IH]; intros [|c s]; cbn [take drop append];
    try reflexivity. now rewrite IH.
Qed.

Lemma length_take (n : nat) :
  forall s, String.length (take n s) = Nat.min n (String.length s).
Proof.
  induction n as [|n IH]; intros [|c s]; cbn [take String.length];
    try reflexivity. now rewrite IH.
Qed.

Lemma length_drop (n : nat) :
  forall s, String.length (drop n s) = (String.length s - n)%nat.
Proof.
  induction n as [|n IH]; intros [|c s]; cbn [drop String.length];
    try reflexivity. now rewrite IH.
Qed.

Lemma take_all (n : nat) :
  forall s, (String.length s <= n)%nat -> take n s = s.
Proof.
  induction n as [|n IH]; intros [|c s] L; cbn [take String.length] in *;
    try reflexivity; [lia|]. rewrite IH; [reflexivity | lia].
Qed.

Lemma drop_all (n : nat) :
  forall s, (String.length s <= n)%nat -> drop n s = "".
Proof.
  induction n as [|n IH]; intros [|c s] L; cbn [drop String.length] in *;
    try reflexivity; [lia|]. apply IH. lia.
Qed.

Lemma ascii7_take (n : nat) : forall s, ascii7 s = true -> ascii7 (take n s) = true.
Proof.
  induction n as [|n IH]; intros [|c s] H; cbn [take ascii7] in *;
    try reflexivity.
  apply andb_true_iff in H as [C A]. now rewrite C, IH.
Qed.

Lemma ascii7_drop (n : nat) : forall s, ascii7 s = true -> ascii7 (drop n s) = true.
Proof.
  induction n as [|n IH]; intros [|c s] H; cbn [drop ascii7] in *;
    try reflexivity; [exact H|].
  apply andb_true_iff in H as [C A]. now apply IH.
Qed.

Lemma noBreak_take (n : nat) : forall s, noBreak s = true -> noBreak (take n s) = true.
Proof.
  induction n as [|n IH]; intros [|c s] H; cbn [take noBreak] in *;
    try reflexivity.
  apply andb_true_iff in H as [C A]. now rewrite C, IH.
Qed.

Lemma noBreak_drop (n : nat) : forall s, noBreak s = true -> noBreak (drop n s) = true.
Proof.
  induction n as [|n IH]; intros [|c s] H; cbn [drop noBreak] in *;
    try reflexivity; [exact H|].
  apply andb_true_iff in H as [C A]. now apply IH.
Qed.

Lemma substring_take (n : nat) : forall s, substring 0 n s = take n s.
Proof.
  induction n as [|n IH]; intros [|c s]; cbn [substring take];
    try reflexivity. now rewrite IH.
Qed.

Lemma substring_skip (pre : string) (n : nat) (t : string) :
  substring (String.length pre) n (pre ++ t) = substring 0 n t.
Proof.
  induction pre as [|c pre IH]; [reflexivity|].
  cbn [String.length append substring]. exact IH.
Qed.

Lemma foldChunks_past (fuel : nat) (bytes : string) (start : nat) :
  (String.length bytes <= start)%nat -> foldChunks fuel bytes start = [].
Proof.
  intros L. destruct fuel as [|k]; [reflexivity|]. cbn [foldChunks].
  replace (start <? String.length bytes)%nat with false; [reflexivity|].
  symmetry. apply Nat.ltb_ge. exact L.
Qed.

Lemma chunksOf_empty (fuel limit : nat) : chunksOf fuel limit "" = [].
Proof. now destruct fuel. Qed.

Lemma foldChunks_cut (fuel : nat) :
  forall pre t, ascii7 t = true ->
    foldChunks fuel (pre ++ t) (String.length pre)
    = chunksOf fuel (if (String.length pre =? 0)%nat then 75 else 74)%nat t.
Proof.
  induction fuel as [|k IH]; intros pre t A; [reflexivity|].
  cbn [foldChunks chunksOf]. rewrite length_append.
  destruct t as [|c r].
  - replace (String.length pre <? String.length pre + String.length "")%nat
      with false; [reflexivity|].
    symmetry. apply Nat.ltb_ge. simpl. lia.
  - replace (String.length pre <? String.length pre + String.length (String c r))%nat
      with true by (symmetry; apply Nat.ltb_lt; simpl; lia).
    set (t := String c r) in *.
    set (limit := (if (String.length pre =? 0)%nat then 75 else 74)%nat).
    assert (P : (0 < limit)%nat) by (unfold limit; destruct (_ =? _)%nat; lia).
    rewrite substring_skip, substring_take.
    rewrite (toString_ascii7 _ (ascii7_take limit _ A)). f_equal.
    destruct (Nat.le_gt_cases limit (String.length t)) as [L|L].
    + rewrite <- (take_drop limit t) at 1. rewrite <- append_swap.
      replace (String.length pre + limit)%nat
        with (String.length (pre ++ take limit t))
        by (rewrite length_append, length_take; lia).
      rewrite (IH _ _ (ascii7_drop limit _ A)).
      replace (String.length (pre ++ take limit t) =? 0)%nat with false;
        [reflexivity|].
      symmetry. apply Nat.eqb_neq. rewrite length_append, length_take. lia.
    + rewrite foldChunks_past by (rewrite length_append; lia).
      rewrite drop_all by lia. now rewrite chunksOf_empty.
Qed.

(** What [foldLine] returns for a line it does not cut inside a
    character. *)
Lemma foldLine_cut (l : string) :
  foldable l = true ->
  foldLine l
  = if short l then l ++ CRLF
    else join (CRLF ++ " ") (chunksOf (String.length l) 75 l) ++ CRLF.
Proof.
  unfold foldable, foldLine, short. intros F. cbv zeta.
  destruct (String.length l <=? 75)%nat; [reflexivity|].
  cbn [orb] in F. now rewrite (foldChunks_cut _ "" l F).
Qed.

Lemma join_cons (sep x : string) (l : list string) :
  join sep (x :: l)
  = x ++ match l with [] => "" | _ :: _ => sep ++ join sep l end.
Proof. destruct l; [symmetry; apply append_empty | reflexivity]. Qed.

End Cutting.

Section Unfolding.
Import Js Scrape Escape Plain.

Lemma continuation_shorter (s rest : string) :
  Regex.continuation s = Some rest -> (String.length rest < String.length s)%nat.
Proof.
  destruct s as [|c1 [|c2 [|c3 r]]]; try discriminate.
  cbn [Regex.continuation]. destruct (_ && _); [|discriminate].
  intros [= <-]. simpl. lia.
Qed.

Lemma scan_enough (f1 : nat) :
  forall f2 s, (String.length s <= f1)%nat -> (String.length s <= f2)%nat ->
               scan f1 s = scan f2 s.
Proof.
  induction f1 as [|k1 IH]; intros [|k2] s L1 L2.
  - reflexivity.
  - destruct s; [reflexivity | simpl in L1; lia].
  - destruct s; [reflexivity | simpl in L2; lia].
  - unfold scan in *. cbn [Regex.replaceAll].
    destruct (Regex.continuation s) as [rest|] eqn:E.
    + apply continuation_shorter in E. f_equal. apply IH; lia.
    + destruct s as [|c r]; [reflexivity|]. f_equal.
      apply IH; simpl in *; lia.
Qed.

Lemma replaceAll_step (m : string -> option string) (rep : string)
      (k : nat) (s : string) :
  Regex.replaceAll m rep (S k) s
  = match m s with
    | Some rest => rep ++ Regex.replaceAll m rep k rest
    | None =>
        match s with
        | "" => ""
        | String c r => String c (Regex.replaceAll m rep k r)
        end
    end.
Proof. reflexivity. Qed.

Lemma unfold_scan (fuel : nat) (s : string) :
  (String.length s <= fuel)%nat ->
  Filter.unfold s = Regex.replaceAll Regex.continuation "" fuel s.
Proof.
  intros L. unfold Filter.unfold, Regex.replace. apply scan_enough; lia.
Qed.

Lemma continuation_kept (c : ascii) (r : string) :
  isBreak c = false -> Regex.continuation (String c r) = None.
Proof.
  unfold isBreak. intros B. apply orb_false_iff in B as [B _].
  destruct r as [|c2 [|c3 r]]; try reflexivity.
  cbn [Regex.continuation]. now rewrite B.
Qed.

Lemma unfold_pass (a r : string) :
  noBreak a = true -> Filter.unfold (a ++ r) = a ++ Filter.unfold r.
Proof.
  induction a as [|c a IH]; [reflexivity|].
  cbn [noBreak append]. intros H. apply andb_true_iff in H as [C A].
  apply negb_true_iff in C.
  rewrite (unfold_scan (S (String.length (a ++ r))))
    by (cbn [String.length]; lia).
  rewrite replaceAll_step, (continuation_kept _ _ C).
  rewrite <- unfold_scan by lia. now rewrite IH.
Qed.

Lemma unfold_continuation (r : string) :
  Filter.unfold (CRLF ++ " " ++ r) = Filter.unfold r.
Proof.
  change (CRLF ++ " " ++ r) with (String CR (String LF (String " " r))).
  rewrite (unfold_scan (S (S (S (String.length r)))))
    by (cbn [String.length]; lia).
  rewrite replaceAll_step.
  change (Regex.continuation (String CR (String LF (String " " r))))
    with (Some r). cbn [append].
  now rewrite <- unfold_scan by lia.
Qed.

Lemma unfold_break (r : string) :
  startsBlank r = false -> Filter.unfold (CRLF ++ r) = CRLF ++ Filter.unfold r.
Proof.
  intros B. change (CRLF ++ r) with (String CR (String LF r)).
  rewrite (unfold_scan (S (S (String.length r))))
    by (cbn [String.length]; lia).
  assert (E : Regex.continuation (String CR (String LF r)) = None).
  { destruct r as [|c r]; [reflexivity|]. cbn [Regex.continuation].
    cbn [startsBlank] in B. rewrite B. now rewrite andb_false_r. }
  assert (E' : Regex.continuation (String LF r) = None).
  { destruct r as [|c2 [|c3 r]]; reflexivity. }
  rewrite replaceAll_step, E, replaceAll_step, E'.
  now rewrite <- unfold_scan by lia.
Qed.

Lemma chunksOf_step (k limit : nat) (t : string) :
  t <> "" ->
  chunksOf (S k) limit t = take limit t :: chunksOf k 74 (drop limit t).
Proof. intros N. destruct t; [now elim N | reflexivity]. Qed.

Lemma length_some (t : string) : t <> "" -> (0 < String.length t)%nat.
Proof. destruct t; [now intros [] | simpl; lia]. Qed.

Lemma unfold_chunks (fuel : nat) :
  forall limit t rest,
    noBreak t = true -> (0 < limit)%nat -> (String.length t <= fuel)%nat ->
    t <> "" ->
    Filter.unfold (join (CRLF ++ " ") (chunksOf fuel limit t) ++ CRLF ++ rest)
    = t ++ Filter.unfold (CRLF ++ rest).
Proof.
  induction fuel as [|k IH]; intros limit t rest B P L N.
  - apply length_some in N. lia.
  - rewrite (chunksOf_step _ _ _ N), join_cons.
    destruct (string_dec (drop limit t) "") as [D|D].
    + rewrite D, chunksOf_empty, append_empty.
      pose proof (take_drop limit t) as T. rewrite D, append_empty in T.
      rewrite T. now apply unfold_pass.
    + assert (L' : (String.length (drop limit t) <= k)%nat)
        by (rewrite length_drop; lia).
      pose proof (IH 74%nat _ rest (noBreak_drop limit _ B)
                     ltac:(lia) L' D) as R.
      destruct k as [|k]; [apply length_some in D; lia|].
      rewrite (chunksOf_step _ _ _ D) in *.
      set (cs := take 74 (drop limit t) :: _) in *.
      replace ((take limit t ++ (CRLF ++ " ") ++ join (CRLF ++ " ") cs)
               ++ CRLF ++ rest)
        with (take limit t
              ++ CRLF ++ " " ++ join (CRLF ++ " ") cs ++ CRLF ++ rest)
        by (now rewrite !append_swap).
      rewrite unfold_pass by now apply noBreak_take.
      rewrite unfold_continuation, R, <- append_swap, take_drop.
      reflexivity.
Qed.

(** Unfolding a folded line gives the line back, up to the line break
    that ends it. *)
Lemma unfold_foldLine (l rest : string) :
  Plain.line l = true ->
  Filter.unfold (foldLine l ++ rest) = l ++ Filter.unfold (CRLF ++ rest).
Proof.
  unfold Plain.line. intros H. apply andb_true_iff in H as [F B].
  rewrite (foldLine_cut _ F). unfold short.
  destruct (String.length l <=? 75)%nat eqn:S.
  - rewrite append_swap. now apply unfold_pass.
  - rewrite append_swap. apply unfold_chunks; trivial; try lia.
    intros ->. discriminate S.
Qed.

Lemma startsBlank_foldLine (l rest : string) :
  foldable l = true -> startsBlank (foldLine l ++ rest) = startsBlank l.
Proof.
  intros F. rewrite (foldLine_cut _ F). unfold short.
  destruct l as [|c l]; [reflexivity|].
  destruct (String.length (String c l) <=? 75)%nat; [reflexivity|].
  cbn [String.length]. rewrite chunksOf_step by discriminate.
  rewrite join_cons. reflexivity.
Qed.

Lemma unfold_lines (lines : list string) :
  forallb Plain.line lines = true ->
  forallb (fun l => negb (startsBlank l)) lines = true ->
  Filter.unfold (join "" (map foldLine lines)) = Lines.terminated CRLF lines.
Proof.
  unfold join. induction lines as [|l lines IH]; [reflexivity|].
  cbn [forallb map Lines.terminated]. intros P S.
  apply andb_true_iff in P as [P Ps]. apply andb_true_iff in S as [_ Ss].
  rewrite concat_empty_cons, (unfold_foldLine _ _ P).
  rewrite unfold_break, (IH Ps Ss); [reflexivity|].
  destruct lines as [|l2 lines]; [reflexivity|].
  cbn [forallb map] in *. rewrite concat_empty_cons.
  apply andb_true_iff in Ps as [P2 _]. apply andb_true_iff in Ss as [S2 _].
  unfold Plain.line in P2. apply andb_true_iff in P2 as [F2 _].
  rewrite (startsBlank_foldLine _ _ F2). now apply negb_true_iff.
Qed.

End Unfolding.

Section PhysicalLines.
Import Js Scrape Escape Plain.

Lemma physicalLines_pass (a r : string) :
  noBreak a = true ->
  Doc.physicalLines (a ++ CRLF ++ r) = a :: Doc.physicalLines r.
Proof.
  induction a as [|c a IH]; [reflexivity|].
  cbn [noBreak append]. intros H. apply andb_true_iff in H as [C A].
  apply negb_true_iff in C. unfold isBreak in C.
  apply orb_false_iff in C as [C _].
  cbn [Doc.physicalLines]. rewrite C, (IH A). cbn [andb].
  destruct (a ++ CRLF ++ r); reflexivity.
Qed.

Lemma folded_cons (a r : string) :
  noBreak a = true ->
  Doc.folded (a ++ CRLF ++ r) = short a && Doc.folded r.
Proof.
  intros A. unfold Doc.folded. now rewrite (physicalLines_pass _ _ A).
Qed.

Lemma folded_chunks (fuel : nat) :
  forall limit p t rest,
    noBreak p = true -> noBreak t = true ->
    (String.length p + limit <= 75)%nat ->
    Doc.folded (p ++ join (CRLF ++ " ") (chunksOf fuel limit t) ++ CRLF ++ rest)
    = Doc.folded rest.
Proof.
  assert (E : forall p rest, noBreak p = true -> (String.length p <= 75)%nat ->
                Doc.folded (p ++ CRLF ++ rest) = Doc.folded rest).
  { intros p rest P L. rewrite (folded_cons _ _ P). unfold short.
    now replace (String.length p <=? 75)%nat with true
      by (symmetry; apply Nat.leb_le; lia). }
  induction fuel as [|k IH]; intros limit p t rest P T L.
  - cbn [chunksOf join String.concat append]. apply E; [trivial | lia].
  - destruct (string_dec t "") as [->|N].
    + cbn [chunksOf join String.concat append]. apply E; [trivial | lia].
    + rewrite (chunksOf_step _ _ _ N), join_cons.
      assert (H : noBreak (p ++ take limit t) = true)
        by (now rewrite noBreak_append, P, noBreak_take).
      assert (S : (String.length (p ++ take limit t) <= 75)%nat)
        by (rewrite length_append, length_take; lia).
      destruct (chunksOf k 74 (drop limit t)) as [|x xs] eqn:X.
      * rewrite append_empty, <- append_swap. now apply E.
      * replace (p ++ (take limit t
                       ++ (CRLF ++ " ") ++ join (CRLF ++ " ") (x :: xs))
                 ++ CRLF ++ rest)
          with ((p ++ take limit t) ++ CRLF
                ++ " " ++ join (CRLF ++ " ") (x :: xs) ++ CRLF ++ rest)
          by (now rewrite !append_swap).
        rewrite (E _ _ H S), <- X.
        apply IH; [reflexivity | now apply noBreak_drop | simpl; lia].
Qed.

Lemma folded_foldLine (l rest : string) :
  Plain.line l = true -> Doc.folded (foldLine l ++ rest) = Doc.folded rest.
Proof.
  unfold Plain.line. intros H. apply andb_true_iff in H as [F B].
  rewrite (foldLine_cut _ F). destruct (short l) eqn:S; rewrite append_swap.
  - now rewrite (folded_cons _ _ B), S.
  - apply (folded_chunks _ 75%nat "" l rest); [reflexivity | trivial | simpl; lia].
Qed.

Lemma folded_lines (lines : list string) :
  forallb Plain.line lines = true ->
  Doc.folded (join "" (map foldLine lines)) = true.
Proof.
  unfold join. induction lines as [|l lines IH]; [reflexivity|].
  cbn [forallb map]. intros P. apply andb_true_iff in P as [P Ps].
  now rewrite concat_empty_cons, (folded_foldLine _ _ P), IH.
Qed.

End PhysicalLines.

Section FoldedCalendar.
Import Js Scrape Escape Plain.

Variable decode : string -> string.

Lemma forallb_both {A} (p q : A -> bool) (l : list A) :
  forallb p l = true -> forallb q l = true ->
  forallb (fun x => p x && q x) l = true.
Proof.
  induction l as [|x l IH]; [reflexivity|]. cbn [forallb]. intros P Q.
  apply andb_true_iff in P as [-> P]. apply andb_true_iff in Q as [-> Q].
  now rewrite IH.
Qed.

Lemma eventLines_not_blank (iso : string) (e : Event) (start : string) :
  forallb (fun l => negb (startsBlank l)) (eventLines decode iso e start) = true.
Proof.
  unfold eventLines, dateLines, locationLine, categoriesLine.
  rewrite !forallb_app.
  repeat match goal with
    | |- context [match ?x with _ => _ end] => destruct x
    | |- context [if ?x then _ else _] => destruct x
    end; reflexivity.
Qed.

Lemma loop_not_blank (clock : nat -> string) (events : list Event) :
  forall k, forallb (fun l => negb (startsBlank l))
                    (loop decode clock k events) = true.
Proof.
  induction events as [|e events IH]; intros k; [reflexivity|].
  cbn [loop]. destruct (startDate e); [|apply IH].
  now rewrite forallb_app, eventLines_not_blank, IH.
Qed.

Lemma icsLines_not_blank (clock : nat -> string) (events : list Event)
      (calendarName : string) :
  forallb (fun l => negb (startsBlank l))
          (icsLines decode clock events calendarName) = true.
Proof.
  unfold icsLines. rewrite !forallb_app, loop_not_blank. reflexivity.
Qed.

Lemma icsLines_plain (clock : nat -> string) (events : list Event)
      (calendarName : string) :
  (forall k, noBreak (clock k) = true) ->
  noBreak calendarName = true ->
  forallb Clean.record events = true ->
  forallb foldable (icsLines decode clock events calendarName) = true ->
  forallb Plain.line (icsLines decode clock events calendarName) = true.
Proof.
  intros K N R F. apply forallb_both; [exact F|].
  now apply noBreak_icsLines.
Qed.

(** X11 (length of the physical lines).
    A calendar whose long lines are ASCII is folded as the format asks:
    no physical line of the document has more than 75 octets. *)
Theorem buildIcs_folded (clock : nat -> string) (events : list Event)
        (calendarName : string) :
  (forall k, noBreak (clock k) = true) ->
  noBreak calendarName = true ->
  forallb Clean.record events = true ->
  forallb foldable (icsLines decode clock events calendarName) = true ->
  Doc.folded (buildIcs decode clock events calendarName) = true.
Proof.
  intros K N R F. unfold buildIcs. apply folded_lines.
  now apply icsLines_plain.
Qed.

(** X12 (unfolding undoes folding).
    The unfolding of [filter.js] undoes the folding of [scrape.js]: it
    turns the document back into its logical lines, each ended by CRLF. *)
Theorem unfold_buildIcs (clock : nat -> string) (events : list Event)
        (calendarName : string) :
  (forall k, noBreak (clock k) = true) ->
  noBreak calendarName = true ->
  forallb Clean.record events = true ->
  forallb foldable (icsLines decode clock events calendarName) = true ->
  Filter.unfold (buildIcs decode clock events calendarName)
  = Lines.terminated CRLF (icsLines decode clock events calendarName).
Proof.
  intros K N R F. unfold buildIcs. apply unfold_lines.
  - now apply icsLines_plain.
  - apply icsLines_not_blank.
Qed.

End FoldedCalendar.

Lemma buildIcs_folded_witness :
  Doc.folded (Scrape.buildIcs He.decode Samples.noon Inputs.pair "Quin") = true.
Proof.
  apply (buildIcs_folded He.decode Samples.noon Inputs.pair "Quin");
    reflexivity.
Defined.

Lemma unfold_buildIcs_witness :
  Filter.unfold (Scrape.buildIcs He.decode Samples.noon Inputs.pair "Quin")
  = Lines.terminated Js.CRLF
      (Scrape.icsLines He.decode Samples.noon Inputs.pair "Quin").
Proof.
  apply (unfold_buildIcs He.decode Samples.noon Inputs.pair "Quin");
    reflexivity.
Defined.

(** ** From the calendar back to its entries *)

Section Matching.
Import Js Scrape Escape Plain Blocks.

Lemma through_step (pat : string) (c : ascii) (r : string) :
  Filter.through pat (String c r)
  = match dropPrefix pat (String c r) with
    | Some rest => Some (pat, rest)
    | None =>
        match Filter.through pat r with
        | Some (b, rest) => Some (String c b, rest)
        | None => None
        end
    end.
Proof. reflexivity. Qed.

Lemma through_split (pat : string) :
  forall s b rest, Filter.through pat s = Some (b, rest) -> s = b ++ rest.
Proof.
  induction s as [|c s IH]; intros b rest.
  - cbn [Filter.through]. destruct (dropPrefix pat "") as [r|] eqn:E;
      [|discriminate].
    intros [= <- <-]. now apply dropPrefix_split.
  - rewrite through_step.
    destruct (dropPrefix pat (String c s)) as [r|] eqn:E.
    + intros [= <- <-]. now apply dropPrefix_split.
    + destruct (Filter.through pat s) as [[b' r']|] eqn:T; [|discriminate].
      intros [= <- <-]. cbn [append]. f_equal. now apply IH.
Qed.

Lemma block_shorter (s b rest : string) :
  Filter.block s = Some (b, rest) -> (String.length rest < String.length s)%nat.
Proof.
  unfold Filter.block.
  destruct (dropPrefix "BEGIN:VEVENT" s) as [s1|] eqn:D; [|discriminate].
  destruct (Filter.through "END:VEVENT" s1) as [[body r]|] eqn:T;
    [|discriminate].
  intros [= _ <-]. apply dropPrefix_split in D. apply through_split in T.
  subst s s1. rewrite !length_append. simpl. lia.
Qed.

Lemma matchAll_step (k : nat) (s : string) :
  Filter.matchAll (S k) s
  = match Filter.block s with
    | Some (b, rest) => b :: Filter.matchAll k rest
    | None =>
        match s with
        | "" => []
        | String _ r => Filter.matchAll k r
        end
    end.
Proof. reflexivity. Qed.

Lemma matchAll_enough (f1 : nat) :
  forall f2 s, (String.length s <= f1)%nat -> (String.length s <= f2)%nat ->
               Filter.matchAll f1 s = Filter.matchAll f2 s.
Proof.
  induction f1 as [|k1 IH]; intros [|k2] s L1 L2.
  - reflexivity.
  - destruct s; [reflexivity | simpl in L1; lia].
  - destruct s; [reflexivity | simpl in L2; lia].
  - rewrite 2 matchAll_step.
    destruct (Filter.block s) as [[b rest]|] eqn:E.
    + apply block_shorter in E. f_equal. apply IH; lia.
    + destruct s as [|c r]; [reflexivity|]. apply IH; simpl in *; lia.
Qed.

Lemma eventBlocks_skip (c : ascii) (r : string) :
  Filter.block (String c r) = None ->
  Filter.eventBlocks (String c r) = Filter.eventBlocks r.
Proof.
  intros E. unfold Filter.eventBlocks. rewrite matchAll_step, E.
  apply matchAll_enough; cbn [String.length]; lia.
Qed.

Lemma eventBlocks_found (s b rest : string) :
  Filter.block s = Some (b, rest) ->
  Filter.eventBlocks s = b :: Filter.eventBlocks rest.
Proof.
  intros E. unfold Filter.eventBlocks. rewrite matchAll_step, E.
  f_equal. apply block_shorter in E. apply matchAll_enough; lia.
Qed.

(** A pattern without a line break that matches at the head of a line
    matches inside the line. *)
Lemma dropPrefix_line (pat : string) :
  forall l rest, noBreak pat = true -> pat <> "" ->
                 String.prefix pat l = false ->
                 dropPrefix pat (l ++ CRLF ++ rest) = None.
Proof.
  induction pat as [|a p IH]; intros l rest B N P; [now elim N|].
  cbn [noBreak] in B. apply andb_true_iff in B as [Ba Bp].
  apply negb_true_iff in Ba. unfold isBreak in Ba.
  apply orb_false_iff in Ba as [Ba _].
  destruct l as [|b l].
  - cbn [append dropPrefix CRLF]. change (chr 13) with CR. now rewrite Ba.
  - cbn [append dropPrefix]. destruct (Ascii.eqb_spec a b) as [<-|ne];
      [|reflexivity].
    cbn [String.prefix] in P. destruct (ascii_dec a a) as [_|ne];
      [|now elim ne].
    destruct p as [|a' p]; [now destruct l|]. apply IH; trivial. discriminate.
Qed.

Lemma not_included (pat l : string) :
  includes pat l = false ->
  String.prefix pat l = false
  /\ match l with
     | "" => True
     | String _ r => includes pat r = false
     end.
Proof.
  rewrite includes_unfold. intros H. apply orb_false_iff in H as [P R].
  split; [exact P|]. now destruct l.
Qed.

Lemma block_line (l rest : string) :
  includes opening l = false -> Filter.block (l ++ CRLF ++ rest) = None.
Proof.
  intros I. apply not_included in I as [P _]. unfold Filter.block.
  now rewrite (dropPrefix_line "BEGIN:VEVENT" l rest eq_refl) by easy.
Qed.

Lemma skip_line (l rest : string) :
  includes opening l = false ->
  Filter.eventBlocks (l ++ CRLF ++ rest) = Filter.eventBlocks rest.
Proof.
  induction l as [|c l IH]; intros I.
  - change ("" ++ CRLF ++ rest) with (String CR (String LF rest)).
    now rewrite 2 eventBlocks_skip.
  - pose proof (block_line _ rest I) as B. cbn [append] in *.
    rewrite (eventBlocks_skip _ _ B). apply IH.
    now apply not_included in I as [_ I].
Qed.

Lemma skip_lines (ls : list string) (rest : string) :
  forallb (fun l => negb (includes opening l)) ls = true ->
  Filter.eventBlocks (Lines.terminated CRLF ls ++ rest)
  = Filter.eventBlocks rest.
Proof.
  induction ls as [|l ls IH]; [reflexivity|]. cbn [forallb Lines.terminated].
  intros H. apply andb_true_iff in H as [I Is]. apply negb_true_iff in I.
  rewrite !append_swap. rewrite (skip_line _ _ I). now apply IH.
Qed.

Lemma through_line (l rest : string) :
  includes closing l = false ->
  Filter.through closing (l ++ CRLF ++ rest)
  = match Filter.through closing rest with
    | Some (b, r) => Some (l ++ CRLF ++ b, r)
    | None => None
    end.
Proof.
  induction l as [|c l IH]; intros I.
  - change ("" ++ CRLF ++ rest) with (String CR (String LF rest)).
    rewrite 2 through_step.
    change (dropPrefix closing (String CR (String LF rest))) with (@None string).
    change (dropPrefix closing (String LF rest)) with (@None string).
    now destruct (Filter.through closing rest) as [[b r]|].
  - pose proof I as I'. apply not_included in I' as [P I'].
    cbn [append]. rewrite through_step.
    pose proof (dropPrefix_line closing (String c l) rest eq_refl) as D.
    cbn [append] in D. rewrite D by easy. rewrite (IH I').
    now destruct (Filter.through closing rest) as [[b r]|].
Qed.

Lemma through_lines (ls : list string) (rest : string) :
  forallb (fun l => negb (includes closing l)) ls = true ->
  Filter.through closing (Lines.terminated CRLF ls ++ rest)
  = match Filter.through closing rest with
    | Some (b, r) => Some (Lines.terminated CRLF ls ++ b, r)
    | None => None
    end.
Proof.
  induction ls as [|l ls IH]; cbn [forallb Lines.terminated].
  - intros _. cbn [append].
    now destruct (Filter.through closing rest) as [[b r]|].
  - intros H. apply andb_true_iff in H as [I Is]. apply negb_true_iff in I.
    rewrite !append_swap, (through_line _ _ I), (IH Is).
    destruct (Filter.through closing rest) as [[b r]|]; [|reflexivity].
    now rewrite !append_swap.
Qed.

(** The first match of the pattern in the text of an entry that more
    text follows is the entry. *)
Lemma block_entry (inner : list string) (rest : string) :
  forallb (fun l => negb (includes closing l)) inner = true ->
  Filter.block (Lines.terminated CRLF (opening :: inner ++ [closing]) ++ rest)
  = Some (join CRLF (opening :: inner ++ [closing]), CRLF ++ rest).
Proof.
  intros Q.
  change (opening :: inner ++ [closing])%list
    with ((opening :: inner) ++ [closing])%list.
  rewrite join_snoc. cbn [Lines.terminated app].
  assert (T : forall x, Lines.terminated CRLF (inner ++ [closing]) ++ x
                        = Lines.terminated CRLF inner ++ closing ++ CRLF ++ x).
  { intros x. induction inner as [|l inner IH]; [reflexivity|].
    cbn [Lines.terminated app forallb] in *.
    apply andb_true_iff in Q as [_ Q]. now rewrite !append_swap, (IH Q). }
  unfold Filter.block.
  rewrite !append_swap.
  change (dropPrefix "BEGIN:VEVENT" (opening ++ ?x)) with (Some x).
  rewrite T.
  rewrite (through_line "" _ eq_refl : Filter.through closing (CRLF ++ _) = _).
  rewrite (through_lines _ _ Q).
  change (Filter.through closing (closing ++ ?x)) with (Some (closing, x)).
  cbn [append]. reflexivity.
Qed.

End Matching.

Section RoundTrip.
Import Js Scrape Escape Plain Blocks.

Variable decode : string -> string.

Lemma terminated_app (sep : string) (a b : list string) :
  Lines.terminated sep (a ++ b)
  = Lines.terminated sep a ++ Lines.terminated sep b.
Proof.
  induction a as [|x a IH]; [reflexivity|].
  cbn [app Lines.terminated]. now rewrite IH, !append_swap.
Qed.

Lemma eventLines_middle (iso : string) (e : Event) (start : string) :
  eventLines decode iso e start
  = (opening :: middle decode iso e start ++ [closing])%list.
Proof.
  unfold eventLines, middle.
  repeat first [rewrite <- app_assoc | progress cbn [app]]. reflexivity.
Qed.

Lemma middle_plainStart (iso : string) (e : Event) (start : string) :
  forallb plainStart (middle decode iso e start) = true.
Proof.
  unfold middle, dateLines, locationLine, categoriesLine.
  rewrite !forallb_app.
  repeat match goal with
    | |- context [match ?x with _ => _ end] => destruct x
    | |- context [if ?x then _ else _] => destruct x
    end; reflexivity.
Qed.

Lemma plain_quiet (l : string) :
  plainStart l = true -> unambiguous l = true -> quiet l = true.
Proof.
  destruct l as [|c r]; [reflexivity|]. unfold plainStart, unambiguous.
  intros P U. apply negb_true_iff, orb_false_iff in P as [B E].
  apply orb_true_iff in U as [U|U]; [|exact U].
  unfold opening, closing in U. cbn [String.eqb] in U.
  rewrite B, E in U. discriminate U.
Qed.

Lemma quiet_lines (ls : list string) :
  forallb plainStart ls = true -> forallb unambiguous ls = true ->
  forallb (fun l => negb (includes opening l)) ls = true
  /\ forallb (fun l => negb (includes closing l)) ls = true.
Proof.
  induction ls as [|l ls IH]; [now split|]. cbn [forallb]. intros P U.
  apply andb_true_iff in P as [P Ps]. apply andb_true_iff in U as [U Us].
  destruct (IH Ps Us) as [A B]. rewrite A, B.
  pose proof (plain_quiet _ P U) as Q. unfold quiet in Q.
  apply andb_true_iff in Q as [-> ->]. now split.
Qed.

Lemma blocks_loop (clock : nat -> string) (tail : string)
      (events : list Event) :
  forall k,
    forallb unambiguous (loop decode clock k events) = true ->
    Filter.eventBlocks (Lines.terminated CRLF (loop decode clock k events)
                        ++ tail)
    = (rendered decode clock k events ++ Filter.eventBlocks tail)%list.
Proof.
  induction events as [|e events IH]; intros k U; [reflexivity|].
  cbn [loop rendered] in *. destruct (startDate e) as [start|]; [|now apply IH].
  rewrite forallb_app in U. apply andb_true_iff in U as [Ue Us].
  rewrite terminated_app, append_swap. unfold entry.
  rewrite eventLines_middle in *.
  cbn [forallb] in Ue. apply andb_true_iff in Ue as [_ Ue].
  rewrite forallb_app in Ue. apply andb_true_iff in Ue as [Um _].
  destruct (quiet_lines _ (middle_plainStart _ _ _) Um) as [_ Q].
  rewrite (eventBlocks_found _ _ _ (block_entry _ _ Q)).
  change (CRLF ++ ?x) with ("" ++ CRLF ++ x).
  rewrite (skip_line "" _ eq_refl), (IH _ Us). reflexivity.
Qed.

Lemma envelope_quiet (calendarName : string) :
  forallb unambiguous (envelope calendarName) = true ->
  forallb (fun l => negb (includes opening l)) (envelope calendarName) = true.
Proof.
  cbn [envelope forallb]. intros U.
  repeat (apply andb_true_iff in U as [? U]).
  assert (Q : quiet ("X-WR-CALNAME:" ++ calendarName) = true)
    by now apply plain_quiet.
  unfold quiet in Q. apply andb_true_iff in Q as [-> _]. reflexivity.
Qed.

Lemma blocks_calendar (clock : nat -> string) (events : list Event)
      (calendarName : string) :
  (forall k, noBreak (clock k) = true) ->
  noBreak calendarName = true ->
  forallb Clean.record events = true ->
  forallb foldable (icsLines decode clock events calendarName) = true ->
  forallb unambiguous (icsLines decode clock events calendarName) = true ->
  Filter.eventBlocks (Filter.unfold (buildIcs decode clock events calendarName))
  = rendered decode clock 0 events.
Proof.
  intros K N R F U. unfold buildIcs.
  rewrite unfold_lines;
    [| apply icsLines_plain; assumption | apply icsLines_not_blank].
  unfold icsLines in *. rewrite !forallb_app in U.
  apply andb_true_iff in U as [Ue U]. apply andb_true_iff in U as [Ul _].
  rewrite !terminated_app, (skip_lines _ _ (envelope_quiet _ Ue)).
  rewrite (blocks_loop _ _ _ _ Ul). apply app_nil_r.
Qed.







(** X13 (the blocks are the entries).
    The filter finds in the published calendar the entries as they were
    rendered: one block for each record with a start date, in the order
    of the records, each block the lines of the entry joined by CRLF.
    This holds when the long lines of the calendar are ASCII and no line
    other than the two markers of an entry holds a marker. *)
Theorem eventBlocks_buildIcs (clock : nat -> string) (events : list Event)
        (calendarName : string) :
  (forall k, noBreak (clock k) = true) ->
  noBreak calendarName = true ->
  forallb Clean.record events = true ->
  forallb foldable (icsLines decode clock events calendarName) = true ->
  forallb unambiguous (icsLines decode clock events calendarName) = true ->
  Filter.eventBlocks (Filter.unfold (buildIcs decode clock events calendarName))
  = rendered decode clock 0 events.
Proof. apply blocks_calendar. Qed.


End RoundTrip.

Lemma eventBlocks_buildIcs_witness :
  Filter.eventBlocks
    (Filter.unfold (Scrape.buildIcs He.decode Samples.noon Inputs.pair "Quin"))
  = Blocks.rendered He.decode Samples.noon 0 Inputs.pair.
Proof.
  apply (eventBlocks_buildIcs He.decode Samples.noon Inputs.pair "Quin");
    reflexivity.
Defined.


(** ** What the filter leaves out *)

Section Nothing.
Import Js Filter.

Lemma prefix_split (p : string) :
  forall s, String.prefix p s = true -> exists b, s = p ++ b.
Proof.
  induction p as [|c p IH]; intros s H; [now exists s|].
  destruct s as [|d s]; [discriminate H|]. cbn [String.prefix] in H.
  destruct (ascii_dec c d) as [<-|]; [|discriminate H].
  destruct (IH _ H) as [b ->]. now exists b.
Qed.

Lemma includes_split (p : string) :
  forall s, includes p s = true -> exists a b, s = a ++ p ++ b.
Proof.
  induction s as [|c s IH]; intros H; rewrite includes_unfold in H;
    apply orb_true_iff in H as [H|H]; try discriminate H.
  - destruct (prefix_split _ _ H) as [b E]. now exists "", b.
  - destruct (prefix_split _ _ H) as [b E]. now exists "", b.
  - destruct (IH H) as (a & b & ->). now exists (String c a), b.
Qed.

Lemma includes_trans (p b s : string) :
  includes p b = true -> includes b s = true -> includes p s = true.
Proof.
  intros P B. destruct (includes_split _ _ B) as (x & y & ->).
  now apply includes_after, includes_before.
Qed.

Lemma block_prefix (s b rest : string) :
  block s = Some (b, rest) -> s = b ++ rest.
Proof.
  unfold block.
  destruct (dropPrefix "BEGIN:VEVENT" s) as [s1|] eqn:D; [|discriminate].
  destruct (through "END:VEVENT" s1) as [[body r]|] eqn:T; [|discriminate].
  intros [= <- <-]. apply dropPrefix_split in D. apply through_split in T.
  subst s s1. reflexivity.
Qed.

(** Every block is a piece of the text it was found in. *)
Lemma matchAll_included (fuel : nat) :
  forall s b, In b (matchAll fuel s) -> includes b s = true.
Proof.
  induction fuel as [|k IH]; intros s b; [intros []|].
  rewrite matchAll_step. destruct (block s) as [[b1 rest]|] eqn:E.
  - apply block_prefix in E. subst s. intros [<-|H].
    + apply includes_here.
    + apply includes_after, IH, H.
  - destruct s as [|c r]; [intros []|]. intros H.
    rewrite includes_unfold. rewrite (IH _ _ H). apply orb_true_r.
Qed.

(** X15 (nothing found).
    When neither phrase occurs in the unfolded calendar, the filter
    retains no block: it writes no file and reports that nothing was
    found. *)
Theorem nothing_found_without_phrase (raw : string) :
  isPersonalBlock (unfold raw) = false -> onEnd raw = NothingFound.
Proof.
  intros H. unfold onEnd.
  destruct (personal raw) as [|b bs] eqn:P; [reflexivity|]. exfalso.
  assert (I : In b (personal raw)) by (rewrite P; now left).
  apply personal_retained in I as [B Q].
  apply matchAll_included in B.
  unfold isPersonalBlock in *. apply orb_false_iff in H as [H1 H2].
  apply orb_true_iff in Q as [Q|Q].
  - rewrite (includes_trans _ _ _ Q B) in H1. discriminate H1.
  - rewrite (includes_trans _ _ _ Q B) in H2. discriminate H2.
Qed.

End Nothing.

Lemma nothing_found_without_phrase_witness :
  Filter.onEnd Published.impersonal = Filter.NothingFound.
Proof.
  apply (nothing_found_without_phrase Published.impersonal).
  vm_compute. reflexivity.
Defined.

(** ** Identifiers *)

Section Identifiers.
Import Js Scrape Entries.

Variable decode : string -> string.

Lemma append_cancel_l (a x y : string) : a ++ x = a ++ y -> x = y.
Proof. induction a as [|c a IH]; [trivial|]. intros [= H]. now apply IH. Qed.

Lemma append_cancel_r (c : string) :
  forall x y, x ++ c = y ++ c -> x = y.
Proof.
  induction x as [|a x IH]; intros [|b y] H; [reflexivity| | |].
  - exfalso. apply (f_equal String.length) in H.
    cbn [append String.length] in H. rewrite length_append in H. lia.
  - exfalso. apply (f_equal String.length) in H.
    cbn [append String.length] in H. rewrite length_append in H. lia.
  - injection H as -> H. f_equal. now apply IH.
Qed.

Lemma uidLine_injective (e1 e2 : Event) :
  uidLine e1 = uidLine e2 -> id e1 = id e2.
Proof.
  unfold uidLine, uid. intros H.
  apply (append_cancel_l "UID:") in H.
  apply (append_cancel_l "quin-event-") in H.
  now apply append_cancel_r in H.
Qed.

Lemma NoDup_uidLines (l : list Event) :
  NoDup (map id l) -> NoDup (map uidLine l).
Proof.
  induction l as [|e l IH]; cbn [map]; intros H; [constructor|].
  inversion H as [|? ? N D]; subst. constructor; [|now apply IH].
  intros I. apply N. apply in_map_iff in I as (e' & E & I').
  apply uidLine_injective in E. rewrite <- E. now apply in_map.
Qed.

(** X16 (distinct UIDs).
    Records with different identifiers get different UIDs: when the
    records that have a start date differ pairwise in their identifier, no
    two entries of the calendar have the same UID line. *)
Theorem uids_distinct (clock : nat -> string) (events : list Event)
        (calendarName : string) :
  NoDup (map id (filter hasStart events)) ->
  NoDup (filter isUidLine (icsLines decode clock events calendarName)).
Proof.
  intros H. rewrite icsLines_uids. now apply NoDup_uidLines.
Qed.

End Identifiers.

Lemma uids_distinct_witness :
  NoDup (filter Entries.isUidLine
           (Scrape.icsLines He.decode Samples.noon Inputs.pair "Quin")).
Proof.
  apply (uids_distinct He.decode Samples.noon Inputs.pair "Quin").
  cbn. repeat constructor; cbn; intuition discriminate.
Defined.

(** ** Markup *)

Section Tags.
Import Js Scrape Markup.

Lemma tag_unfold (c : ascii) (r : string) :
  Regex.tag (String c r)
  = if Ascii.eqb c "<"
    then match r with
         | String d r' => if Ascii.eqb d ">" then None else Regex.afterGt r'
         | "" => None
         end
    else None.
Proof.
  destruct (Ascii.eqb_spec c "<") as [->|N]; [reflexivity|].
  destruct c as [[] [] [] [] [] [] [] []]; try reflexivity;
    try (destruct r; reflexivity). now elim N.
Qed.

Lemma afterGt_none (s : string) : has ">" s = false -> Regex.afterGt s = None.
Proof.
  induction s as [|c s IH]; [reflexivity|]. cbn [has Regex.afterGt].
  intros H. apply orb_false_iff in H as [-> H]. now apply IH.
Qed.

Lemma afterGt_some (s : string) : has ">" s = true -> Regex.afterGt s <> None.
Proof.
  induction s as [|c s IH]; [discriminate|]. cbn [has Regex.afterGt].
  destruct (Ascii.eqb c ">"); [discriminate|]. exact IH.
Qed.

Lemma afterGt_shorter (s rest : string) :
  Regex.afterGt s = Some rest -> (String.length rest < String.length s)%nat.
Proof.
  induction s as [|c s IH]; [discriminate|]. cbn [Regex.afterGt].
  destruct (Ascii.eqb c ">").
  - intros [= <-]. simpl. lia.
  - intros H. apply IH in H. simpl. lia.
Qed.

Lemma tag_shorter (s rest : string) :
  Regex.tag s = Some rest -> (String.length rest < String.length s)%nat.
Proof.
  destruct s as [|c r]; [discriminate|]. rewrite tag_unfold.
  destruct (Ascii.eqb c "<"); [|discriminate].
  destruct r as [|d r']; [discriminate|].
  destruct (Ascii.eqb d ">"); [discriminate|].
  intros H. apply afterGt_shorter in H. simpl. lia.
Qed.

(** A tag needs a [>] after its first character. *)
Lemma tag_closed (c d : ascii) (r : string) :
  has ">" r = false -> Regex.tag (String c (String d r)) = None.
Proof.
  intros H. rewrite tag_unfold, (afterGt_none _ H).
  now destruct (Ascii.eqb c "<"), (Ascii.eqb d ">").
Qed.

Lemma tag_open (c : ascii) (r : string) :
  has ">" r = false -> Regex.tag (String c r) = None.
Proof.
  destruct r as [|d r]; [intros _; rewrite tag_unfold; now destruct (Ascii.eqb c "<")|].
  cbn [has]. intros H. apply orb_false_iff in H as [_ H]. now apply tag_closed.
Qed.

Lemma anyMatch_step (m : string -> option string) (s : string) :
  anyMatch m s
  = match m s with
    | Some _ => true
    | None =>
        match s with
        | "" => false
        | String _ r => anyMatch m r
        end
    end.
Proof. now destruct s. Qed.

Lemma anyMatch_tail (m : string -> option string) (c : ascii) (r : string) :
  anyMatch m (String c r) = false ->
  m (String c r) = None /\ anyMatch m r = false.
Proof.
  rewrite anyMatch_step. destruct (m (String c r)); [discriminate|]. now split.
Qed.

Lemma untagged (k : nat) :
  forall s, has ">" s = false -> Regex.replaceAll Regex.tag "" k s = s.
Proof.
  induction k as [|k IH]; intros s H; [reflexivity|].
  rewrite replaceAll_step. destruct s as [|c r]; [reflexivity|].
  cbn [has] in H. apply orb_false_iff in H as [_ H].
  rewrite (tag_open _ _ H). f_equal. now apply IH.
Qed.

(** What is left of a text that starts with [<] and is no tag: nothing,
    a [>] at once, or no [>] at all. *)
Lemma tag_none (r : string) :
  Regex.tag (String "<" r) = None ->
  r = "" \/ (exists r', r = String ">" r') \/ has ">" r = false.
Proof.
  rewrite tag_unfold. cbn [Ascii.eqb Bool.eqb].
  destruct r as [|d r']; [now left|].
  destruct (Ascii.eqb_spec d ">") as [->|N]; [right; left; eauto|].
  intros A. right; right. cbn [has].
  apply Ascii.eqb_neq in N. rewrite N. cbn [orb].
  destruct (has ">" r') eqn:G; [|reflexivity].
  now apply afterGt_some in G.
Qed.

Lemma tags_removed (k : nat) :
  forall s, (String.length s <= k)%nat ->
            hasTag (Regex.replaceAll Regex.tag "" k s) = false.
Proof.
  unfold hasTag. induction k as [|k IH]; intros s L.
  - destruct s; [reflexivity | simpl in L; lia].
  - rewrite replaceAll_step. destruct (Regex.tag s) as [rest|] eqn:T.
    + apply tag_shorter in T. apply IH. lia.
    + destruct s as [|c r]; [reflexivity|].
      cbn [String.length] in L. rewrite anyMatch_step, (IH r) by lia.
      assert (N : Regex.tag (String c (Regex.replaceAll Regex.tag "" k r)) = None).
      { destruct (Ascii.eqb_spec c "<") as [->|N];
          [|rewrite tag_unfold; apply Ascii.eqb_neq in N; now rewrite N].
        destruct (tag_none _ T) as [->|[[r' ->]|G]].
        - now destruct k.
        - destruct k as [|k]; [simpl in L; lia|]. now rewrite replaceAll_step.
        - now rewrite untagged. }
      now rewrite N.
Qed.

Lemma skipNewlines_suffix (m : string -> option string) (s : string) :
  anyMatch m s = false -> anyMatch m (Regex.skipNewlines s) = false.
Proof.
  induction s as [|c s IH]; [trivial|]. intros H. cbn [Regex.skipNewlines].
  destruct (Ascii.eqb c LF); [|exact H].
  apply anyMatch_tail in H as [_ H]. now apply IH.
Qed.

Lemma skipNewlines_has (c : ascii) (s : string) :
  has c s = false -> has c (Regex.skipNewlines s) = false.
Proof.
  induction s as [|d s IH]; [trivial|]. intros H. cbn [Regex.skipNewlines].
  destruct (Ascii.eqb d LF); [|exact H].
  cbn [has] in H. apply orb_false_iff in H as [_ H]. now apply IH.
Qed.

Lemma newlines3_parts (s rest : string) :
  Regex.newlines3 s = Some rest ->
  exists t, s = String LF (String LF (String LF t))
            /\ rest = Regex.skipNewlines t.
Proof.
  unfold Regex.newlines3, Regex.bind.
  destruct (dropPrefix (NL ++ NL ++ NL) s) as [t|] eqn:D; [|discriminate].
  intros [= <-]. apply dropPrefix_split in D. now exists t.
Qed.

Lemma collapse_has (k : nat) :
  forall s, has ">" s = false ->
            has ">" (Regex.replaceAll Regex.newlines3 (NL ++ NL) k s) = false.
Proof.
  induction k as [|k IH]; intros s H; [exact H|].
  rewrite replaceAll_step. destruct (Regex.newlines3 s) as [rest|] eqn:E.
  - apply newlines3_parts in E as (t & -> & ->).
    cbn [has] in H. cbn [append NL chr has].
    change (ascii_of_nat 10) with LF. change (Ascii.eqb LF ">") with false.
    cbn [orb] in *. now apply IH, skipNewlines_has.
  - destruct s as [|c r]; [reflexivity|]. cbn [has] in *.
    apply orb_false_iff in H as [-> H]. now apply IH.
Qed.

Lemma collapse_tags (k : nat) :
  forall s, hasTag s = false ->
            hasTag (Regex.replaceAll Regex.newlines3 (NL ++ NL) k s) = false.
Proof.
  unfold hasTag. induction k as [|k IH]; intros s H; [exact H|].
  rewrite replaceAll_step. destruct (Regex.newlines3 s) as [rest|] eqn:E.
  - apply newlines3_parts in E as (t & -> & ->).
    apply anyMatch_tail in H as [_ H]. apply anyMatch_tail in H as [_ H].
    apply anyMatch_tail in H as [_ H].
    cbn [append NL chr]. change (ascii_of_nat 10) with LF.
    rewrite anyMatch_step, tag_unfold. change (Ascii.eqb LF "<") with false.
    cbv iota. rewrite anyMatch_step, tag_unfold.
    change (Ascii.eqb LF "<") with false. cbv iota.
    now apply IH, skipNewlines_suffix.
  - destruct s as [|c r]; [reflexivity|].
    apply anyMatch_tail in H as [T H].
    rewrite anyMatch_step, (IH _ H).
    assert (N : Regex.tag (String c (Regex.replaceAll Regex.newlines3
                                       (NL ++ NL) k r)) = None).
    { destruct (Ascii.eqb_spec c "<") as [->|N];
        [|rewrite tag_unfold; apply Ascii.eqb_neq in N; now rewrite N].
      destruct (tag_none _ T) as [->|[[r' ->]|G]].
      - now destruct k.
      - destruct k as [|k]; [exact T|]. now rewrite replaceAll_step.
      - apply tag_open. now apply collapse_has. }
    now rewrite N.
Qed.

Lemma stripMarkup_untagged (html : string) : hasTag (stripMarkup html) = false.
Proof.
  unfold stripMarkup. unfold Regex.replace at 1.
  apply collapse_tags. unfold Regex.replace at 1. apply tags_removed. lia.
Qed.

Lemma anyMatch_suffix (m : string -> option string) (a x : string) :
  anyMatch m (a ++ x) = false -> anyMatch m x = false.
Proof.
  induction a as [|c a IH]; [trivial|]. cbn [append]. intros H.
  apply anyMatch_tail in H as [_ H]. now apply IH.
Qed.

Lemma afterGt_extend (r b : string) :
  Regex.afterGt (r ++ b) = None -> Regex.afterGt r = None.
Proof.
  induction r as [|c r IH]; [reflexivity|]. cbn [append Regex.afterGt].
  destruct (Ascii.eqb c ">"); [discriminate | exact IH].
Qed.

Lemma tag_extend (t b : string) :
  Regex.tag (t ++ b) = None -> Regex.tag t = None.
Proof.
  destruct t as [|c [|d r]]; [reflexivity | |].
  - intros _. rewrite tag_unfold. now destruct (Ascii.eqb c "<").
  - cbn [append]. rewrite 2 tag_unfold.
    destruct (Ascii.eqb c "<"), (Ascii.eqb d ">"); trivial.
    apply afterGt_extend.
Qed.

Lemma hasTag_prefix (t b : string) :
  hasTag (t ++ b) = false -> hasTag t = false.
Proof.
  unfold hasTag. induction t as [|c t IH]; [reflexivity|]. intros H.
  pose proof (tag_extend (String c t) b) as E. cbn [append] in *.
  apply anyMatch_tail in H as [T H].
  now rewrite anyMatch_step, (E T), (IH H).
Qed.

Lemma hasTag_inside (a t b : string) :
  hasTag (a ++ t ++ b) = false -> hasTag t = false.
Proof.
  intros H. apply anyMatch_suffix in H. now apply hasTag_prefix in H.
Qed.

Lemma unmatched (m : string -> option string) (rep : string) (k : nat) :
  forall s, anyMatch m s = false -> Regex.replaceAll m rep k s = s.
Proof.
  induction k as [|k IH]; intros s H; [reflexivity|].
  rewrite replaceAll_step. rewrite anyMatch_step in H.
  destruct (m s); [discriminate|]. destruct s as [|c r]; [reflexivity|].
  f_equal. now apply IH.
Qed.

Lemma no_markup (m : string -> option string) (s : string) :
  m "" = None ->
  (forall c r, Ascii.eqb c "<" = false -> m (String c r) = None) ->
  has "<" s = false -> anyMatch m s = false.
Proof.
  intros E N. induction s as [|c s IH]; intros H; rewrite anyMatch_step.
  - now rewrite E.
  - cbn [has] in H. apply orb_false_iff in H as [C H].
    now rewrite (N _ _ C), IH.
Qed.

Lemma opens_with_lt (m : string -> option string) (c : ascii) (r : string) :
  Ascii.eqb c "<" = false ->
  Regex.bind (dropPrefix "<" (String c r)) m = None.
Proof.
  intros C. cbn [dropPrefix]. rewrite Ascii.eqb_sym, C. reflexivity.
Qed.

Lemma closes_with_lt (m : string -> option string) (c : ascii) (r : string) :
  Ascii.eqb c "<" = false ->
  Regex.bind (dropPrefix "</" (String c r)) m = None.
Proof.
  intros C. cbn [dropPrefix]. rewrite Ascii.eqb_sym, C. reflexivity.
Qed.

Lemma no_run (s : string) :
  Doc.newlineRun3 s = false -> anyMatch Regex.newlines3 s = false.
Proof.
  unfold Doc.newlineRun3.
  assert (P : forall t, String.prefix (NL ++ NL ++ NL) t = false ->
                        Regex.newlines3 t = None).
  { intros t F. unfold Regex.newlines3.
    destruct (dropPrefix (NL ++ NL ++ NL) t) as [r|] eqn:D; [|reflexivity].
    apply dropPrefix_split in D. subst t. now rewrite prefix_app in F. }
  induction s as [|c s IH]; intros H; apply not_included in H as [F H];
    rewrite anyMatch_step, (P _ F); [reflexivity | now apply IH].
Qed.

Lemma stripMarkup_identity (s : string) :
  plain s = true -> stripMarkup s = s.
Proof.
  unfold plain. intros H. apply andb_true_iff in H as [L R].
  apply negb_true_iff in L, R. unfold stripMarkup, Regex.replace.
  rewrite (unmatched Regex.br) by
    (apply no_markup; [reflexivity | apply opens_with_lt | exact L]).
  rewrite (unmatched Regex.closeP) by
    (apply no_markup; [reflexivity | apply closes_with_lt | exact L]).
  rewrite (unmatched Regex.closeDiv) by
    (apply no_markup; [reflexivity | apply closes_with_lt | exact L]).
  rewrite (unmatched Regex.tag) by
    (apply no_markup;
     [reflexivity | intros c r C; now rewrite tag_unfold, C | exact L]).
  apply unmatched. now apply no_run.
Qed.

Variable decode : string -> string.

(** X17 (one pass removes every tag).
    One pass removes every tag: after the replacements of [stripHtml], and
    before the entities are decoded, no match of the tag pattern is left,
    also where tags were nested in the input.  Where decoding leaves the
    text as it is, the result of [stripHtml] has no tag either. *)
Theorem stripHtml_leaves_no_tag :
  (forall html, hasTag (stripMarkup html) = false)
  /\ (forall html,
        decode (stripMarkup html) = stripMarkup html ->
        hasTag (stripHtml decode (Some html)) = false).
Proof.
  split; [apply stripMarkup_untagged|].
  intros [|c r] H; [reflexivity|]. cbn [stripHtml]. rewrite H.
  destruct (trim_inside (stripMarkup (String c r))) as (a & b & E).
  apply (hasTag_inside a _ b). rewrite <- E. apply stripMarkup_untagged.
Qed.

(** X18 (plain text passes).
    Text without markup passes through the replacements of [stripHtml]
    unchanged: with no [<] and no run of three newlines in it, only the
    decoding of entities and the trimming act on it. *)
Theorem stripHtml_plain_text (c : ascii) (r : string) :
  plain (String c r) = true ->
  stripMarkup (String c r) = String c r
  /\ stripHtml decode (Some (String c r)) = trim (decode (String c r)).
Proof.
  intros P. pose proof (stripMarkup_identity _ P) as E.
  split; [exact E|]. cbn [stripHtml]. now rewrite E.
Qed.

End Tags.

Lemma stripHtml_leaves_no_tag_witness :
  Scrape.stripMarkup Markup.nested = "aipt>b<>c<d"
  /\ Markup.hasTag (Scrape.stripHtml He.decode (Some Markup.nested)) = false.
Proof.
  split; [vm_compute; reflexivity|].
  apply (stripHtml_leaves_no_tag He.decode). vm_compute. reflexivity.
Defined.

Lemma stripHtml_plain_text_witness :
  Scrape.stripHtml He.decode (Some "Doors at 7 & music > 8")
  = "Doors at 7 & music > 8".
Proof.
  refine (eq_trans
            (proj2 (stripHtml_plain_text He.decode "D" "oors at 7 & music > 8" _))
            _).
  - reflexivity.
  - vm_compute. reflexivity.
Defined.

(** ** Dates without a time *)

Section BareDates.
Import Js Scrape Calendar.
Local Open Scope Z_scope.

Lemma isoDate_some (y m d : Z) : exists c r, isoDate y m d = String c r.
Proof. rewrite isoDate_chars. eauto. Qed.

Lemma startTimePart_bare (y m d : Z) :
  startTimePart (isoDate y m d) = Clock.text 0 0 0.
Proof. unfold startTimePart. now rewrite isoDate_whole_T. Qed.

Lemma toIcsDate_bare (y m d : Z) : toIcsDate (isoDate y m d) = icsDate (y, m, d).
Proof.
  unfold toIcsDate, replaceFirstSame, icsDate, four, two, digit.
  rewrite isoDate_chars. cbn [append].
  repeat first [ rewrite removeChars_keep
                   by first [apply digit_kept | reflexivity]
               | rewrite removeChars_drop by reflexivity ].
  cbn [removeChars].
  assert (W : forall s, split "." s = [s] -> first (split "." s) = s)
    by (intros s ->; reflexivity).
  apply W.
  repeat (apply split_keep; [first [apply digit_not_stop | reflexivity]|]).
  reflexivity.
Qed.

(** X10 (dates without a time).
    A record whose start is a bare date [YYYY-MM-DD], with no end or with
    the same bare date as its end, counts as starting and ending at
    midnight: it is rendered as a timed entry, and the values of its
    DTSTART and DTEND lines, which name the time zone, are the date alone. *)
Theorem bare_date_is_timed (e : Event) (y m d : Z) :
  Timing.fromOnly e (isoDate y m d)
  \/ Timing.fromTo e (isoDate y m d) (isoDate y m d) ->
  timeNote e (isoDate y m d) = None
  /\ dateLines e (isoDate y m d)
     = Timing.timedLines (icsDate (y, m, d)) (icsDate (y, m, d)).
Proof.
  intros H.
  assert (E : endDate e = None \/ endDate e = Some (isoDate y m d)).
  { destruct H as [[_ E]|[_ E]]; [left; now apply endDate_none|right].
    unfold endDate. rewrite E.
    destruct (isoDate_some y m d) as (c & r & ->). reflexivity. }
  assert (T : endTimePart e (isoDate y m d) = Clock.text 0 0 0).
  { unfold endTimePart. destruct E as [-> | ->];
      [apply startTimePart_bare|].
    rewrite isoDate_whole_T. cbn [second nth_error orElse].
    rewrite startTimePart_bare. reflexivity. }
  assert (D : endDatePart e (isoDate y m d) = startDatePart (isoDate y m d)).
  { unfold endDatePart. destruct E as [-> | ->]; reflexivity. }
  assert (A : isAllDay e (isoDate y m d) = false).
  { unfold isAllDay, isMultiDay, durationHours.
    rewrite D, String.eqb_refl, T, startTimePart_bare. cbn [negb orb].
    rewrite duration_threshold_off_boundary by lia. reflexivity. }
  unfold timeNote, dateLines. rewrite A. split; [reflexivity|].
  unfold Timing.timedLines. rewrite toIcsDate_bare.
  destruct E as [-> | ->]; now rewrite ?toIcsDate_bare.
Qed.

End BareDates.

Lemma bare_date_is_timed_witness :
  Scrape.dateLines Dated.bareDay "2026-03-05"
  = [ "DTSTART;TZID=America/New_York:20260305";
      "DTEND;TZID=America/New_York:20260305" ]%string.
Proof.
  refine (proj2 (bare_date_is_timed Dated.bareDay 2026 3 5 _)).
  right. split; reflexivity.
Defined.
